(** * OpenWeedLocator: detection-to-actuation pipeline

    A shallow embedding of the spray-decision code of [owl.py],
    [greenonbrown.py] and [utils/greenongreen.py], and of the command
    handling of [Owlcanbus.py] and [Owlcambus.py]. Of the five files,
    [owl.py] does not load as checked in (an [IndentationError], see
    module [OwlPy]); what is stated about it is stated about its text.

    Conventions.
    - Python [int] is [Z]; Python [float] is idealised as an exact
      rational [Q] (the lane partition is specified over the reals).
    - [int(v)] on a float truncates toward zero: [py_int].
    - A Python [dict] is a stdpp [gmap]; a missing key is [KeyError].
    - numpy images live in a store of objects and are passed around by
      reference, so that in-place drawing is visible to every alias. *)

From Stdlib Require Import ZArith QArith Qround Qabs Qminmax Lia Lqa Ascii.
From stdpp Require Import gmap strings list fin_maps pretty.

Local Open Scope Z_scope.

(** ** Python numerics *)

Module Py.

(** [int(q)]: truncation toward zero. *)
Definition py_int (q : Q) : Z := Z.quot (Qnum q) (Z.pos (Qden q)).

(** [a / b] on two ints is true division; [None] is [ZeroDivisionError]. *)
Definition truediv (a b : Z) : option Q :=
  if Z.eqb b 0 then None else Some (inject_Z a / inject_Z b)%Q.

(** [range(n)]. *)
Definition range (n : Z) : list Z := Z.of_nat <$> seq 0 (Z.to_nat n).

(** Exceptions that can reach the handlers of [hoot]. [SystemExit] is
    what [sys.exit()] raises; it is not an [Exception] and so passes
    through [except Exception]. *)
Inductive exn : Type :=
| KeyError | IndexError | AttributeError | ZeroDivisionError
| KeyboardInterrupt | SystemExit
| LibraryError (msg : string).

Definition is_Exception (e : exn) : bool :=
  match e with
  | KeyboardInterrupt | SystemExit => false
  | _ => true
  end.

Inductive outcome (A : Type) : Type :=
| Ok (a : A)
| Raise (e : exn).
Arguments Ok {A} a.
Arguments Raise {A} e.

(** Stateful, fallible code over a state [S]. *)
Definition Eff (S A : Type) : Type := S -> S * outcome A.

Definition ret {S A} (a : A) : Eff S A := fun s => (s, Ok a).
Definition raise {S A} (e : exn) : Eff S A := fun s => (s, Raise e).
Definition bind {S A B} (m : Eff S A) (k : A -> Eff S B) : Eff S B :=
  fun s => match m s with
           | (s', Ok a) => k a s'
           | (s', Raise e) => (s', Raise e)
           end.
Definition modify {S} (f : S -> S) : Eff S unit := fun s => (f s, Ok tt).

(** [try: m except: h], where [h] sees the exception and may decline
    it ([None]: the clause does not match and the exception goes on). *)
Definition try_except {S A} (m : Eff S A) (h : exn -> option (Eff S A))
  : Eff S A :=
  fun s => match m s with
           | (s', Ok a) => (s', Ok a)
           | (s', Raise e) =>
               match h e with
               | Some k => k s'
               | None => (s', Raise e)
               end
           end.

(** [for x in xs: body x]. *)
Fixpoint for_each {S A} (xs : list A) (body : A -> Eff S unit) : Eff S unit :=
  match xs with
  | [] => ret tt
  | x :: rest => bind (body x) (fun _ => for_each rest body)
  end.

(** [for x in xs: acc = body acc x], for loops that grow local lists. *)
Fixpoint for_fold {S A B} (xs : list A) (acc : B) (body : B -> A -> Eff S B)
  : Eff S B :=
  match xs with
  | [] => ret acc
  | x :: rest => bind (body acc x) (fun acc' => for_fold rest acc' body)
  end.

(** [d[k]] on a dict. *)
Definition getitem {S} `{Countable K} {V} (d : gmap K V) (k : K) : Eff S V :=
  match d !! k with
  | Some v => ret v
  | None => raise KeyError
  end.

End Py.

Declare Scope eff_scope.
Delimit Scope eff_scope with eff.
Notation "x <- y ;; z" := (Py.bind y (fun x => z))
  (at level 20, y at level 99, z at level 200, only parsing) : eff_scope.
Notation "' x <- y ;; z" := (Py.bind y (fun x => z))
  (at level 20, x pattern, y at level 99, z at level 200, only parsing)
  : eff_scope.
Notation "x ;; z" := (Py.bind x (fun _ => z))
  (at level 100, z at level 200, only parsing, right associativity)
  : eff_scope.

Local Open Scope eff_scope.
Import Py.

(** ** Python text *)

Module PyText.

(** [s.split(' ', 1)]: the text is cut at its first space; without a
    space the list has the text alone. *)
Fixpoint partition_space (s : string) : option (string * string) :=
  match s with
  | EmptyString => None
  | String c rest =>
      if Ascii.eqb c " "%char then Some (EmptyString, rest)
      else match partition_space rest with
           | Some (a, b) => Some (String c a, b)
           | None => None
           end
  end.

Definition split_space_1 (s : string) : list string :=
  match partition_space s with
  | Some (a, b) => [a; b]
  | None => [s]
  end.

(** [f"{n:x}"]: an int in lower-case hexadecimal. *)
Definition hex_digit (d : Z) : string :=
  match d with
  | 0 => "0" | 1 => "1" | 2 => "2" | 3 => "3" | 4 => "4" | 5 => "5"
  | 6 => "6" | 7 => "7" | 8 => "8" | 9 => "9" | 10 => "a" | 11 => "b"
  | 12 => "c" | 13 => "d" | 14 => "e" | _ => "f"
  end.

Fixpoint hex_digits (fuel : nat) (n : Z) : string :=
  match fuel with
  | O => ""
  | S fuel' =>
      if Z.ltb n 16 then hex_digit n
      else hex_digits fuel' (n / 16) +:+ hex_digit (n mod 16)
  end.

Definition format_x (n : Z) : string :=
  if Z.ltb n 0 then "-" +:+ hex_digits (S (Z.to_nat (Z.log2 (- n)))) (- n)
  else hex_digits (S (Z.to_nat (Z.log2 n))) n.

(** The builtins whose text handling is Python's own: [s.strip()],
    [int(s)] and [int(s, 16)] ([None] is [ValueError]), [str(e)] on an
    exception, and [strftime('%Y%m%d-%H%M%S')] on a clock reading. *)
Class Builtins : Type := {
  str_strip : string -> string;
  int_of_str : string -> option Z;
  int_of_hex : string -> option Z;
  str_of_exn : exn -> string;
  strftime : Q -> string
}.

End PyText.

Import PyText.

(** ** Images, the object store and the collaborators *)

(** A colour pixel (B, G, R), a colour frame as rows of pixels, a
    one-channel array as rows of numbers, a contour as its points. *)
Definition Pixel : Type := Z * Z * Z.
Definition Image : Type := list (list Pixel).
Definition Array2 : Type := list (list Q).
Definition Contour : Type := list (Z * Z).

(** [image.shape] as (height, width). *)
Definition shape (img : Image) : Z * Z :=
  (Z.of_nat (length img), Z.of_nat (length (default [] (head img)))).

(** A bounding box [[startX, startY, boxW, boxH]] and a centre
    [[centerX, centerY]]. *)
Record Box : Type := mkBox { startX : Z; startY : Z; boxW : Z; boxH : Z }.
Record Centre : Type := mkCentre { centre_x : Z; centre_y : Z }.

(** The arguments of one [receive] call on the relay controller. *)
Record Job : Type := mkJob {
  relay : Z;
  delay : Q;
  time_stamp : Q;
  duration : Q
}.

(** The part of the process state that the pipeline reads and writes:
    numpy arrays by reference, what was printed or logged, the jobs
    handed to the relay controller, the relay outputs, the wall clock
    ([time.time()] returns [clock ticks] and advances [ticks]). *)
Record World : Type := mkWorld {
  store : gmap positive Image;
  stdout : list string;
  received : list Job;
  relays : list bool;
  controller_running : bool;
  cam_running : bool;
  beeps : nat;
  clock : nat -> Q;
  ticks : nat
}.

Definition set_store (f : gmap positive Image -> gmap positive Image)
  (w : World) : World :=
  mkWorld (f (store w)) (stdout w) (received w) (relays w)
          (controller_running w) (cam_running w) (beeps w) (clock w) (ticks w).
Definition set_stdout (f : list string -> list string) (w : World) : World :=
  mkWorld (store w) (f (stdout w)) (received w) (relays w)
          (controller_running w) (cam_running w) (beeps w) (clock w) (ticks w).
Definition set_received (f : list Job -> list Job) (w : World) : World :=
  mkWorld (store w) (stdout w) (f (received w)) (relays w)
          (controller_running w) (cam_running w) (beeps w) (clock w) (ticks w).
Definition set_relays (f : list bool -> list bool) (w : World) : World :=
  mkWorld (store w) (stdout w) (received w) (f (relays w))
          (controller_running w) (cam_running w) (beeps w) (clock w) (ticks w).
Definition set_controller_running (b : bool) (w : World) : World :=
  mkWorld (store w) (stdout w) (received w) (relays w)
          b (cam_running w) (beeps w) (clock w) (ticks w).
Definition set_cam_running (b : bool) (w : World) : World :=
  mkWorld (store w) (stdout w) (received w) (relays w)
          (controller_running w) b (beeps w) (clock w) (ticks w).
Definition set_beeps (f : nat -> nat) (w : World) : World :=
  mkWorld (store w) (stdout w) (received w) (relays w)
          (controller_running w) (cam_running w) (f (beeps w)) (clock w) (ticks w).
Definition set_ticks (f : nat -> nat) (w : World) : World :=
  mkWorld (store w) (stdout w) (received w) (relays w)
          (controller_running w) (cam_running w) (beeps w) (clock w) (f (ticks w)).

(** [print(line)] and [logger.log_line(line)]. *)
Definition print (line : string) : Eff World unit :=
  modify (set_stdout (fun out => out ++ [line])).

(** [time.time()]. *)
Definition time_time : Eff World Q :=
  fun w => (set_ticks S w, Ok (clock w (ticks w))).

(** [a.copy()]: a fresh array with the same contents. *)
Definition np_copy (a : positive) : Eff World positive :=
  fun w => match store w !! a with
           | Some img =>
               let l := fresh (dom (store w)) in
               (set_store (insert l img) w, Ok l)
           | None => (w, Raise AttributeError)
           end.

(** Read an array through its reference. *)
Definition deref (a : positive) : Eff World Image :=
  fun w => match store w !! a with
           | Some img => (w, Ok img)
           | None => (w, Raise AttributeError)
           end.

(** An in-place update of the array behind a reference, as the cv2
    drawing calls do. *)
Definition draw (a : positive) (f : Image -> Image) : Eff World unit :=
  modify (set_store (alter f a)).

(** Modelled from the spec: the relay controller and relay driver of
    [utils/relay_control], which is not among the sources. Section 6:
    the driver offers [all_on()], [all_off()] and [beep]; section 5:
    submitting a job is a hand-off that does not block. [receive]
    records the job, [all_off] and [all_on] drive every relay output. *)
Definition receive (relay : Z) (delay time_stamp duration : Q)
  : Eff World unit :=
  modify (set_received (fun q => q ++ [mkJob relay delay time_stamp duration])).
Definition all_off : Eff World unit :=
  modify (set_relays (fun rs => (fun _ => false) <$> rs)).
Definition all_on : Eff World unit :=
  modify (set_relays (fun rs => (fun _ => true) <$> rs)).
Definition beep : Eff World unit := modify (set_beeps S).

(** The functions imported from OpenCV and imutils. *)
Class OpenCV : Type := {
  cv2_rectangle : Image -> Z * Z -> Z * Z -> Pixel -> Z -> Image;
  cv2_putText : Image -> string -> Z * Z -> Pixel -> Z -> Image;
  cv2_resize : Image -> Z * Z -> Image;
  cv2_cvtColor_BGR2RGB : Image -> Image;
  cv2_cvtColor_BGR2GRAY : Image -> Image;
  cv2_adaptiveThreshold : Array2 -> Array2;
  cv2_morphologyEx_close : Array2 -> Z -> Array2;
  cv2_findContours : Array2 -> list Contour;
  cv2_contourArea : Contour -> Q;
  cv2_boundingRect : Contour -> Z * Z * Z * Z
}.

(** The functions imported from [algorithms], which is not among the
    sources: each maps a frame to a one-channel response; [hsv] also
    returns the flag that says whether its output is already binary. *)
Record HsvRange : Type := mkHsvRange {
  hueMin : Z; hueMax : Z;
  brightnessMin : Z; brightnessMax : Z;
  saturationMin : Z; saturationMax : Z
}.

Class Algorithms : Type := {
  exg : Image -> Array2;
  exgr : Image -> Array2;
  maxg : Image -> Array2;
  exg_standardised : Image -> Array2;
  exg_standardised_hue : Image -> HsvRange -> Array2;
  hsv : Image -> HsvRange -> Array2 * bool;
  gndvi : Image -> Array2
}.

(** The frame source and key presses are inputs: [cam.read()] delivers
    a frame or raises (a camera fault, or the operator's interrupt
    while the loop waits for the frame); when the list of cycles is
    used up, [cam.read()] returns [None]. *)
Inductive CamEvent : Type :=
| FrameArrives (img : Image)
| ReadRaises (e : exn).

Definition cam_read (ev : CamEvent) : Eff World positive :=
  match ev with
  | FrameArrives img =>
      fun w => let l := fresh (dom (store w)) in
               (set_store (insert l img) w, Ok l)
  | ReadRaises e => raise e
  end.

Definition cam_stop : Eff World unit := modify (set_cam_running false).

(** ** greenonbrown.py *)

Module GreenOnBrownPy.
Section Source.
Context `{OpenCV} `{Algorithms}.

(** [np.where(a > t, a, 0)], [np.where(a > t, 0, a)] and
    [np.uint8(np.abs(a))]. *)
Definition pointwise (f : Q -> Q) (a : Array2) : Array2 := map (map f) a.
Definition np_where_gt_keep (t : Z) : Array2 -> Array2 :=
  pointwise (fun v => if Qle_bool v (inject_Z t) then 0%Q else v).
Definition np_where_gt_zero (t : Z) : Array2 -> Array2 :=
  pointwise (fun v => if Qle_bool v (inject_Z t) then v else 0%Q).
Definition np_uint8_abs : Array2 -> Array2 :=
  pointwise (fun v => inject_Z (py_int (Qabs v) mod 256)).

(** Lines 43-71: the vegetation index chosen by [algorithm], with the
    flag [threshedAlready]. *)
Definition select_algorithm (image : Image) (rng : HsvRange)
  (algorithm : string) : Eff World (Array2 * bool) :=
  let threshedAlready := false in
  if String.eqb algorithm "exg" then ret (exg image, threshedAlready)
  else if String.eqb algorithm "exgr" then ret (exgr image, threshedAlready)
  else if String.eqb algorithm "maxg" then ret (maxg image, threshedAlready)
  else if String.eqb algorithm "nexg"
       then ret (exg_standardised image, threshedAlready)
  else if String.eqb algorithm "exhsv"
       then ret (exg_standardised_hue image rng, threshedAlready)
  else if String.eqb algorithm "hsv" then ret (hsv image rng)
  else if String.eqb algorithm "gndvi" then ret (gndvi image, threshedAlready)
  else
    let output := exg image in
    print "[WARNING] DEFAULTED TO EXG" ;;
    ret (output, threshedAlready).

(** Lines 76-91: the two [if] statements on [threshedAlready]. *)
Definition clamp_and_threshold (output : Array2) (exgMin exgMax : Z)
  : Array2 :=
  let output := np_where_gt_keep exgMin output in
  let output := np_where_gt_zero exgMax output in
  let output := np_uint8_abs output in
  let thresholdOut := cv2_adaptiveThreshold output in
  cv2_morphologyEx_close thresholdOut 1.

Definition run_thresholds (output : Array2) (threshedAlready : bool)
  (exgMin exgMax : Z) : Array2 :=
  if threshedAlready then cv2_morphologyEx_close output 5
  else clamp_and_threshold output exgMin exgMax.

(** Lines 102-115: one turn of the loop over the contours. The
    rectangle is drawn on the array behind [image]. *)
Definition contour_step (image : positive) (minArea : Z)
  (acc : list Box * list Centre) (c : Contour)
  : Eff World (list Box * list Centre) :=
  let '(boxes, weedCenters) := acc in
  if negb (Qle_bool (cv2_contourArea c) (inject_Z minArea)) then
    let '(startX, startY, boxW, boxH) := cv2_boundingRect c in
    let endX := startX + boxW in
    let endY := startY + boxH in
    draw image (fun img =>
      cv2_rectangle img (startX, startY) (endX, endY) (0, 0, 255) 2) ;;
    let boxes := boxes ++ [mkBox startX startY boxW boxH] in
    let centerX := py_int (inject_Z startX + inject_Z boxW / 2) in
    let centerY := py_int (inject_Z startY + inject_Z boxH / 2) in
    ret (boxes, weedCenters ++ [mkCentre centerX centerY])
  else ret (boxes, weedCenters).

(** [green_on_brown]; [show_display] only opens windows and is left
    out. The result is [(cnts, boxes, weedCenters, image)]. *)
Definition green_on_brown (image : positive) (exgMin exgMax : Z)
  (rng : HsvRange) (minArea : Z) (algorithm : string)
  : Eff World (list Contour * list Box * list Centre * positive) :=
  img <- deref image ;;
  ' (output, threshedAlready) <- select_algorithm img rng algorithm ;;
  let thresholdOut := run_thresholds output threshedAlready exgMin exgMax in
  let cnts := cv2_findContours thresholdOut in
  ' (boxes, weedCenters) <- for_fold cnts ([], []) (contour_step image minArea) ;;
  ret (cnts, boxes, weedCenters, image).

(** The attributes of [Owl] that the loop of [hoot] uses. *)
Record Owl : Type := mkOwl {
  exgMin : Z;
  exgMax : Z;
  hsv_range : HsvRange;
  nozzleNum : Z;
  laneCoords : gmap Z Z;
  yAct : Z
}.

Definition set_laneCoords (d : gmap Z Z) (self : Owl) : Owl :=
  mkOwl (exgMin self) (exgMax self) (hsv_range self) (nozzleNum self) d
        (yAct self).
Definition set_yAct (y : Z) (self : Owl) : Owl :=
  mkOwl (exgMin self) (exgMax self) (hsv_range self) (nozzleNum self)
        (laneCoords self) y.

(** [Owl.stop]. Recording is off ([self.record] is [False]) and no
    window is open. [sys.exit()] raises [SystemExit]. *)
Definition stop : Eff World unit :=
  modify (set_controller_running false) ;;
  all_off ;;
  beep ;;
  beep ;;
  cam_stop ;;
  raise SystemExit.

(** Lines 286-289: [self.laneCoords[i] = int(i * laneWidth)]. *)
Definition lane_coords_loop (laneWidth : Q) (nozzleNum : Z)
  (laneCoords : gmap Z Z) : gmap Z Z :=
  foldl (fun d i => <[i := py_int (inject_Z i * laneWidth)]> d)
        laneCoords (range nozzleNum).

(** Line 298: [int(self.laneCoords[i]) <= centre[0] <
    int(self.laneCoords[i] + laneWidth)]. *)
Definition in_lane (laneCoords : gmap Z Z) (laneWidth : Q) (x : Z) (i : Z)
  : Eff World bool :=
  lane_start <- getitem laneCoords i ;;
  ret (Z.leb lane_start x
       && Z.ltb x (py_int (inject_Z lane_start + laneWidth))).

(** Lines 296-301: the loop over the nozzles for one centre. *)
Definition nozzle_loop (self : Owl) (laneWidth : Q) (x : Z)
  (delay sprayTime sprayDur : Q) : Eff World unit :=
  for_each (range (nozzleNum self)) (fun i =>
    hit <- in_lane (laneCoords self) laneWidth x i ;;
    if hit then receive i delay sprayTime sprayDur else ret tt).

(** Lines 292-301: the loop over the weed centres. *)
Definition spray_loop (self : Owl) (laneWidth : Q) (delay sprayDur : Q)
  (weedCentres : list Centre) : Eff World unit :=
  for_each weedCentres (fun centre =>
    if Z.ltb (yAct self) (centre_y centre) then
      sprayTime <- time_time ;;
      nozzle_loop self laneWidth (centre_x centre) delay sprayTime sprayDur
    else ret tt).

(** Lines 260-301: detection and spray decisions on one frame. The
    result is the updated [self] and the references [frame] and
    [imageOut]. *)
Definition process_frame (self : Owl) (frame : positive)
  (sprayDur delay : Q) (algorithm : string) (minArea : Z)
  : Eff World (Owl * positive) :=
  frame_copy <- np_copy frame ;;
  ' (cnts, boxes, weedCentres, imageOut) <-
      green_on_brown frame_copy (exgMin self) (exgMax self) (hsv_range self)
                     minArea algorithm ;;
  frame_img <- deref frame ;;
  out_img <- deref imageOut ;;
  let self := set_yAct (py_int ((2 # 10) * inject_Z (fst (shape frame_img))))
                       self in
  match truediv (snd (shape out_img)) (nozzleNum self) with
  | None => raise ZeroDivisionError
  | Some laneWidth =>
      let self := set_laneCoords
                    (lane_coords_loop laneWidth (nozzleNum self)
                                      (laneCoords self)) self in
      spray_loop self laneWidth delay sprayDur weedCentres ;;
      ret (self, imageOut)
  end.

(** One pass of [while True]: the frame read and the key returned by
    [cv2.waitKey(1) & 0xFF] are inputs. *)
Record Cycle : Type := mkCycle { cam_event : CamEvent; key : Z }.

(** Lines 223-326: the loop. When the frames are used up [cam.read()]
    returns [None] and the loop stops the rig. *)
Fixpoint hoot_loop (cycles : list Cycle) (self : Owl)
  (sprayDur delay : Q) (algorithm : string) (minArea : Z)
  : Eff World unit :=
  match cycles with
  | [] =>
      print "[INFO] Stopped." ;;
      stop
  | c :: rest =>
      frame <- cam_read (cam_event c) ;;
      ' (self, imageOut) <-
          process_frame self frame sprayDur delay algorithm minArea ;;
      if Z.eqb (key c) 27 then
        print "[INFO] Stopped." ;;
        stop
      else hoot_loop rest self sprayDur delay algorithm minArea
  end.

(** [Owl.hoot]: the loop inside [try], with the two handlers of lines
    328-335. *)
Definition hoot (cycles : list Cycle) (self : Owl)
  (sprayDur delay : Q) (algorithm : string) (minArea : Z)
  : Eff World unit :=
  try_except (hoot_loop cycles self sprayDur delay algorithm minArea)
    (fun e =>
       match e with
       | KeyboardInterrupt =>
           Some (print "[INFO] Stopped." ;; stop)
       | SystemExit => None
       | _ =>
           Some (beep ;; print "[CRITICAL ERROR] STOPPED")
       end).

End Source.
End GreenOnBrownPy.

(** ** utils/greenongreen.py *)

Module GreenOnGreenPy.
Section Source.
Context `{OpenCV}.

(** An output tensor of the detector: [detection_boxes] has one row
    [(ymin, xmin, ymax, xmax)] per detection, the other two have one
    number per detection. *)
Inductive Tensor : Type :=
| Rows (r : list (Q * Q * Q * Q))
| Vec (v : list Q).

Definition shape0 (t : Tensor) : Z :=
  match t with
  | Rows r => Z.of_nat (length r)
  | Vec v => Z.of_nat (length v)
  end.

(** [t[i]] where a number is expected. A row in its place fails in the
    comparison that follows (the truth value of an array). *)
Definition item (t : Tensor) (i : Z) : Eff World Q :=
  match t with
  | Vec v =>
      match v !! Z.to_nat i with
      | Some q => ret q
      | None => raise IndexError
      end
  | Rows r =>
      match r !! Z.to_nat i with
      | Some _ => raise (LibraryError "ValueError")
      | None => raise IndexError
      end
  end.

(** [ymin, xmin, ymax, xmax = t[i]]. *)
Definition row (t : Tensor) (i : Z) : Eff World (Q * Q * Q * Q) :=
  match t with
  | Rows r =>
      match r !! Z.to_nat i with
      | Some b => ret b
      | None => raise IndexError
      end
  | Vec v =>
      match v !! Z.to_nat i with
      | Some _ => raise (LibraryError "TypeError")
      | None => raise IndexError
      end
  end.

(** The attributes of a [GreenOnGreen] object that [inference] reads.
    [__init__] assigns [input_shape], [labels] and [output_names]; it
    does not assign [input_vstreams] or [output_vstreams], which are
    [None] here until something attaches them. An attached output
    stream answers the input written with the list of tensors. *)
Record GreenOnGreen : Type := mkGreenOnGreen {
  input_shape : Z * Z * Z;
  labels : gmap Z string;
  output_names : list string;
  input_vstreams : option unit;
  output_vstreams : option (Image -> list Tensor)
}.

(** [read_label_file]: the lines of the label file are an input;
    [None] is a file that cannot be opened. A line is stripped and cut
    at its first space; a line with no space is passed over. *)
Definition label_step `{Builtins} (labels : gmap Z string) (line : string)
  : Eff World (gmap Z string) :=
  match split_space_1 (str_strip line) with
  | [pair0; pair1] =>
      match int_of_str pair0 with
      | Some class => ret (<[class := pair1]> labels)
      | None => raise (LibraryError "ValueError")
      end
  | _ => ret labels
  end.

Definition read_label_file `{Builtins} (label_file : option (list string))
  : Eff World (gmap Z string) :=
  match label_file with
  | None => raise (LibraryError "FileNotFoundError")
  | Some lines => for_fold lines ∅ label_step
  end.

(** Lines 33-58 of [__init__], once the model file is chosen: the
    labels are read and the configured device reports its input
    streams (their shapes) and its output streams (their names, and
    their shapes as text). No line of [__init__] assigns
    [input_vstreams] or [output_vstreams]. *)
Definition __init__ `{Builtins} (label_file : option (list string))
  (input_vstream_infos : list (Z * Z * Z))
  (output_vstream_infos : list (string * string))
  : Eff World GreenOnGreen :=
  labels <- read_label_file label_file ;;
  match input_vstream_infos with
  | [] => raise IndexError
  | input_shape :: _ =>
      let output_names := fst <$> output_vstream_infos in
      print "Output VStreams:" ;;
      for_each output_vstream_infos (fun info =>
        print ("Name: " +:+ info.1 +:+ ", Shape: " +:+ info.2)) ;;
      ret (mkGreenOnGreen input_shape labels output_names None None)
  end.

(** [dict(zip(names, data))]: a later pair replaces an earlier one. *)
Definition dict_zip (names : list string) (data : list Tensor)
  : gmap string Tensor :=
  foldl (fun d kv => <[kv.1 := kv.2]> d) ∅ (zip names data).

(** Line 134: the text drawn next to a box. *)
Definition label_text (self : GreenOnGreen) (score class : Q) : string :=
  let percent := py_int (100 * score) in
  let name := default (pretty (py_int class)) (labels self !! py_int class) in
  pretty percent +:+ "% " +:+ name.

(** Lines 115-137: one turn of the loop over the detections. *)
Definition detection_step (self : GreenOnGreen) (image : positive)
  (width height : Z) (boxes classes scores : Tensor)
  (confidence : Q) (filter_id : Z)
  (acc : list Box * list Centre) (i : Z)
  : Eff World (list Box * list Centre) :=
  let '(self_boxes, weed_centers) := acc in
  score <- item scores i ;;
  if Qle_bool confidence score then
    class <- item classes i ;;
    if Qeq_bool class (inject_Z filter_id) then
      ' (ymin, xmin, ymax, xmax) <- row boxes i ;;
      let startX := py_int (xmin * inject_Z width) in
      let startY := py_int (ymin * inject_Z height) in
      let endX := py_int (xmax * inject_Z width) in
      let endY := py_int (ymax * inject_Z height) in
      let boxW := endX - startX in
      let boxH := endY - startY in
      let self_boxes := self_boxes ++ [mkBox startX startY boxW boxH] in
      let centerX := py_int (inject_Z startX + inject_Z boxW / 2) in
      let centerY := py_int (inject_Z startY + inject_Z boxH / 2) in
      let weed_centers := weed_centers ++ [mkCentre centerX centerY] in
      let label := label_text self score class in
      draw image (fun img =>
        cv2_rectangle img (startX, startY) (endX, endY) (0, 0, 255) 2) ;;
      draw image (fun img =>
        cv2_putText img label (startX, startY + 30) (255, 0, 0) 2) ;;
      ret (self_boxes, weed_centers)
    else ret (self_boxes, weed_centers)
  else ret (self_boxes, weed_centers).

(** Lines 72-85: the frame resized and converted for the detector. *)
Definition preprocess (self : GreenOnGreen) (img : Image) : Image :=
  let '(input_height, input_width, input_channels) := input_shape self in
  let resized_image := cv2_resize img (input_width, input_height) in
  if Z.eqb input_channels 3 then cv2_cvtColor_BGR2RGB resized_image
  else cv2_cvtColor_BGR2GRAY resized_image.

(** [GreenOnGreen.inference]. The result is
    [(None, self.boxes, self.weed_centers, image)]. *)
Definition inference (self : GreenOnGreen) (image : positive)
  (confidence : Q) (filter_id : Z)
  : Eff World (option (list Contour) * list Box * list Centre * positive) :=
  img <- deref image ;;
  let '(height, width) := shape img in
  let input_image := preprocess self img in
  match input_vstreams self with
  | None => raise AttributeError
  | Some _ =>
      match output_vstreams self with
      | None => raise AttributeError
      | Some read =>
          let output_data := read input_image in
          let outputs := dict_zip (output_names self) output_data in
          match outputs !! "detection_boxes",
                outputs !! "detection_classes",
                outputs !! "detection_scores" with
          | Some boxes, Some classes, Some scores =>
              let num_detections := shape0 boxes in
              ' (self_boxes, weed_centers) <-
                  for_fold (range num_detections) (@nil Box, @nil Centre)
                    (detection_step self image width height
                                    boxes classes scores
                                    confidence filter_id) ;;
              ret (None, self_boxes, weed_centers, image)
          | _, _, _ =>
              print "Output tensors not found." ;;
              ret (None, [], [], image)
          end
      end
  end.

End Source.
End GreenOnGreenPy.

(** ** owl.py *)

Module OwlPy.

(** As checked in, [owl.py] does not load: [def __init__] on line 30
    is indented by three spaces and the methods from line 62 on by
    four, which Python refuses with an [IndentationError], so no
    function of the file ever runs. This module embeds the lane set-up
    and the spray loop of the file as they read with line 30 indented
    like the other methods; every statement about [OwlPy] is a
    statement about that repaired text, not about code that runs. The
    loop around them, [hoot] and [stop], is not embedded. *)

(** The attributes of [Owl] that the lane set-up assigns and the
    spray loop reads. *)
Record Owl : Type := mkOwl {
  frame_width : Z;
  frame_height : Z;
  relay_num : Z;
  yAct : Z;
  lane_width : Q;
  lane_coords : gmap Z Z
}.

(** [{i: f(i) for i in range(n)}]. *)
Definition dict_of_range (f : Z -> Z) (n : Z) : gmap Z Z :=
  foldl (fun d i => <[i := f i]> d) ∅ (range n).

(** [Owl._setup_lane_coordinates], with the frame size and
    [relay_num] that the earlier set-up steps read. *)
Definition _setup_lane_coordinates (frame_width frame_height relay_num : Z)
  : outcome Owl :=
  let yAct := py_int ((1 # 100) * inject_Z frame_height) in
  match truediv frame_width relay_num with
  | None => Raise ZeroDivisionError
  | Some lane_width =>
      Ok (mkOwl frame_width frame_height relay_num yAct lane_width
            (dict_of_range (fun i => py_int (inject_Z i * lane_width))
                           relay_num))
  end.

(** Lines 297-304: the loop over the relays for one centre. *)
Definition relay_loop (self : Owl) (lane_coords_int : gmap Z Z)
  (centre_x : Z) (delay actuation_time actuation_duration : Q)
  : Eff World unit :=
  for_each (range (relay_num self)) (fun i =>
    lane_start <- getitem lane_coords_int i ;;
    let lane_end := (inject_Z lane_start + lane_width self)%Q in
    if Z.leb lane_start centre_x
       && negb (Qle_bool lane_end (inject_Z centre_x))
    then receive i delay actuation_time actuation_duration
    else ret tt).

(** Lines 285-304: the loop over the weed centres.
    [lane_coords_int] applies [int] to values that are ints already. *)
Definition spray_loop (self : Owl) (delay actuation_duration : Q)
  (weed_centres : list Centre) : Eff World unit :=
  let lane_coords_int := lane_coords self in
  for_each weed_centres (fun centre =>
    if Z.ltb (yAct self) (centre_y centre) then
      actuation_time <- time_time ;;
      let centre_x := centre_x centre in
      relay_loop self lane_coords_int centre_x delay actuation_time
                 actuation_duration
    else ret tt).

End OwlPy.

(** ** Owlcanbus.py and Owlcambus.py *)

(** The process state of the rigs that take commands over a link: the
    [World] of the pipeline, the messages that went out to the server
    (on the client socket of [Owlcanbus.py], on the publisher of
    [Owlcambus.py]), whether the client socket is open and whether the
    listener process is alive. *)
Record Bus : Type := mkBus {
  world : World;
  outbox : list string;
  socket_open : bool;
  listener_alive : bool
}.

Definition set_world (w : World) (b : Bus) : Bus :=
  mkBus w (outbox b) (socket_open b) (listener_alive b).
Definition set_outbox (f : list string -> list string) (b : Bus) : Bus :=
  mkBus (world b) (f (outbox b)) (socket_open b) (listener_alive b).
Definition set_socket_open (o : bool) (b : Bus) : Bus :=
  mkBus (world b) (outbox b) o (listener_alive b).
Definition set_listener_alive (a : bool) (b : Bus) : Bus :=
  mkBus (world b) (outbox b) (socket_open b) a.

(** A step of the pipeline, run in the larger state. *)
Definition in_world {A} (m : Eff World A) : Eff Bus A :=
  fun b => let '(w, r) := m (world b) in (set_world w b, r).

(** What the listener is handed next: a message, or an exception out
    of the receive call. *)
Inductive Arrival : Type :=
| Received (message : string)
| ReceiveRaises (e : exn).

Definition receive_next (a : Arrival) : Eff Bus string :=
  match a with
  | Received message => ret message
  | ReceiveRaises e => raise e
  end.

(** [except Exception as e: h e]. *)
Definition except_Exception {S A} (h : exn -> Eff S A) (e : exn)
  : option (Eff S A) :=
  if is_Exception e then Some (h e) else None.

Module OwlCanBusPy.
Section Source.
Context `{Builtins}.

(** [self._config_path], as its directory and its file name. *)
Variables (config_dir config_name : string).

Definition ERROR_CODES : gmap Z string :=
  {[ 0x401 := "Camera Error"; 0x402 := "Relay Error";
     0x403 := "Processing Error"; 0x404 := "Configuration Error" ]}.

(** [self.client_socket.send(...)]: a closed socket raises [OSError]. *)
Definition socket_send (message : string) : Eff Bus unit :=
  fun b => if socket_open b
           then (set_outbox (fun o => o ++ [message]) b, Ok tt)
           else (b, Raise (LibraryError "OSError")).

Definition send_status_to_server (status_message : string) : Eff Bus unit :=
  try_except
    (socket_send status_message ;;
     in_world (print ("[STATUS] Sent to server: " +:+ status_message)))
    (except_Exception (fun e =>
       in_world (print ("Error sending status to server: "
                        +:+ str_of_exn e)))).

Definition report_error (error_code : Z) (error_message : string)
  : Eff Bus unit :=
  name <- getitem ERROR_CODES error_code ;;
  let full_message :=
    format_x error_code +:+ " " +:+ name +:+ ": " +:+ error_message in
  send_status_to_server full_message ;;
  in_world (print ("[ERROR REPORT] Sent to server: " +:+ full_message)).

(** [OwlClient.save_parameters]: the new file name is computed and
    announced; the lines that would write the file are not there. *)
Definition save_parameters : Eff Bus unit :=
  try_except
    (now <- in_world time_time ;;
     let timestamp := strftime now in
     let new_config_filename := timestamp +:+ "_" +:+ config_name in
     let new_config_path := config_dir +:+ "/" +:+ new_config_filename in
     in_world (print ("[INFO] Configuration saved to " +:+ new_config_path)))
    (except_Exception (fun e =>
       report_error 0x404
         ("Failed to save configuration: " +:+ str_of_exn e))).

(** [OwlClient.stop]. The switch controller and the image sampler
    hold no relay and are left out; no window is open. *)
Definition stop : Eff Bus unit :=
  in_world (modify (set_controller_running false)) ;;
  in_world all_off ;;
  in_world cam_stop ;;
  modify (set_socket_open false) ;;
  in_world (print "[INFO] Disconnected from server.") ;;
  raise SystemExit.

Definition execute_can_command (command : string) : Eff Bus unit :=
  if String.eqb command "pause" then
    in_world (print "[ACTION] Pausing script...")
  else if String.eqb command "play" then
    in_world (print "[ACTION] Playing script...")
  else if String.eqb command "boom_flush" then
    in_world (print "[ACTION] Boom Flush - Turning all relays ON!") ;;
    in_world all_on
  else if String.eqb command "stop" then
    in_world (print "[ACTION] Stopping script...") ;;
    stop
  else if String.eqb command "save_config" then
    in_world (print "[ACTION] Saving current configuration...") ;;
    save_parameters
  else ret tt.

(** [OwlClient.listen_for_commands]: one pass of [while True] returns
    whether the loop goes on ([break] is [false]); when no arrival is
    left the listener waits in [recv]. *)
Definition listen_pass (a : Arrival) : Eff Bus bool :=
  try_except
    (command <- receive_next a ;;
     (if negb (String.eqb command "") then
        in_world (print ("Received command: " +:+ command)) ;;
        execute_can_command command
      else ret tt) ;;
     ret true)
    (except_Exception (fun e =>
       in_world (print ("Error receiving command: " +:+ str_of_exn e)) ;;
       ret false)).

Fixpoint listen_for_commands (arrivals : list Arrival) : Eff Bus unit :=
  match arrivals with
  | [] => ret tt
  | a :: rest =>
      go_on <- listen_pass a ;;
      if go_on then listen_for_commands rest else ret tt
  end.

(** One pass of [while True] in [hoot]: the frame read and the key
    returned by [cv2.waitKey(1) & 0xFF] are inputs. *)
Record Cycle : Type := mkCycle { cam_event : CamEvent; key : Z }.

(** [OwlClient.hoot], lines 214-242, with [log_fps] off: between the
    frame read and the key test the loop only counts the frame. *)
Fixpoint hoot_loop (cycles : list Cycle) : Eff Bus unit :=
  match cycles with
  | [] => stop
  | c :: rest =>
      frame <- in_world (cam_read (cam_event c)) ;;
      if Z.eqb (key c) 115 then
        save_parameters ;;
        hoot_loop rest
      else if Z.eqb (key c) 27 then stop
      else hoot_loop rest
  end.

Definition hoot (cycles : list Cycle) : Eff Bus unit :=
  try_except (hoot_loop cycles)
    (fun e =>
       match e with
       | KeyboardInterrupt => Some stop
       | SystemExit => None
       | _ =>
           Some (report_error 0x403 ("Processing error: " +:+ str_of_exn e) ;;
                 stop)
       end).

End Source.
End OwlCanBusPy.

Module OwlCamBusPy.
Section Source.
Context `{Builtins}.

Variables (config_dir config_name : string).

Definition CAN_COMMANDS : gmap Z string :=
  {[ 0x301 := "pause"; 0x302 := "play"; 0x303 := "boom_flush";
     0x304 := "stop"; 0x305 := "save_config" ]}.

Definition ERROR_CODES : gmap Z string :=
  {[ 0x401 := "Camera Error"; 0x402 := "Relay Error";
     0x403 := "Processing Error"; 0x404 := "Configuration Error" ]}.

(** [Owl.report_error]: the message goes out on the publisher. *)
Definition report_error (error_code : Z) (error_message : string)
  : Eff Bus unit :=
  name <- getitem ERROR_CODES error_code ;;
  let full_message :=
    format_x error_code +:+ " " +:+ name +:+ ": " +:+ error_message in
  modify (set_outbox (fun o => o ++ [full_message])) ;;
  in_world (print ("[ERROR REPORT] Sent to server: " +:+ full_message)).

Definition save_parameters : Eff Bus unit :=
  try_except
    (now <- in_world time_time ;;
     let timestamp := strftime now in
     let new_config_filename := timestamp +:+ "_" +:+ config_name in
     let new_config_path := config_dir +:+ "/" +:+ new_config_filename in
     in_world (print ("[INFO] Configuration saved to " +:+ new_config_path)))
    (except_Exception (fun e =>
       report_error 0x404
         ("Failed to save configuration: " +:+ str_of_exn e))).

(** [Owl.stop], as the main process runs it: the listener process is
    terminated and joined. The switch controller and the image
    sampler are left out; no window is open. *)
Definition stop : Eff Bus unit :=
  in_world (modify (set_controller_running false)) ;;
  in_world all_off ;;
  in_world cam_stop ;;
  modify (set_listener_alive false) ;;
  raise SystemExit.

Definition execute_can_command (command : string) : Eff Bus unit :=
  if String.eqb command "pause" then
    in_world (print "[ACTION] Pausing script...")
  else if String.eqb command "play" then
    in_world (print "[ACTION] Playing script...")
  else if String.eqb command "boom_flush" then
    in_world (print "[ACTION] Boom Flush - Turning all relays ON!") ;;
    in_world all_on
  else if String.eqb command "stop" then
    in_world (print "[ACTION] Stopping script...") ;;
    stop
  else if String.eqb command "save_config" then
    in_world (print "[ACTION] Saving current configuration...") ;;
    save_parameters
  else ret tt.

(** Lines 163-171: one message, [can_id, command = message.split(' ', 1)]
    and [int(can_id, 16)]. *)
Definition handle_message (message : string) : Eff Bus unit :=
  match split_space_1 message with
  | [can_id; command] =>
      match int_of_hex can_id with
      | None => raise (LibraryError "ValueError")
      | Some can_id =>
          match CAN_COMMANDS !! can_id with
          | Some name =>
              in_world (print ("[CAN COMMAND] Received: CAN ID: "
                               +:+ pretty can_id +:+ ", Command: "
                               +:+ command)) ;;
              execute_can_command name
          | None =>
              in_world (print ("[CAN COMMAND] Unknown CAN ID: "
                               +:+ pretty can_id))
          end
      end
  | _ => raise (LibraryError "ValueError")
  end.

(** [Owl.listen_for_can_commands]: an [Exception] in a pass is
    reported and the loop goes on; when no arrival is left the
    listener waits in [recv_string]. *)
Definition listen_pass (a : Arrival) : Eff Bus unit :=
  try_except
    (message <- receive_next a ;;
     handle_message message)
    (except_Exception (fun e =>
       report_error 0x403
         ("CAN bus listener encountered an error: " +:+ str_of_exn e))).

Definition listen_for_can_commands (arrivals : list Arrival) : Eff Bus unit :=
  for_each arrivals listen_pass.

Record Cycle : Type := mkCycle { cam_event : CamEvent; key : Z }.

(** [Owl.hoot], lines 203-231, with [log_fps] off. *)
Fixpoint hoot_loop (cycles : list Cycle) : Eff Bus unit :=
  match cycles with
  | [] => stop
  | c :: rest =>
      frame <- in_world (cam_read (cam_event c)) ;;
      if Z.eqb (key c) 115 then
        save_parameters ;;
        hoot_loop rest
      else if Z.eqb (key c) 27 then stop
      else hoot_loop rest
  end.

Definition hoot (cycles : list Cycle) : Eff Bus unit :=
  try_except (hoot_loop cycles)
    (fun e =>
       match e with
       | KeyboardInterrupt => Some stop
       | SystemExit => None
       | _ =>
           Some (report_error 0x403 ("Processing error: " +:+ str_of_exn e) ;;
                 stop)
       end).

End Source.
End OwlCamBusPy.

(** ** The actuation scheduler *)

Module Scheduler.

(** Modelled from the spec: the Actuation Scheduler, whose code
    ([utils/relay_control]) is not among the sources. Section 3 gives
    the [LaneTimer] with its states and two deadlines, section 4.6 the
    transitions: a job on an idle lane arms activation at [now+delay]
    and deactivation at [now+delay+duration]; a job on a pending or
    active lane leaves the activation alone and moves the deactivation
    to the later deadline; the activation deadline drives the relay ON,
    the deactivation deadline drives it OFF. Timers follow the wall
    clock, so a deadline takes effect at its own time. *)
Inductive LaneState : Type := Idle | Pending | Active.

Record LaneTimer : Type := mkLaneTimer {
  lane : Z;
  state : LaneState;
  activate_at : option Q;
  deactivate_at : option Q
}.

(** A lane of the scheduler: its timer, its relay output, and every
    transition the relay was driven through, with the time. *)
Record Lane : Type := mkLane {
  timer : LaneTimer;
  relay_on : bool;
  transitions : list (Q * bool)
}.

Definition idle_lane (l : Z) : Lane :=
  mkLane (mkLaneTimer l Idle None None) false [].

(** [Idle + SprayJob] and [Pending/Active + SprayJob]. *)
Definition on_job (now delay duration : Q) (t : LaneTimer) : LaneTimer :=
  let deadline := (now + delay + duration)%Q in
  match state t with
  | Idle => mkLaneTimer (lane t) Pending (Some (now + delay)%Q) (Some deadline)
  | Pending | Active =>
      mkLaneTimer (lane t) (state t) (activate_at t)
        (Some match deactivate_at t with
              | Some current => Qmax current deadline
              | None => deadline
              end)
  end.

(** The activation deadline fires while [Pending]. *)
Definition fire_activation (now : Q) (ln : Lane) : Lane :=
  match state (timer ln), activate_at (timer ln) with
  | Pending, Some a =>
      if Qle_bool a now then
        mkLane (mkLaneTimer (lane (timer ln)) Active (Some a)
                            (deactivate_at (timer ln)))
               true (transitions ln ++ [(a, true)])
      else ln
  | _, _ => ln
  end.

(** The deactivation deadline fires while [Active]. *)
Definition fire_deactivation (now : Q) (ln : Lane) : Lane :=
  match state (timer ln), deactivate_at (timer ln) with
  | Active, Some d =>
      if Qle_bool d now then
        mkLane (mkLaneTimer (lane (timer ln)) Idle None None)
               false (transitions ln ++ [(d, false)])
      else ln
  | _, _ => ln
  end.

(** Every deadline of a lane that is due at [now] takes effect. *)
Definition advance (now : Q) (ln : Lane) : Lane :=
  fire_deactivation now (fire_activation now ln).

(** A job arrives at [now]: deadlines due by then have fired, and the
    job goes to the timer of its lane. *)
Definition submit (now : Q) (j : Job) (s : gmap Z Lane) : gmap Z Lane :=
  alter (fun ln => mkLane (on_job now (delay j) (duration j) (timer ln))
                          (relay_on ln) (transitions ln))
        (relay j) (advance now <$> s).

(** The scheduler at time [t], given the jobs with their arrival
    times, earliest first. *)
Definition run (arrivals : list (Q * Job)) (s : gmap Z Lane) : gmap Z Lane :=
  foldl (fun s a => submit a.1 a.2 s) s arrivals.

Definition observe (arrivals : list (Q * Job)) (t : Q) (s : gmap Z Lane)
  : gmap Z Lane :=
  advance t <$>
    run (List.filter (fun a => Qle_bool a.1 t) arrivals) s.

(** Is the relay of lane [l] ON at time [t]? *)
Definition relay_at (arrivals : list (Q * Job)) (s : gmap Z Lane)
  (l : Z) (t : Q) : bool :=
  match observe arrivals t s !! l with
  | Some ln => relay_on ln
  | None => false
  end.

(** The transitions of lane [l] up to time [t]. *)
Definition transitions_until (arrivals : list (Q * Job)) (s : gmap Z Lane)
  (l : Z) (t : Q) : list (Q * bool) :=
  match observe arrivals t s !! l with
  | Some ln => transitions ln
  | None => []
  end.

(** All lanes idle. *)
Definition init (n : Z) : gmap Z Lane :=
  foldl (fun s i => <[i := idle_lane i]> s) ∅ (range n).

End Scheduler.

(** ** Concrete collaborators

    Small executable stand-ins for OpenCV and for [algorithms], used
    to run the embedded code on concrete frames. [contourArea] is the
    shoelace formula and [boundingRect] the upright rectangle around
    the points; the others keep only the shape of their result. *)

Module Bench.

Definition on_outline (pt1 pt2 : Z * Z) (x y : Z) : bool :=
  (Z.leb pt1.1 x && Z.leb x pt2.1 && Z.leb pt1.2 y && Z.leb y pt2.2)
  && (Z.eqb x pt1.1 || Z.eqb x pt2.1 || Z.eqb y pt1.2 || Z.eqb y pt2.2).

Definition paint (hit : Z -> Z -> bool) (colour : Pixel) (img : Image)
  : Image :=
  imap (fun y r =>
    imap (fun x p => if hit (Z.of_nat x) (Z.of_nat y) then colour else p) r)
    img.

Definition rectangle (img : Image) (pt1 pt2 : Z * Z) (colour : Pixel)
  (thickness : Z) : Image :=
  paint (on_outline pt1 pt2) colour img.

Definition putText (img : Image) (text : string) (org : Z * Z)
  (colour : Pixel) (thickness : Z) : Image :=
  paint (fun x y => Z.eqb x org.1 && Z.eqb y org.2) colour img.

Definition channel (f : Pixel -> Q) (img : Image) : Array2 :=
  map (map f) img.

Definition threshold_above_zero (a : Array2) : Array2 :=
  map (map (fun v => if Qle_bool v 0 then 0%Q else 255%Q)) a.

(** The cells of an array that are not zero, as points [(x, y)]. *)
Definition nonzero_points (a : Array2) : list (Z * Z) :=
  concat (imap (fun y r =>
    concat (imap (fun x v =>
      if Qeq_bool v 0 then [] else [(Z.of_nat x, Z.of_nat y)]) r)) a).

Definition min_list (d : Z) (l : list Z) : Z := foldr Z.min d l.
Definition max_list (d : Z) (l : list Z) : Z := foldr Z.max d l.

Definition boundingRect (c : Contour) : Z * Z * Z * Z :=
  match c with
  | [] => (0, 0, 0, 0)
  | p :: _ =>
      let x0 := min_list p.1 (fst <$> c) in
      let y0 := min_list p.2 (snd <$> c) in
      let x1 := max_list p.1 (fst <$> c) in
      let y1 := max_list p.2 (snd <$> c) in
      (x0, y0, x1 - x0 + 1, y1 - y0 + 1)
  end.

(** One contour: the corners of the rectangle around the cells that
    are not zero, each corner once (right for a mask with one
    rectangular blob; a single cell gives a contour of one point). *)
Definition findContours (a : Array2) : list Contour :=
  match nonzero_points a with
  | [] => []
  | pts =>
      let '(x, y, w, h) := boundingRect pts in
      [remove_dups
         [(x, y); (x + w - 1, y); (x + w - 1, y + h - 1); (x, y + h - 1)]]
  end.

Fixpoint shoelace (first : Z * Z) (c : Contour) : Z :=
  match c with
  | [] => 0
  | [p] => p.1 * first.2 - first.1 * p.2
  | p :: (q :: _) as rest => p.1 * q.2 - q.1 * p.2 + shoelace first rest
  end.

Definition contourArea (c : Contour) : Q :=
  match c with
  | [] => 0%Q
  | p :: _ => (inject_Z (Z.abs (shoelace p c)) / 2)%Q
  end.

#[export] Instance cv : OpenCV := {
  cv2_rectangle := rectangle;
  cv2_putText := putText;
  cv2_resize := fun img _ => img;
  cv2_cvtColor_BGR2RGB := map (map (fun p : Pixel => (p.2, p.1.2, p.1.1)));
  cv2_cvtColor_BGR2GRAY := fun img => img;
  cv2_adaptiveThreshold := threshold_above_zero;
  cv2_morphologyEx_close := fun a _ => a;
  cv2_findContours := findContours;
  cv2_contourArea := contourArea;
  cv2_boundingRect := boundingRect
}.

(** Excess green [2g - r - b], and stand-ins for the other indices. *)
Definition excess_green (p : Pixel) : Q :=
  inject_Z (2 * p.1.2 - p.2 - p.1.1).
Definition greener (p : Pixel) : bool :=
  Z.ltb p.2 p.1.2 && Z.ltb p.1.1 p.1.2.

#[export] Instance alg : Algorithms := {
  exg := channel excess_green;
  exgr := channel (fun p => (excess_green p - inject_Z p.2)%Q);
  maxg := channel (fun p => inject_Z (24 * p.1.2 - 19 * p.2 - 2 * p.1.1));
  exg_standardised := channel excess_green;
  exg_standardised_hue := fun img _ =>
    channel (fun p => if greener p then excess_green p else 0%Q) img;
  hsv := fun img _ =>
    (channel (fun p => if greener p then 255%Q else 0%Q) img, true);
  gndvi := channel (fun p => inject_Z (p.1.2 - p.2))
}.

(** A 5 by 5 black frame with a 3 by 3 green block in the middle, and
    the same with one green pixel. *)
Definition black : Pixel := (0, 0, 0).
Definition green : Pixel := (0, 100, 0).
Definition block_frame : Image :=
  [ [black; black; black; black; black];
    [black; green; green; green; black];
    [black; green; green; green; black];
    [black; green; green; green; black];
    [black; black; black; black; black] ].
Definition speck_frame : Image :=
  [ [black; black; black; black; black];
    [black; black; black; black; black];
    [black; black; green; black; black];
    [black; black; black; black; black];
    [black; black; black; black; black] ].

Definition hsv_default : HsvRange := mkHsvRange 30 90 5 200 30 255.

(** A world whose store holds [img] at reference 1, with four relays
    of which the first is energised. *)
Definition world_with (img : Image) : World :=
  mkWorld {[ 1%positive := img ]} [] [] [true; false; false; false]
          true true 0 (fun n => inject_Z (Z.of_nat n)) 0.

(** A detector with its streams attached that reports one box of
    class 63 with score 0.9, and one whose output has no tensor by
    the expected names. *)
Definition tensor_names : list string :=
  ["detection_boxes"; "detection_classes"; "detection_scores"].
Definition one_box : list GreenOnGreenPy.Tensor :=
  [ GreenOnGreenPy.Rows [(1 # 5, 1 # 5, 4 # 5, 4 # 5)%Q];
    GreenOnGreenPy.Vec [63%Q];
    GreenOnGreenPy.Vec [(9 # 10)%Q] ].
Definition detector : GreenOnGreenPy.GreenOnGreen :=
  GreenOnGreenPy.mkGreenOnGreen (4, 4, 3) ∅ tensor_names
    (Some tt) (Some (fun _ => one_box)).
Definition detector_other_names : GreenOnGreenPy.GreenOnGreen :=
  GreenOnGreenPy.mkGreenOnGreen (4, 4, 3) ∅ ["output_0"; "output_1"]
    (Some tt) (Some (fun _ => one_box)).

(** The rig of [owl.py] after [_setup_lane_coordinates] on a frame
    416 wide and 320 high, and the rig of [greenonbrown.py] with its
    lanes computed for the same width. *)
Definition owl (relay_num : Z) : OwlPy.Owl :=
  match OwlPy._setup_lane_coordinates 416 320 relay_num with
  | Ok self => self
  | Raise _ => OwlPy.mkOwl 416 320 relay_num 3 0 ∅
  end.
Definition lane_width_416 (nozzleNum : Z) : Q :=
  (inject_Z 416 / inject_Z nozzleNum)%Q.
Definition legacy_owl (nozzleNum : Z) : GreenOnBrownPy.Owl :=
  GreenOnBrownPy.mkOwl 30 250 hsv_default nozzleNum
    (GreenOnBrownPy.lane_coords_loop (lane_width_416 nozzleNum) nozzleNum ∅)
    64.

(** Stand-ins for the text builtins: [strip] drops blanks and line
    ends at both ends, [int] reads decimal or hexadecimal digits. *)
Definition is_blank (c : ascii) : bool :=
  match nat_of_ascii c with
  | 9%nat | 10%nat | 13%nat | 32%nat => true
  | _ => false
  end.

Fixpoint lstrip (s : string) : string :=
  match s with
  | EmptyString => EmptyString
  | String c rest => if is_blank c then lstrip rest else s
  end.

Fixpoint rstrip (s : string) : string :=
  match s with
  | EmptyString => EmptyString
  | String c rest =>
      match rstrip rest with
      | EmptyString => if is_blank c then EmptyString else String c EmptyString
      | kept => String c kept
      end
  end.

Definition digit_value (c : ascii) : option Z :=
  let n := Z.of_nat (nat_of_ascii c) in
  if Z.leb 48 n && Z.leb n 57 then Some (n - 48)
  else if Z.leb 97 n && Z.leb n 102 then Some (n - 87)
  else if Z.leb 65 n && Z.leb n 70 then Some (n - 55)
  else None.

Fixpoint read_digits (base : Z) (s : string) (acc : Z) : option Z :=
  match s with
  | EmptyString => Some acc
  | String c rest =>
      match digit_value c with
      | Some d => if Z.ltb d base then read_digits base rest (acc * base + d)
                  else None
      | None => None
      end
  end.

Definition read_int (base : Z) (s : string) : option Z :=
  match s with
  | EmptyString => None
  | _ => read_digits base s 0
  end.

Definition exn_text (e : exn) : string :=
  match e with
  | KeyError => "KeyError"
  | IndexError => "IndexError"
  | AttributeError => "AttributeError"
  | ZeroDivisionError => "division by zero"
  | KeyboardInterrupt => ""
  | SystemExit => ""
  | LibraryError msg => msg
  end.

#[export] Instance text : Builtins := {
  str_strip := fun s => rstrip (lstrip s);
  int_of_str := read_int 10;
  int_of_hex := read_int 16;
  str_of_exn := exn_text;
  strftime := fun t => pretty (py_int t)
}.

(** A rig on the link: the bench world, nothing sent yet, the socket
    open and the listener alive. *)
Definition bus : Bus := mkBus (world_with block_frame) [] true true.

(** Detectors that report two detections, of which the second has a
    low score, and two rows with one score only. *)
Definition detector_reporting (output_data : list GreenOnGreenPy.Tensor)
  : GreenOnGreenPy.GreenOnGreen :=
  GreenOnGreenPy.mkGreenOnGreen (4, 4, 3) ∅ tensor_names
    (Some tt) (Some (fun _ => output_data)).
Definition two_rows : list (Q * Q * Q * Q) :=
  [(1 # 5, 1 # 5, 4 # 5, 4 # 5)%Q; (0, 0, 2 # 5, 2 # 5)%Q].
Definition two_boxes : list GreenOnGreenPy.Tensor :=
  [ GreenOnGreenPy.Rows two_rows;
    GreenOnGreenPy.Vec [63%Q; 63%Q];
    GreenOnGreenPy.Vec [(9 # 10)%Q; (3 # 10)%Q] ].
Definition short_scores : list GreenOnGreenPy.Tensor :=
  [ GreenOnGreenPy.Rows two_rows;
    GreenOnGreenPy.Vec [63%Q; 63%Q];
    GreenOnGreenPy.Vec [(3 # 10)%Q] ].

End Bench.

(** ** Vocabulary of the properties *)

(** The selectors that [green_on_brown] tests for. *)
Definition known_algorithms : list string :=
  ["exg"; "exgr"; "maxg"; "nexg"; "exhsv"; "hsv"; "gndvi"].

(** The centre of a box: [(x + width/2, y + height/2)], truncated. *)
Definition box_centre (b : Box) : Centre :=
  mkCentre (py_int (inject_Z (startX b) + inject_Z (boxW b) / 2))
           (py_int (inject_Z (startY b) + inject_Z (boxH b) / 2)).

(** A centre lies within a box. *)
Definition within_box (c : Centre) (b : Box) : Prop :=
  startX b <= centre_x c <= startX b + boxW b
  /\ startY b <= centre_y c <= startY b + boxH b.

(** A centre lies within the rectangle spanned by the corners
    [(startX, startY)] and [(startX + boxW, startY + boxH)], whichever
    way round they are. *)
Definition within_span (c : Centre) (b : Box) : Prop :=
  Z.min (startX b) (startX b + boxW b) <= centre_x c
    <= Z.max (startX b) (startX b + boxW b)
  /\ Z.min (startY b) (startY b + boxH b) <= centre_y c
    <= Z.max (startY b) (startY b + boxH b).

(** Boxes and centres are index-aligned: as many centres as boxes,
    and the centre at an index is the centre of the box at that index,
    which lies in the rectangle the box spans, and within the box when
    its width and height are not negative. *)
Definition centres_match_boxes (boxes : list Box) (centres : list Centre)
  : Prop :=
  length centres = length boxes
  /\ forall (i : nat) b c,
       boxes !! i = Some b -> centres !! i = Some c ->
       c = box_centre b
       /\ within_span c b
       /\ (0 <= boxW b -> 0 <= boxH b -> within_box c b).

(** A box whose width and height are not negative, and a detector row
    [(ymin, xmin, ymax, xmax)] whose corners are in order. *)
Definition sized (b : Box) : Prop := 0 <= boxW b /\ 0 <= boxH b.
Definition row_ordered (r : Q * Q * Q * Q) : Prop :=
  let '(ymin, xmin, ymax, xmax) := r in (ymin <= ymax)%Q /\ (xmin <= xmax)%Q.

Section Vocabulary.
Context `{OpenCV}.

(** The test of line 104: [cv2.contourArea(c) > minArea]. *)
Definition big_enough (minArea : Z) (c : Contour) : bool :=
  negb (Qle_bool (cv2_contourArea c) (inject_Z minArea)).

(** The box saved for a contour. *)
Definition box_of (c : Contour) : Box :=
  let '(x, y, w, h) := cv2_boundingRect c in mkBox x y w h.

(** The rectangle drawn for a box, and for a list of boxes in turn. *)
Definition outline (b : Box) (img : Image) : Image :=
  cv2_rectangle img (startX b, startY b)
    (startX b + boxW b, startY b + boxH b) (0, 0, 255) 2.
Definition draw_boxes (bs : list Box) (img : Image) : Image :=
  foldl (fun img b => outline b img) img bs.

End Vocabulary.

(** The lane tests over the integers, for a frame [W] wide and [N]
    lanes: [owl.py] compares the centre with the truncated lane start
    and with that start plus the exact lane width; [greenonbrown.py]
    truncates the end as well. *)
Definition owl_lane_test (W N x i : Z) : bool :=
  Z.leb (i * W / N) x && Z.ltb (x * N) (i * W / N * N + W).
Definition legacy_lane_test (W N x i : Z) : bool :=
  Z.leb (i * W / N) x && Z.ltb x (i * W / N + W / N).

(** What [Scheduler.submit] does to the lane of the job. *)
Definition lane_submit (now : Q) (j : Job) (ln : Scheduler.Lane)
  : Scheduler.Lane :=
  Scheduler.mkLane
    (Scheduler.on_job now (delay j) (duration j)
       (Scheduler.timer (Scheduler.advance now ln)))
    (Scheduler.relay_on (Scheduler.advance now ln))
    (Scheduler.transitions (Scheduler.advance now ln)).


(** The jobs appended to those the controller has received. *)
Definition push_jobs (js : list Job) (w : World) : World :=
  set_received (fun q => q ++ js) w.


(** A cell of the array handed to the adaptive threshold: the
    response truncated when it lies in (exgMin, exgMax], else 0. *)
Definition clamp_cell (exgMin exgMax : Z) (v : Q) : Q :=
  if Qle_bool v (inject_Z exgMin) then 0%Q
  else if Qle_bool v (inject_Z exgMax) then inject_Z (py_int v)
  else 0%Q.

Section DetectionVocabulary.
Context `{OpenCV}.
Import GreenOnGreenPy.

(** A detection as the loop of [inference] reads it: row, class and
    score at one index. It is kept when the test of line 116 holds. *)
Definition detection_kept (confidence : Q) (filter_id : Z)
  (d : Q * Q * Q * Q * Q * Q) : bool :=
  Qle_bool confidence d.2 && Qeq_bool d.1.2 (inject_Z filter_id).

(** The box saved for a row on a frame [width] by [height]. *)
Definition detection_box (width height : Z) (r : Q * Q * Q * Q) : Box :=
  let '(ymin, xmin, ymax, xmax) := r in
  mkBox (py_int (xmin * inject_Z width)) (py_int (ymin * inject_Z height))
        (py_int (xmax * inject_Z width) - py_int (xmin * inject_Z width))
        (py_int (ymax * inject_Z height) - py_int (ymin * inject_Z height)).

(** What lines 135-137 draw for a detection, and for a list of them. *)
Definition draw_detection (self : GreenOnGreen) (width height : Z)
  (d : Q * Q * Q * Q * Q * Q) (img : Image) : Image :=
  let '(ymin, xmin, ymax, xmax) := d.1.1 in
  let b := detection_box width height d.1.1 in
  cv2_putText
    (cv2_rectangle img (startX b, startY b)
       (py_int (xmax * inject_Z width), py_int (ymax * inject_Z height))
       (0, 0, 255) 2)
    (label_text self d.2 d.1.2) (startX b, startY b + 30) (255, 0, 0) 2.

Definition draw_detections (self : GreenOnGreen) (width height : Z)
  (ds : list (Q * Q * Q * Q * Q * Q)) (img : Image) : Image :=
  foldl (fun img d => draw_detection self width height d img) img ds.

End DetectionVocabulary.

(** A line of the label file that names class [n] with text [v]. *)
Definition line_labels `{Builtins} (line : string) (n : Z) (v : string)
  : Prop :=
  exists k, split_space_1 (str_strip line) = [k; v] /\ int_of_str k = Some n.

(** Every relay output energised, as [all_on] leaves them. *)
Definition energised (rs : list bool) : list bool := (fun _ => true) <$> rs.

(** What a pass of the listener of [Owlcanbus.py] leaves alone. *)
Definition link_kept (b b' : Bus) : Prop :=
  received (world b') = received (world b)
  /\ controller_running (world b') = controller_running (world b)
  /\ cam_running (world b') = cam_running (world b)
  /\ store (world b') = store (world b)
  /\ socket_open b' = socket_open b
  /\ listener_alive b' = listener_alive b.

(** What the listener of [Owlcambus.py] keeps: jobs, controller and
    listener as they were, relays as they were or all energised, and
    only error reports added to what went out. *)
Definition listener_kept (b b' : Bus) : Prop :=
  received (world b') = received (world b)
  /\ controller_running (world b') = controller_running (world b)
  /\ listener_alive b' = listener_alive b
  /\ (relays (world b') = relays (world b)
      \/ relays (world b') = energised (relays (world b)))
  /\ exists reports,
       outbox b' = outbox b ++ reports
       /\ Forall (fun m => exists text,
                    m = "403 Processing Error: " +:+ text) reports.

(** A text without a space. *)
Definition no_space (s : string) : Prop := partition_space s = None.

(** An arrival that does not end the listener of [Owlcambus.py]: a
    message whose id is not that of [stop], or an [Exception] out of
    the receive call. *)
Definition arrival_passes `{Builtins} (a : Arrival) : Prop :=
  match a with
  | Received message =>
      forall can_id command,
        split_space_1 message = [can_id; command] ->
        int_of_hex can_id <> Some 0x304
  | ReceiveRaises e => is_Exception e = true
  end.

(** * Properties *)

(** ** Numerics, ranges and the state *)

Lemma py_int_half (a b : Z) :
  py_int (inject_Z a + inject_Z b / 2) = Z.quot (2 * a + b) 2.
Proof. unfold py_int. cbn. f_equal. lia. Qed.

Lemma quot2_between (a b : Z) :
  Z.min a (a + b) <= Z.quot (2 * a + b) 2 <= Z.max a (a + b).
Proof.
  pose proof (Z.quot_rem' (2 * a + b) 2) as E.
  destruct (Z_le_gt_dec 0 (2 * a + b)) as [Hs|Hs].
  - pose proof (Z.rem_bound_pos (2 * a + b) 2 Hs ltac:(lia)). lia.
  - pose proof (Z.rem_bound_abs (2 * a + b) 2 ltac:(lia)).
    pose proof (Z.rem_nonpos (2 * a + b) 2 ltac:(lia) ltac:(lia)). lia.
Qed.

(** Truncation toward zero is monotone. *)
Lemma py_int_mono (a b : Q) : (a <= b)%Q -> py_int a <= py_int b.
Proof.
  destruct a as [n1 d1], b as [n2 d2]. unfold Qle, py_int. cbn.
  intros Hle.
  rewrite <- (Z.quot_mul_cancel_r n1 (Z.pos d1) (Z.pos d2)) by lia.
  rewrite <- (Z.quot_mul_cancel_r n2 (Z.pos d2) (Z.pos d1)) by lia.
  rewrite (Z.mul_comm (Z.pos d2) (Z.pos d1)).
  apply Z.quot_le_mono; lia.
Qed.

Lemma box_centre_within_span (b : Box) : within_span (box_centre b) b.
Proof.
  unfold within_span, box_centre; cbn [centre_x centre_y].
  rewrite !py_int_half. split; apply quot2_between.
Qed.

Lemma within_span_box (c : Centre) (b : Box) :
  0 <= boxW b -> 0 <= boxH b -> within_span c b -> within_box c b.
Proof. unfold within_span, within_box. lia. Qed.

Lemma elem_of_range (n i : Z) : i ∈ range n <-> 0 <= i < n.
Proof.
  unfold range. rewrite list_elem_of_fmap. split.
  - intros (k & -> & Hk). apply elem_of_seq in Hk. lia.
  - intros Hi. exists (Z.to_nat i). split; [lia|]. apply elem_of_seq. lia.
Qed.

Lemma NoDup_range (n : Z) : NoDup (range n).
Proof.
  unfold range. apply NoDup_fmap_2; [|apply NoDup_seq].
  intros a b Hab. lia.
Qed.

Lemma set_store_fix (f : gmap positive Image -> gmap positive Image)
  (w : World) :
  f (store w) = store w -> set_store f w = w.
Proof. destruct w; unfold set_store; cbn; intros ->; reflexivity. Qed.

Lemma push_jobs_nil (w : World) : push_jobs [] w = w.
Proof.
  destruct w; unfold push_jobs, set_received; cbn.
  rewrite app_nil_r. reflexivity.
Qed.

Lemma push_jobs_app (a b : list Job) (w : World) :
  push_jobs b (push_jobs a w) = push_jobs (a ++ b) w.
Proof.
  unfold push_jobs, set_received; cbn. rewrite app_assoc. reflexivity.
Qed.

(** ** [green_on_brown] *)

Section GreenOnBrownFacts.
Context `{OpenCV} `{Algorithms}.
Import GreenOnBrownPy.

Lemma big_enough_area (minArea : Z) (c : Contour) :
  big_enough minArea c = true <-> (inject_Z minArea < cv2_contourArea c)%Q.
Proof.
  unfold big_enough. rewrite negb_true_iff.
  rewrite <- not_true_iff_false, Qle_bool_iff. split.
  - apply Qnot_le_lt.
  - apply Qlt_not_le.
Qed.

(** The selection always succeeds; it prints at most the warning. *)
Lemma select_algorithm_cases (img : Image) rng algorithm w :
  exists output flag,
    select_algorithm img rng algorithm w = (w, Ok (output, flag))
    \/ select_algorithm img rng algorithm w
       = (set_stdout (fun out => out ++ ["[WARNING] DEFAULTED TO EXG"]) w,
          Ok (output, flag)).
Proof.
  unfold select_algorithm.
  repeat match goal with
         | |- context [String.eqb algorithm ?s] =>
             destruct (String.eqb algorithm s);
             [ try destruct (hsv img rng); eauto |]
         end.
  eauto.
Qed.

(** The loop over the contours keeps the contours that pass the area
    test, in order, and draws their boxes on [image]. *)
Lemma contour_loop (image : positive) (minArea : Z) (cnts : list Contour) :
  forall bs cs w,
    for_fold cnts (bs, cs) (contour_step image minArea) w
    = (set_store
         (alter (draw_boxes
                   (box_of <$> filter (fun c => big_enough minArea c) cnts))
                image) w,
       Ok (bs ++ (box_of <$> filter (fun c => big_enough minArea c) cnts),
           cs ++ (box_centre <$>
                    (box_of <$> filter (fun c => big_enough minArea c) cnts)))).
Proof.
  induction cnts as [|c cnts IH]; intros bs cs w.
  - cbn. rewrite !app_nil_r. rewrite set_store_fix; [reflexivity|].
    apply alter_id. reflexivity.
  - rewrite filter_cons. cbn [for_fold]. unfold bind at 1.
    unfold contour_step at 1.
    destruct (big_enough minArea c) eqn:E.
    + rewrite decide_True by exact I.
      unfold big_enough in E. rewrite E.
      rewrite !fmap_cons. unfold box_of at 1 3 5.
      destruct (cv2_boundingRect c) as [[[x y] bw] bh] eqn:Eb.
      cbn. rewrite IH. f_equal.
      * unfold set_store; cbn. f_equal. rewrite alter_alter_eq. reflexivity.
      * rewrite <- !app_assoc. reflexivity.
    + rewrite decide_False by (intros []).
      unfold big_enough in E. rewrite E.
      cbn. apply IH.
Qed.

(** What [green_on_brown] returns on an image that is in the store. *)
Lemma green_on_brown_result (image : positive) exgMin exgMax rng minArea
  algorithm w img :
  store w !! image = Some img ->
  exists output flag w1,
    select_algorithm img rng algorithm w = (w1, Ok (output, flag))
    /\ store w1 = store w
    /\ let cnts := cv2_findContours
                     (run_thresholds output flag exgMin exgMax) in
       let kept := filter (fun c => big_enough minArea c) cnts in
       green_on_brown image exgMin exgMax rng minArea algorithm w
       = (set_store (alter (draw_boxes (box_of <$> kept)) image) w1,
          Ok (cnts, box_of <$> kept, box_centre <$> (box_of <$> kept), image)).
Proof.
  intros Hs.
  destruct (select_algorithm_cases img rng algorithm w)
    as (output & flag & [E|E]);
    eexists output, flag, _; (split; [exact E|]); (split; [reflexivity|]);
    cbv zeta; unfold green_on_brown, deref, bind at 1; rewrite Hs;
    unfold bind at 1; rewrite E; cbv beta iota;
    unfold bind at 1; rewrite contour_loop; reflexivity.
Qed.

(** When [green_on_brown] returns, the boxes are those of the contours
    that pass the area test and the centres are the centres of the
    boxes. *)
Lemma green_on_brown_returns (image : positive) exgMin exgMax rng minArea
  algorithm w w' cnts boxes centres out :
  green_on_brown image exgMin exgMax rng minArea algorithm w
  = (w', Ok (cnts, boxes, centres, out)) ->
  boxes = box_of <$> filter (fun c => big_enough minArea c) cnts
  /\ centres = box_centre <$> boxes
  /\ out = image.
Proof.
  intros E. destruct (store w !! image) as [img|] eqn:Hs.
  - destruct (green_on_brown_result image exgMin exgMax rng minArea
                algorithm w img Hs) as (output & flag & w1 & _ & _ & R).
    cbv zeta in R. rewrite R in E. inversion E; subst. auto.
  - unfold green_on_brown, deref, bind at 1 in E. rewrite Hs in E.
    discriminate E.
Qed.

End GreenOnBrownFacts.

(** C8. For every selector that [green_on_brown] does not test for,
    the vegetation-index transform returns the ExG response, not yet
    thresholded, and prints the warning; the whole of
    [green_on_brown] then runs as it does for ['exg'] and returns. *)
Theorem unknown_selector_falls_back_to_exg `{OpenCV} `{Algorithms}
  (image : positive) (img : Image) (exgMin exgMax : Z) (rng : HsvRange)
  (minArea : Z) (algorithm : string) (w : World) :
  algorithm ∉ known_algorithms ->
  store w !! image = Some img ->
  let warned :=
    set_stdout (fun out => out ++ ["[WARNING] DEFAULTED TO EXG"]) w in
  GreenOnBrownPy.select_algorithm img rng algorithm w
  = (warned, Ok (exg img, false))
  /\ GreenOnBrownPy.green_on_brown image exgMin exgMax rng minArea algorithm w
     = GreenOnBrownPy.green_on_brown image exgMin exgMax rng minArea "exg"
         warned
  /\ exists w' r,
       GreenOnBrownPy.green_on_brown image exgMin exgMax rng minArea
         algorithm w = (w', Ok r).
Proof.
  intros Hn Hs warned.
  assert (E : GreenOnBrownPy.select_algorithm img rng algorithm w
              = (warned, Ok (exg img, false))).
  { unfold known_algorithms in Hn.
    repeat (apply not_elem_of_cons in Hn as [? Hn]).
    unfold GreenOnBrownPy.select_algorithm.
    repeat match goal with
           | Hne : algorithm <> ?s |- context [String.eqb algorithm ?s] =>
               rewrite (proj2 (String.eqb_neq algorithm s) Hne)
           end.
    reflexivity. }
  destruct (green_on_brown_result image exgMin exgMax rng minArea
              algorithm w img Hs) as (o1 & f1 & w1 & E1 & _ & R1).
  destruct (green_on_brown_result image exgMin exgMax rng minArea
              "exg" warned img Hs) as (o2 & f2 & w2 & E2 & _ & R2).
  rewrite E in E1. inversion E1; subst o1 f1 w1.
  cbn in E2. inversion E2; subst o2 f2 w2.
  cbv zeta in R1, R2.
  split; [exact E|]. split.
  - rewrite R1, R2. reflexivity.
  - rewrite R1. eauto.
Qed.

(** C8 at the selector ['ndvi'] on the frame with the green block. *)
Lemma unknown_selector_witness :
  ("ndvi" ∉ known_algorithms)
  /\ (@GreenOnBrownPy.green_on_brown Bench.cv Bench.alg 1%positive 30 250
        Bench.hsv_default 1 "ndvi" (Bench.world_with Bench.block_frame)).2
     = (@GreenOnBrownPy.green_on_brown Bench.cv Bench.alg 1%positive 30 250
          Bench.hsv_default 1 "exg" (Bench.world_with Bench.block_frame)).2.
Proof.
  assert (Hn : "ndvi" ∉ known_algorithms).
  { apply (bool_decide_unpack _). vm_compute. exact I. }
  split; [exact Hn|].
  destruct (@unknown_selector_falls_back_to_exg Bench.cv Bench.alg
              1%positive Bench.block_frame
              30 250 Bench.hsv_default 1 "ndvi"
              (Bench.world_with Bench.block_frame) Hn eq_refl)
    as (_ & E & _).
  rewrite E. vm_compute. reflexivity.
Defined.

(** C6, as the code has it. The flag that skips thresholding is the
    one [hsv] returns when the selector is ['hsv'], and [False] for
    every other selector, ['exhsv'] included; with the flag set the
    mask is closed five times, without it the response is clamped,
    thresholded and closed once. *)
Theorem thresholding_skipped_only_by_hsv_flag `{OpenCV} `{Algorithms}
  (img : Image) (rng : HsvRange) (algorithm : string) (w : World)
  (exgMin exgMax : Z) :
  exists output w1,
    let flag := if String.eqb algorithm "hsv" then (hsv img rng).2
                else false in
    GreenOnBrownPy.select_algorithm img rng algorithm w
    = (w1, Ok (output, flag))
    /\ GreenOnBrownPy.run_thresholds output flag exgMin exgMax
       = if flag then cv2_morphologyEx_close output 5
         else cv2_morphologyEx_close
                (cv2_adaptiveThreshold
                   (GreenOnBrownPy.np_uint8_abs
                      (GreenOnBrownPy.np_where_gt_zero exgMax
                         (GreenOnBrownPy.np_where_gt_keep exgMin output))))
                1.
Proof.
  unfold GreenOnBrownPy.select_algorithm.
  destruct (String.eqb algorithm "hsv") eqn:Eh.
  - apply String.eqb_eq in Eh. subst algorithm. cbn.
    destruct (hsv img rng) as [o f]. exists o, w. cbn. split; reflexivity.
  - repeat match goal with
           | |- context [String.eqb algorithm ?s] =>
               destruct (String.eqb algorithm s) eqn:?;
               [ try discriminate; eexists _, _; split; reflexivity |]
           end.
    eexists _, _; split; reflexivity.
Qed.

(** C6, counterexample. On the frame with the green block, ['exhsv']
    comes back with the flag unset, and the mask handed to the contour
    search is the thresholded one, which differs from the closed
    response. *)
Lemma exhsv_is_thresholded :
  exists output,
    @GreenOnBrownPy.select_algorithm Bench.alg Bench.block_frame
      Bench.hsv_default "exhsv" (Bench.world_with Bench.block_frame)
    = (Bench.world_with Bench.block_frame, Ok (output, false))
    /\ @GreenOnBrownPy.run_thresholds Bench.cv output false 30 250
       = @GreenOnBrownPy.clamp_and_threshold Bench.cv output 30 250
    /\ @GreenOnBrownPy.clamp_and_threshold Bench.cv output 30 250
       <> @cv2_morphologyEx_close Bench.cv output 5.
Proof.
  eexists. split; [reflexivity|]. split; [reflexivity|].
  vm_compute. discriminate.
Qed.

(** C3, as the code has it. On an image in the store
    [green_on_brown] returns the contours exactly as the contour
    search found them; the boxes and centres are those of the
    contours whose area is greater than [minArea], in order. A contour
    with area at most [minArea] gives no box and no centre. *)
Theorem boxes_only_from_large_contours `{OpenCV} `{Algorithms}
  (image : positive) (img : Image) (exgMin exgMax : Z) (rng : HsvRange)
  (minArea : Z) (algorithm : string) (w : World) :
  store w !! image = Some img ->
  exists mask w',
    let cnts := cv2_findContours mask in
    let kept := filter (fun c => big_enough minArea c) cnts in
    GreenOnBrownPy.green_on_brown image exgMin exgMax rng minArea algorithm w
    = (w', Ok (cnts, box_of <$> kept, box_centre <$> (box_of <$> kept),
               image))
    /\ forall c, c ∈ kept <->
                 c ∈ cnts /\ (inject_Z minArea < cv2_contourArea c)%Q.
Proof.
  intros Hs.
  destruct (green_on_brown_result image exgMin exgMax rng minArea
              algorithm w img Hs) as (output & flag & w1 & _ & _ & R).
  eexists _, _. cbv zeta in *. split; [exact R|].
  intros c. rewrite list_elem_of_filter, Is_true_true, big_enough_area.
  tauto.
Qed.

(** C3 at the frame with the green block, with [minArea = 1]. *)
Lemma boxes_only_from_large_contours_witness :
  store (Bench.world_with Bench.block_frame) !! 1%positive
  = Some Bench.block_frame
  /\ exists mask w',
       let cnts := @cv2_findContours Bench.cv mask in
       let kept := filter (fun c => @big_enough Bench.cv 1 c) cnts in
       @GreenOnBrownPy.green_on_brown Bench.cv Bench.alg 1%positive 30 250
         Bench.hsv_default 1 "exg" (Bench.world_with Bench.block_frame)
       = (w', Ok (cnts, @box_of Bench.cv <$> kept,
                  box_centre <$> (@box_of Bench.cv <$> kept), 1%positive))
       /\ forall c, c ∈ kept <->
                    c ∈ cnts
                    /\ (inject_Z 1 < @cv2_contourArea Bench.cv c)%Q.
Proof.
  split; [reflexivity|].
  apply (@boxes_only_from_large_contours Bench.cv Bench.alg 1%positive
           Bench.block_frame 30 250 Bench.hsv_default 1 "exg"
           (Bench.world_with Bench.block_frame)).
  reflexivity.
Defined.

(** C3, counterexample. On the frame with one green pixel the contour
    search finds a contour of area 0; with [minArea = 1] it is among
    the contours returned, though it has no box and no centre. *)
Lemma small_contour_is_returned :
  exists w',
    @GreenOnBrownPy.green_on_brown Bench.cv Bench.alg 1%positive 30 250
      Bench.hsv_default 1 "exg" (Bench.world_with Bench.speck_frame)
    = (w', Ok ([[(2, 2)]], [], [], 1%positive))
    /\ (@cv2_contourArea Bench.cv [(2, 2)%Z] < inject_Z 1)%Q.
Proof.
  eexists. split; vm_compute; reflexivity.
Qed.

(** ** Loops *)

(** A property of the accumulator that every turn of a loop keeps
    holds when the loop returns. *)
Lemma for_fold_invariant {S A B} (P : B -> Prop)
  (body : B -> A -> Eff S B) :
  (forall acc x s s' acc',
      P acc -> body acc x s = (s', Ok acc') -> P acc') ->
  forall xs acc s s' acc',
    P acc -> for_fold xs acc body s = (s', Ok acc') -> P acc'.
Proof.
  intros Hstep xs. induction xs as [|x xs IH]; intros acc s s' acc' HP E.
  - cbn in E. inversion E; subst. exact HP.
  - cbn [for_fold] in E. unfold bind in E.
    destruct (body acc x s) as [s1 [acc1|e]] eqn:Eb; [|discriminate].
    eapply IH; [|exact E]. eapply Hstep; eauto.
Qed.

(** A property of the state that every turn of a loop keeps holds
    after the loop, however it ends. *)
Lemma for_each_state {S A} (P : S -> Prop) (body : A -> Eff S unit) :
  (forall x s, P s -> P (body x s).1) ->
  forall xs s, P s -> P (for_each xs body s).1.
Proof.
  intros Hstep xs. induction xs as [|x xs IH]; intros s HP.
  - exact HP.
  - cbn [for_each]. unfold bind.
    pose proof (Hstep x s HP) as H1.
    destruct (body x s) as [s1 [[]|e]]; cbn in *.
    + apply IH. exact H1.
    + exact H1.
Qed.

(** ** [GreenOnGreen.inference] *)

Section GreenOnGreenFacts.
Context `{OpenCV}.
Import GreenOnGreenPy.

Lemma detection_step_aligned (self : GreenOnGreen) (image : positive)
  (width height : Z) (boxes classes scores : Tensor) (confidence : Q)
  (filter_id : Z) acc i w w' acc' :
  acc.2 = box_centre <$> acc.1 ->
  detection_step self image width height boxes classes scores confidence
    filter_id acc i w = (w', Ok acc') ->
  acc'.2 = box_centre <$> acc'.1.
Proof.
  destruct acc as [bs cs]. cbn [fst snd]. intros -> E.
  unfold detection_step, bind, ret, draw, modify in E.
  destruct (item scores i w) as [w1 [score|e]]; [|discriminate].
  destruct (Qle_bool confidence score).
  - destruct (item classes i w1) as [w2 [class|e]]; [|discriminate].
    destruct (Qeq_bool class (inject_Z filter_id)).
    + destruct (row boxes i w2) as [w3 [[[[ymin xmin] ymax] xmax]|e]];
        [|discriminate].
      inversion E; subst. cbn [fst snd].
      rewrite fmap_app. reflexivity.
    + inversion E; subst. reflexivity.
  - inversion E; subst. reflexivity.
Qed.

(** When [inference] returns, the contours are [None], the centres
    are the centres of the boxes, and the image is the one passed. *)
Lemma inference_returns (self : GreenOnGreen) (image : positive)
  (confidence : Q) (filter_id : Z) w w' cnts boxes centres out :
  inference self image confidence filter_id w
  = (w', Ok (cnts, boxes, centres, out)) ->
  cnts = None /\ centres = box_centre <$> boxes /\ out = image.
Proof.
  unfold inference, deref. unfold bind at 1.
  destruct (store w !! image) as [img|]; [|discriminate].
  destruct (shape img) as [height width].
  destruct (input_vstreams self); [|discriminate].
  destruct (output_vstreams self) as [read|]; [|discriminate].
  set (outputs := dict_zip (output_names self) (read (preprocess self img))).
  destruct (outputs !! "detection_boxes") as [tb|];
    [destruct (outputs !! "detection_classes") as [tc|];
     [destruct (outputs !! "detection_scores") as [ts|]|]|];
    try (cbn; intros E; inversion E; subst; auto; fail).
  unfold bind at 1.
  destruct (for_fold _ _ _ w) as [w1 [[bs cs]|e]] eqn:El; [|discriminate].
  cbn. intros E; inversion E; subst.
  split; [reflexivity|]. split; [|reflexivity].
  change (((boxes, centres).2) = box_centre <$> (boxes, centres).1).
  refine (for_fold_invariant (fun acc => acc.2 = box_centre <$> acc.1)
            _ _ _ _ _ _ (boxes, centres) _ El); [|reflexivity].
  intros acc x s s' acc' HP Es. eapply detection_step_aligned; eauto.
Qed.

(** Ordered rows give boxes of non-negative size. *)
Lemma detection_step_sized (self : GreenOnGreen) (image : positive)
  (width height : Z) (boxes classes scores : Tensor) (confidence : Q)
  (filter_id : Z) acc i w w' acc' :
  0 <= width -> 0 <= height ->
  (forall rows, boxes = Rows rows -> Forall row_ordered rows) ->
  Forall sized acc.1 ->
  detection_step self image width height boxes classes scores
    confidence filter_id acc i w = (w', Ok acc') ->
  Forall sized acc'.1.
Proof.
  destruct acc as [bs cs]. cbn [fst snd]. intros Hw Hh Hrows Hbs E.
  unfold detection_step, bind, ret, draw, modify in E.
  destruct (item scores i w) as [w1 [score|e]]; [|discriminate].
  destruct (Qle_bool confidence score).
  - destruct (item classes i w1) as [w2 [class|e]]; [|discriminate].
    destruct (Qeq_bool class (inject_Z filter_id)).
    + unfold row in E. destruct boxes as [rows|v].
      * destruct (rows !! Z.to_nat i) as [[[[ymin xmin] ymax] xmax]|] eqn:Er;
          [|discriminate].
        inversion E; subst. cbn [fst snd].
        apply Forall_app. split; [exact Hbs|]. apply Forall_singleton.
        apply list_elem_of_lookup_2 in Er.
        specialize (Hrows rows eq_refl).
        rewrite Forall_forall in Hrows. apply Hrows in Er as [Hy Hx].
        unfold sized. cbn [boxW boxH].
        assert (Hqw : (0 <= inject_Z width)%Q)
          by (change 0%Q with (inject_Z 0); rewrite <- Zle_Qle; exact Hw).
        assert (Hqh : (0 <= inject_Z height)%Q)
          by (change 0%Q with (inject_Z 0); rewrite <- Zle_Qle; exact Hh).
        pose proof (py_int_mono _ _ (Qmult_le_compat_r _ _ _ Hx Hqw)).
        pose proof (py_int_mono _ _ (Qmult_le_compat_r _ _ _ Hy Hqh)).
        lia.
      * destruct (v !! Z.to_nat i); discriminate.
    + inversion E; subst. exact Hbs.
  - inversion E; subst. exact Hbs.
Qed.

(** A tensor found under a name is one of the tensors read. *)
Lemma dict_zip_elem (names : list string) (data : list Tensor) k t :
  dict_zip names data !! k = Some t -> t ∈ data.
Proof.
  unfold dict_zip.
  assert (G : forall (l : list (string * Tensor)) (m : gmap string Tensor),
             foldl (fun d kv => <[kv.1 := kv.2]> d) m l !! k = Some t ->
             m !! k = Some t \/ t ∈ l.*2).
  { induction l as [|[k0 t0] l IH]; intros m E; [left; exact E|].
    cbn in E. apply IH in E as [E|E].
    - destruct (decide (k0 = k)) as [->|Hne].
      + rewrite lookup_insert_eq in E. inversion E; subst.
        right. cbn. apply list_elem_of_here.
      + rewrite lookup_insert_ne in E by exact Hne. left. exact E.
    - right. cbn. apply list_elem_of_further, E. }
  intros E. apply G in E as [E|E]; [rewrite lookup_empty in E; discriminate|].
  apply list_elem_of_fmap in E as ([k1 t1] & -> & E).
  eapply elem_of_zip_r, E.
Qed.

Lemma inference_boxes_sized (self : GreenOnGreen) (image : positive)
  (confidence : Q) (filter_id : Z) w w' cnts boxes centres out :
  (forall read input rows,
      output_vstreams self = Some read ->
      Rows rows ∈ read input -> Forall row_ordered rows) ->
  inference self image confidence filter_id w
  = (w', Ok (cnts, boxes, centres, out)) ->
  Forall sized boxes.
Proof.
  intros Hord. unfold inference, deref. unfold bind at 1.
  destruct (store w !! image) as [img|]; [|discriminate].
  destruct (shape img) as [height width] eqn:Esh.
  destruct (input_vstreams self); [|discriminate].
  destruct (output_vstreams self) as [read|] eqn:Eo; [|discriminate].
  set (outputs := dict_zip (output_names self) (read (preprocess self img))).
  destruct (outputs !! "detection_boxes") as [tb|] eqn:Eb;
    [destruct (outputs !! "detection_classes") as [tc|];
     [destruct (outputs !! "detection_scores") as [ts|]|]|];
    try (cbn; intros E; inversion E; subst; apply Forall_nil_2; fail).
  unfold bind at 1.
  destruct (for_fold _ _ _ w) as [w1 [[bs cs]|e]] eqn:El; [|discriminate].
  cbn. intros E; inversion E; subst.
  assert (Hw : 0 <= width /\ 0 <= height).
  { unfold shape in Esh. inversion Esh. lia. }
  change (Forall sized (boxes, centres).1).
  refine (for_fold_invariant (fun acc => Forall sized acc.1)
            _ _ _ _ _ _ (boxes, centres) _ El); [|apply Forall_nil_2].
  intros acc x s s' acc' HP Es.
  eapply detection_step_sized; [| | |exact HP|exact Es]; try lia.
  intros rows ->. apply dict_zip_elem in Eb.
  exact (Hord read _ rows eq_refl Eb).
Qed.

End GreenOnGreenFacts.

Lemma centres_of_boxes (boxes : list Box) :
  centres_match_boxes boxes (box_centre <$> boxes).
Proof.
  split; [apply length_fmap|].
  intros i b c Hb Hc. rewrite list_lookup_fmap, Hb in Hc.
  inversion Hc; subst c.
  split; [reflexivity|]. split; [apply box_centre_within_span|].
  intros Hw Hh. apply within_span_box; auto. apply box_centre_within_span.
Qed.

Lemma centres_within_boxes (boxes : list Box) :
  Forall sized boxes -> Forall2 within_box (box_centre <$> boxes) boxes.
Proof.
  induction 1 as [|b bs [Hw Hh] _ IH]; constructor; [|exact IH].
  apply within_span_box; auto. apply box_centre_within_span.
Qed.

(** C9. Whenever [green_on_brown] or [GreenOnGreen.inference] returns,
    the centres and the boxes have the same length, the centre at each
    index is [(x + width/2, y + height/2)] of the box at that index,
    truncated, and it lies within that box: in the rectangle the box
    spans in every case, and between [x] and [x + width], [y] and
    [y + height] when [boundingRect] gives sizes that are not negative
    and the rows of the detector have their corners in order. *)
Theorem detection_results_aligned `{OpenCV} `{Algorithms} :
  (forall image exgMin exgMax rng minArea algorithm w w'
          cnts boxes centres out,
      GreenOnBrownPy.green_on_brown image exgMin exgMax rng minArea
        algorithm w = (w', Ok (cnts, boxes, centres, out)) ->
      centres_match_boxes boxes centres
      /\ ((forall c, sized (box_of c)) -> Forall2 within_box centres boxes))
  /\ (forall self image confidence filter_id w w' cnts boxes centres out,
         GreenOnGreenPy.inference self image confidence filter_id w
         = (w', Ok (cnts, boxes, centres, out)) ->
         centres_match_boxes boxes centres
         /\ ((forall read input rows,
                 GreenOnGreenPy.output_vstreams self = Some read ->
                 GreenOnGreenPy.Rows rows ∈ read input ->
                 Forall row_ordered rows) ->
             Forall2 within_box centres boxes)).
Proof.
  split.
  - intros image exgMin exgMax rng minArea algorithm w w'
           cnts boxes centres out E.
    apply green_on_brown_returns in E as (Eb & -> & _).
    split; [apply centres_of_boxes|].
    intros Hsized. apply centres_within_boxes. rewrite Eb.
    apply Forall_fmap, Forall_forall. intros c _. apply Hsized.
  - intros self image confidence filter_id w w' cnts boxes centres out E.
    pose proof E as E'.
    apply inference_returns in E as (_ & -> & _).
    split; [apply centres_of_boxes|].
    intros Hord. apply centres_within_boxes.
    eapply inference_boxes_sized; eauto.
Qed.

(** C9 at the frame with the green block: both detectors return the
    box (1, 1, 3, 3) with the centre (2, 2). *)
Lemma detection_results_aligned_witness :
  (exists w' cnts,
      @GreenOnBrownPy.green_on_brown Bench.cv Bench.alg 1%positive 30 250
        Bench.hsv_default 1 "exg" (Bench.world_with Bench.block_frame)
      = (w', Ok (cnts, [mkBox 1 1 3 3], [mkCentre 2 2], 1%positive)))
  /\ (exists w',
         @GreenOnGreenPy.inference Bench.cv Bench.detector 1%positive
           (1 # 2) 63 (Bench.world_with Bench.block_frame)
         = (w', Ok (None, [mkBox 1 1 3 3], [mkCentre 2 2], 1%positive)))
  /\ centres_match_boxes [mkBox 1 1 3 3] [mkCentre 2 2]
  /\ Forall2 within_box [mkCentre 2 2] [mkBox 1 1 3 3].
Proof.
  assert (E1 : exists w' cnts,
      @GreenOnBrownPy.green_on_brown Bench.cv Bench.alg 1%positive 30 250
        Bench.hsv_default 1 "exg" (Bench.world_with Bench.block_frame)
      = (w', Ok (cnts, [mkBox 1 1 3 3], [mkCentre 2 2], 1%positive))).
  { eexists _, _. vm_compute. reflexivity. }
  assert (E2 : exists w',
      @GreenOnGreenPy.inference Bench.cv Bench.detector 1%positive
        (1 # 2) 63 (Bench.world_with Bench.block_frame)
      = (w', Ok (None, [mkBox 1 1 3 3], [mkCentre 2 2], 1%positive))).
  { eexists. vm_compute. reflexivity. }
  split; [exact E1|]. split; [exact E2|].
  destruct E2 as (w' & E2).
  destruct (proj2 (@detection_results_aligned Bench.cv Bench.alg)
              _ _ _ _ _ _ _ _ _ _ E2) as [Hm Hin].
  split; [exact Hm|]. apply Hin.
  intros read input rows Hr Hrows. inversion Hr; subst read.
  unfold Bench.one_box in Hrows.
  apply elem_of_cons in Hrows as [Hrows|Hrows].
  - inversion Hrows; subst rows. apply Forall_singleton.
    split; vm_compute; discriminate.
  - apply elem_of_cons in Hrows as [Hrows|Hrows]; [discriminate Hrows|].
    apply elem_of_cons in Hrows as [Hrows|Hrows]; [discriminate Hrows|].
    apply elem_of_nil in Hrows as [].
Defined.

(** A loop whose every turn returns, returns. *)
Lemma for_fold_returns {S A B} (body : B -> A -> Eff S B) (xs : list A) :
  (forall acc x s, x ∈ xs -> exists s' acc', body acc x s = (s', Ok acc')) ->
  forall acc s, exists s' acc', for_fold xs acc body s = (s', Ok acc').
Proof.
  induction xs as [|x xs IH]; intros Hbody acc s.
  - eexists _, _. reflexivity.
  - cbn [for_fold]. unfold bind.
    destruct (Hbody acc x s) as (s1 & acc1 & E); [apply list_elem_of_here|].
    rewrite E. apply IH. intros acc0 x0 s0 Hin. apply Hbody.
    apply list_elem_of_further. exact Hin.
Qed.

Section GreenOnGreenTotal.
Context `{OpenCV}.
Import GreenOnGreenPy.

(** With one class and one score per row of boxes, a turn of the
    detection loop returns. *)
Lemma detection_step_returns (self : GreenOnGreen) (image : positive)
  (width height : Z) rows cls scs (confidence : Q) (filter_id : Z)
  acc i w :
  (length rows <= length cls)%nat -> (length rows <= length scs)%nat ->
  0 <= i < Z.of_nat (length rows) ->
  exists w' acc',
    detection_step self image width height (Rows rows) (Vec cls) (Vec scs)
      confidence filter_id acc i w = (w', Ok acc').
Proof.
  intros Hc Hs Hi. destruct acc as [bs cs].
  destruct (lookup_lt_is_Some_2 scs (Z.to_nat i) ltac:(lia)) as [score Es].
  destruct (lookup_lt_is_Some_2 cls (Z.to_nat i) ltac:(lia)) as [class Ec].
  destruct (lookup_lt_is_Some_2 rows (Z.to_nat i) ltac:(lia))
    as [[[[ymin xmin] ymax] xmax] Er].
  unfold detection_step, item, row. unfold bind at 1. rewrite Es. cbn.
  destruct (Qle_bool confidence score); [|eauto].
  unfold bind at 1. rewrite Ec. cbn.
  destruct (Qeq_bool class (inject_Z filter_id)); [|eauto].
  unfold bind at 1. rewrite Er. cbn. eauto.
Qed.

(** With the streams attached and well-shaped tensors under the three
    names, [inference] returns. *)
Lemma inference_total (self : GreenOnGreen) (image : positive)
  (confidence : Q) (filter_id : Z) w img u read rows cls scs :
  store w !! image = Some img ->
  input_vstreams self = Some u ->
  output_vstreams self = Some read ->
  let outputs := dict_zip (output_names self) (read (preprocess self img)) in
  outputs !! "detection_boxes" = Some (Rows rows) ->
  outputs !! "detection_classes" = Some (Vec cls) ->
  outputs !! "detection_scores" = Some (Vec scs) ->
  (length rows <= length cls)%nat -> (length rows <= length scs)%nat ->
  exists w' boxes centres,
    inference self image confidence filter_id w
    = (w', Ok (None, boxes, centres, image)).
Proof.
  intros Hs Hi Ho outputs Eb Ec Es Hlc Hls.
  unfold inference, deref. unfold bind at 1. rewrite Hs.
  destruct (shape img) as [height width]. rewrite Hi, Ho.
  fold outputs. rewrite Eb, Ec, Es. unfold bind at 1.
  destruct (for_fold_returns
              (detection_step self image width height (Rows rows) (Vec cls)
                 (Vec scs) confidence filter_id)
              (range (shape0 (Rows rows)))) with (acc := (@nil Box, @nil Centre))
              (s := w) as (w' & [bs cs] & El).
  { intros acc x s Hx. apply elem_of_range in Hx.
    apply detection_step_returns; auto. }
  rewrite El. cbn. eauto.
Qed.

(** Without one of the three tensors, [inference] returns at once. *)
Lemma inference_missing_tensor (self : GreenOnGreen) (image : positive)
  (confidence : Q) (filter_id : Z) w img u read :
  store w !! image = Some img ->
  input_vstreams self = Some u ->
  output_vstreams self = Some read ->
  let outputs := dict_zip (output_names self) (read (preprocess self img)) in
  outputs !! "detection_boxes" = None
  \/ outputs !! "detection_classes" = None
  \/ outputs !! "detection_scores" = None ->
  inference self image confidence filter_id w
  = (set_stdout (fun out => out ++ ["Output tensors not found."]) w,
     Ok (None, [], [], image)).
Proof.
  intros Hs Hi Ho outputs Hm.
  unfold inference, deref. unfold bind at 1. rewrite Hs.
  destruct (shape img) as [height width]. rewrite Hi, Ho.
  fold outputs.
  destruct (outputs !! "detection_boxes") as [tb|];
    [destruct (outputs !! "detection_classes") as [tc|];
     [destruct (outputs !! "detection_scores") as [ts|]|]|];
    try reflexivity.
  destruct Hm as [Hm|[Hm|Hm]]; discriminate Hm.
Qed.

End GreenOnGreenTotal.

(** C10. [GreenOnGreen.inference] has [None] in the contours position
    of every result it returns. It does return, with [None] there,
    when its streams are attached and a tensor is missing, and when
    the three tensors are present with one class and one score per
    row of boxes. *)
Theorem inference_contours_always_none `{OpenCV}
  (self : GreenOnGreenPy.GreenOnGreen) (image : positive)
  (confidence : Q) (filter_id : Z) (w : World) :
  (forall w' cnts boxes centres out,
      GreenOnGreenPy.inference self image confidence filter_id w
      = (w', Ok (cnts, boxes, centres, out)) ->
      cnts = None)
  /\ (forall img u read,
         store w !! image = Some img ->
         GreenOnGreenPy.input_vstreams self = Some u ->
         GreenOnGreenPy.output_vstreams self = Some read ->
         let outputs :=
           GreenOnGreenPy.dict_zip (GreenOnGreenPy.output_names self)
             (read (GreenOnGreenPy.preprocess self img)) in
         (outputs !! "detection_boxes" = None
          \/ outputs !! "detection_classes" = None
          \/ outputs !! "detection_scores" = None ->
          GreenOnGreenPy.inference self image confidence filter_id w
          = (set_stdout (fun out => out ++ ["Output tensors not found."]) w,
             Ok (None, [], [], image)))
         /\ (forall rows cls scs,
                outputs !! "detection_boxes"
                = Some (GreenOnGreenPy.Rows rows) ->
                outputs !! "detection_classes"
                = Some (GreenOnGreenPy.Vec cls) ->
                outputs !! "detection_scores"
                = Some (GreenOnGreenPy.Vec scs) ->
                (length rows <= length cls)%nat ->
                (length rows <= length scs)%nat ->
                exists w' boxes centres,
                  GreenOnGreenPy.inference self image confidence filter_id w
                  = (w', Ok (None, boxes, centres, image)))).
Proof.
  split.
  - intros w' cnts boxes centres out E.
    apply inference_returns in E as (-> & _). reflexivity.
  - intros img u read Hs Hi Ho outputs. split.
    + intros Hm. eapply inference_missing_tensor; eauto.
    + intros rows cls scs Eb Ec Es Hc Hl.
      eapply inference_total; eauto.
Qed.

(** C10 at a detector that reports one box, and at one whose tensors
    go by other names. *)
Lemma inference_contours_always_none_witness :
  (exists w' boxes centres,
      @GreenOnGreenPy.inference Bench.cv Bench.detector 1%positive (1 # 2) 63
        (Bench.world_with Bench.block_frame)
      = (w', Ok (None, boxes, centres, 1%positive)))
  /\ @GreenOnGreenPy.inference Bench.cv Bench.detector_other_names 1%positive
       (1 # 2) 63 (Bench.world_with Bench.block_frame)
     = (set_stdout (fun out => out ++ ["Output tensors not found."])
          (Bench.world_with Bench.block_frame),
        Ok (None, [], [], 1%positive)).
Proof.
  split.
  - refine (proj2 (proj2 (@inference_contours_always_none Bench.cv
                     Bench.detector 1%positive (1 # 2) 63
                     (Bench.world_with Bench.block_frame))
                   Bench.block_frame tt (fun _ => Bench.one_box)
                   eq_refl eq_refl eq_refl)
              [(1 # 5, 1 # 5, 4 # 5, 4 # 5)%Q] [63%Q] [(9 # 10)%Q]
              _ _ _ _ _);
      try (vm_compute; reflexivity); cbn; lia.
  - refine (proj1 (proj2 (@inference_contours_always_none Bench.cv
                     Bench.detector_other_names 1%positive (1 # 2) 63
                     (Bench.world_with Bench.block_frame))
                   Bench.block_frame tt (fun _ => Bench.one_box)
                   eq_refl eq_refl eq_refl) _).
    left. vm_compute. reflexivity.
Defined.

(** ** The spray decisions *)

(** A turn of a loop that does nothing can be left out. *)
Lemma for_each_skip {S A} (body : A -> Eff S unit) (x : A) :
  (forall s, body x s = (s, Ok tt)) ->
  forall pre post s,
    for_each (pre ++ x :: post) body s = for_each (pre ++ post) body s.
Proof.
  intros Hx pre. induction pre as [|p pre IH]; intros post s.
  - cbn. unfold bind. rewrite Hx. reflexivity.
  - cbn. unfold bind. destruct (body p s) as [s1 [[]|e]]; [apply IH|].
    reflexivity.
Qed.

Lemma for_each_filter {S A} (body : A -> Eff S unit) (keep : A -> bool) :
  (forall x s, keep x = false -> body x s = (s, Ok tt)) ->
  forall xs s,
    for_each xs body s = for_each (List.filter keep xs) body s.
Proof.
  intros Hskip xs. induction xs as [|x xs IH]; intros s; [reflexivity|].
  cbn. destruct (keep x) eqn:E.
  - cbn. unfold bind. destruct (body x s) as [s1 [[]|e]]; [apply IH|].
    reflexivity.
  - unfold bind. rewrite (Hskip x s E). apply IH.
Qed.

(** C4. In both rigs a centre whose y is at or below the activation
    line is passed over by the spray loop: the loop runs as if the
    centre were not in the list, so it submits no job for it, reads no
    clock and raises nothing. The loop over all centres is the loop
    over the centres above the line. *)
Theorem below_line_no_job :
  (forall (self : OwlPy.Owl) delay actuation_duration pre c post w,
      centre_y c <= OwlPy.yAct self ->
      OwlPy.spray_loop self delay actuation_duration (pre ++ c :: post) w
      = OwlPy.spray_loop self delay actuation_duration (pre ++ post) w)
  /\ (forall (self : GreenOnBrownPy.Owl) laneWidth delay sprayDur
             pre c post w,
         centre_y c <= GreenOnBrownPy.yAct self ->
         GreenOnBrownPy.spray_loop self laneWidth delay sprayDur
           (pre ++ c :: post) w
         = GreenOnBrownPy.spray_loop self laneWidth delay sprayDur
             (pre ++ post) w)
  /\ (forall (self : OwlPy.Owl) delay actuation_duration centres w,
         OwlPy.spray_loop self delay actuation_duration centres w
         = OwlPy.spray_loop self delay actuation_duration
             (List.filter (fun c => Z.ltb (OwlPy.yAct self) (centre_y c))
                          centres) w)
  /\ (forall (self : GreenOnBrownPy.Owl) laneWidth delay sprayDur centres w,
         GreenOnBrownPy.spray_loop self laneWidth delay sprayDur centres w
         = GreenOnBrownPy.spray_loop self laneWidth delay sprayDur
             (List.filter
                (fun c => Z.ltb (GreenOnBrownPy.yAct self) (centre_y c))
                centres) w).
Proof.
  repeat split.
  - intros self delay dur pre c post w Hy.
    unfold OwlPy.spray_loop. apply for_each_skip. intros s.
    rewrite (proj2 (Z.ltb_ge _ _) Hy). reflexivity.
  - intros self lw delay dur pre c post w Hy.
    unfold GreenOnBrownPy.spray_loop. apply for_each_skip. intros s.
    rewrite (proj2 (Z.ltb_ge _ _) Hy). reflexivity.
  - intros self delay dur centres w.
    unfold OwlPy.spray_loop.
    apply (for_each_filter _
             (fun c => Z.ltb (OwlPy.yAct self) (centre_y c))).
    intros x s E. rewrite E. reflexivity.
  - intros self lw delay dur centres w.
    unfold GreenOnBrownPy.spray_loop.
    apply (for_each_filter _
             (fun c => Z.ltb (GreenOnBrownPy.yAct self) (centre_y c))).
    intros x s E. rewrite E. reflexivity.
Qed.

(** C4 at a centre with y = 3 on a frame 320 high, where the
    activation line is at y = 3. *)
Lemma below_line_no_job_witness :
  centre_y (mkCentre 100 3) <= OwlPy.yAct (Bench.owl 4)
  /\ OwlPy.spray_loop (Bench.owl 4) 0 (15 # 100)
       ([] ++ mkCentre 100 3 :: []) (Bench.world_with Bench.block_frame)
     = (Bench.world_with Bench.block_frame, Ok tt).
Proof.
  assert (Hy : centre_y (mkCentre 100 3) <= OwlPy.yAct (Bench.owl 4)).
  { vm_compute. discriminate. }
  split; [exact Hy|].
  rewrite (proj1 below_line_no_job (Bench.owl 4) 0%Q (15 # 100)%Q
             [] (mkCentre 100 3) [] (Bench.world_with Bench.block_frame) Hy).
  reflexivity.
Defined.

(** ** The lane tests *)

Lemma foldl_insert_lookup (f : Z -> Z) (l : list Z) :
  forall (d : gmap Z Z) i,
    foldl (fun d i => <[i := f i]> d) d l !! i
    = if decide (i ∈ l) then Some (f i) else d !! i.
Proof.
  induction l as [|a l IH]; intros d i.
  - cbn. rewrite decide_False; [reflexivity|]. apply not_elem_of_nil.
  - cbn. rewrite IH. destruct (decide (i ∈ l)) as [Hin|Hin].
    + rewrite decide_True; [reflexivity|]. apply list_elem_of_further, Hin.
    + destruct (decide (i = a)) as [->|Hne].
      * rewrite decide_True by apply list_elem_of_here.
        apply lookup_insert_eq.
      * rewrite decide_False.
        -- apply lookup_insert_ne. congruence.
        -- intros Hc. apply elem_of_cons in Hc as [?|?]; congruence.
Qed.

Lemma py_int_lane_start (i W N : Z) :
  0 <= i -> 0 <= W -> 0 < N ->
  py_int (inject_Z i * (inject_Z W / inject_Z N)) = i * W / N.
Proof.
  intros Hi HW HN. unfold py_int. destruct N as [|p|p]; try lia.
  cbn. rewrite Z.mul_1_r. apply Z.quot_div_nonneg; lia.
Qed.

Lemma owl_test_Z (s x W N : Z) :
  0 < N ->
  negb (Qle_bool (inject_Z s + inject_Z W / inject_Z N) (inject_Z x))
  = Z.ltb (x * N) (s * N + W).
Proof.
  intros HN. destruct N as [|p|p]; try lia.
  destruct (Z.ltb_spec (x * Z.pos p) (s * Z.pos p + W)) as [Hlt|Hge].
  - apply negb_true_iff, not_true_iff_false. rewrite Qle_bool_iff.
    unfold Qle. cbn. lia.
  - apply negb_false_iff. rewrite Qle_bool_iff. unfold Qle. cbn. lia.
Qed.

Lemma legacy_lane_end (s W N : Z) :
  0 <= s -> 0 <= W -> 0 < N ->
  py_int (inject_Z s + inject_Z W / inject_Z N) = s + W / N.
Proof.
  intros Hs HW HN. unfold py_int. destruct N as [|p|p]; try lia.
  cbn. rewrite !Pos.mul_1_l. rewrite Z.quot_div_nonneg by lia.
  replace (s * Z.pos p + W * 1 * 1) with (W + s * Z.pos p) by lia.
  rewrite Z.div_add by lia. lia.
Qed.

Lemma for_each_receive (test : Z -> bool) (body : Z -> Eff World unit)
  (delay t dur : Q) (idx : list Z) :
  (forall i s, i ∈ idx ->
     body i s = if test i then receive i delay t dur s else (s, Ok tt)) ->
  forall w,
    for_each idx body w
    = (push_jobs ((fun i => mkJob i delay t dur) <$> List.filter test idx) w,
       Ok tt).
Proof.
  induction idx as [|i idx IH]; intros Hbody w.
  - cbn. rewrite push_jobs_nil. reflexivity.
  - cbn [for_each List.filter]. unfold bind.
    rewrite (Hbody i w) by apply list_elem_of_here.
    assert (Hrest : forall j s, j ∈ idx ->
              body j s = if test j then receive j delay t dur s
                         else (s, Ok tt)).
    { intros j s Hj. apply Hbody. apply list_elem_of_further, Hj. }
    destruct (test i).
    + change (receive i delay t dur w)
        with (push_jobs [mkJob i delay t dur] w, Ok tt).
      cbv beta iota. rewrite (IH Hrest), push_jobs_app. reflexivity.
    + apply (IH Hrest).
Qed.

Lemma owl_relay_loop (W Hh N : Z) (self : OwlPy.Owl) x delay t dur w :
  0 <= W -> 0 < N ->
  OwlPy._setup_lane_coordinates W Hh N = Ok self ->
  OwlPy.relay_loop self (OwlPy.lane_coords self) x delay t dur w
  = (push_jobs ((fun i => mkJob i delay t dur)
                  <$> List.filter (owl_lane_test W N x) (range N)) w,
     Ok tt).
Proof.
  intros HW HN E. unfold OwlPy._setup_lane_coordinates, truediv in E.
  destruct (Z.eqb_spec N 0) as [|_]; [lia|]. inversion E; subst self; clear E.
  unfold OwlPy.relay_loop. cbn [OwlPy.relay_num OwlPy.lane_coords
                                 OwlPy.lane_width].
  apply for_each_receive. intros i s Hi.
  unfold bind, getitem, OwlPy.dict_of_range.
  rewrite foldl_insert_lookup, decide_True by exact Hi.
  apply elem_of_range in Hi. cbn.
  rewrite py_int_lane_start by lia. rewrite owl_test_Z by lia.
  unfold owl_lane_test. destruct (_ && _); reflexivity.
Qed.

Lemma legacy_nozzle_loop (W N : Z) (self : GreenOnBrownPy.Owl) d0 x
  delay t dur w :
  0 <= W -> 0 < N ->
  GreenOnBrownPy.nozzleNum self = N ->
  GreenOnBrownPy.laneCoords self
  = GreenOnBrownPy.lane_coords_loop (inject_Z W / inject_Z N) N d0 ->
  GreenOnBrownPy.nozzle_loop self (inject_Z W / inject_Z N) x delay t dur w
  = (push_jobs ((fun i => mkJob i delay t dur)
                  <$> List.filter (legacy_lane_test W N x) (range N)) w,
     Ok tt).
Proof.
  intros HW HN En Ed. unfold GreenOnBrownPy.nozzle_loop. rewrite En, Ed.
  apply for_each_receive. intros i s Hi.
  unfold bind, GreenOnBrownPy.in_lane, getitem,
    GreenOnBrownPy.lane_coords_loop. unfold bind.
  rewrite foldl_insert_lookup, decide_True by exact Hi.
  apply elem_of_range in Hi. cbn.
  rewrite py_int_lane_start by lia.
  rewrite legacy_lane_end; [|apply Z.div_pos; nia|lia|lia].
  unfold legacy_lane_test. destruct (_ && _); reflexivity.
Qed.

Lemma filter_none {A} (test : A -> bool) (l : list A) :
  (forall i, i ∈ l -> test i = false) -> List.filter test l = [].
Proof.
  induction l as [|a l IH]; intros Hall; [reflexivity|].
  cbn. rewrite (Hall a) by apply list_elem_of_here.
  apply IH. intros i Hi. apply Hall, list_elem_of_further, Hi.
Qed.

Lemma filter_only {A} (test : A -> bool) (k : A) (l : list A) :
  NoDup l -> k ∈ l ->
  (forall i, i ∈ l -> test i = true <-> i = k) ->
  List.filter test l = [k].
Proof.
  induction l as [|a l IH]; intros Hnd Hk Hiff.
  - apply elem_of_nil in Hk as [].
  - apply NoDup_cons in Hnd as [Ha Hnd]. cbn.
    destruct (test a) eqn:Ea.
    + apply (Hiff a) in Ea; [|apply list_elem_of_here]. subst a.
      f_equal. apply filter_none. intros i Hi.
      apply not_true_iff_false. intros Ht.
      apply (Hiff i) in Ht; [|apply list_elem_of_further, Hi]. congruence.
    + apply elem_of_cons in Hk as [->|Hk].
      * assert (test a = true) by (apply Hiff; [apply list_elem_of_here|reflexivity]).
        congruence.
      * apply IH; auto. intros i Hi. apply Hiff, list_elem_of_further, Hi.
Qed.

Lemma owl_test_at_width (W N x i : Z) :
  0 <= W -> 0 < N -> W <= x -> 0 <= i < N -> owl_lane_test W N x i = false.
Proof.
  intros HW HN Hx Hi. unfold owl_lane_test.
  pose proof (Z.mul_div_le (i * W) N HN).
  apply andb_false_iff. right. apply Z.ltb_ge. nia.
Qed.


Lemma owl_test_divisible (k N x i : Z) :
  0 < k -> 0 < N -> 0 <= x < N * k -> 0 <= i < N ->
  owl_lane_test (N * k) N x i = true <-> i = x / k.
Proof.
  intros Hk HN Hx Hi. unfold owl_lane_test.
  replace (i * (N * k)) with (i * k * N) by lia.
  rewrite Z.div_mul by lia.
  rewrite andb_true_iff, Z.leb_le, Z.ltb_lt.
  split.
  - intros [H1 H2]. apply Z.div_unique with (r := x - i * k); nia.
  - intros ->. pose proof (Z.mul_div_le x k Hk).
    pose proof (Z.mul_succ_div_gt x k Hk). nia.
Qed.

Lemma legacy_test_divisible (k N x i : Z) :
  0 < k -> 0 < N -> 0 <= x < N * k -> 0 <= i < N ->
  legacy_lane_test (N * k) N x i = true <-> i = x / k.
Proof.
  intros Hk HN Hx Hi. unfold legacy_lane_test.
  replace (i * (N * k)) with (i * k * N) by lia.
  rewrite Z.div_mul by lia.
  replace (N * k) with (k * N) by lia. rewrite Z.div_mul by lia.
  rewrite andb_true_iff, Z.leb_le, Z.ltb_lt.
  split.
  - intros [H1 H2]. apply Z.div_unique with (r := x - i * k); nia.
  - intros ->. pose proof (Z.mul_div_le x k Hk).
    pose proof (Z.mul_succ_div_gt x k Hk). nia.
Qed.

Lemma owl_test_cover (W N x : Z) :
  0 < N -> 0 <= x < W ->
  let i := ((x + 1) * N - 1) / W in
  0 <= i < N /\ owl_lane_test W N x i = true.
Proof.
  intros HN Hx i. assert (HW : 0 < W) by lia.
  pose proof (Z.mul_div_le ((x + 1) * N - 1) W HW) as H1.
  pose proof (Z.mul_succ_div_gt ((x + 1) * N - 1) W HW) as H2.
  fold i in H1, H2.
  assert (Hi0 : 0 <= i) by (apply Z.div_pos; nia).
  assert (Hi1 : i < N) by nia.
  split; [lia|]. unfold owl_lane_test.
  pose proof (Z.mul_div_le (i * W) N HN) as H3.
  pose proof (Z.mul_succ_div_gt (i * W) N HN) as H4.
  rewrite andb_true_iff, Z.leb_le, Z.ltb_lt. split; nia.
Qed.

(** In [owl.py] a centre at or beyond the frame width is in no lane. *)
Lemma owl_lane_at_frame_width (W Hh N : Z) (self : OwlPy.Owl) x
  delay t dur w :
  0 <= W -> 0 < N -> W <= x ->
  OwlPy._setup_lane_coordinates W Hh N = Ok self ->
  OwlPy.relay_loop self (OwlPy.lane_coords self) x delay t dur w
  = (w, Ok tt).
Proof.
  intros HW HN Hx E. rewrite (owl_relay_loop W Hh N) by assumption.
  rewrite filter_none; [cbn; rewrite push_jobs_nil; reflexivity|].
  intros i Hi. apply elem_of_range in Hi. apply owl_test_at_width; lia.
Qed.

(** In [owl.py], when the lane count divides the frame width, a centre
    inside the frame is in exactly one lane. *)
Lemma owl_lane_exact_when_divisible (k Hh N : Z) (self : OwlPy.Owl) x
  delay t dur w :
  0 < k -> 0 < N -> 0 <= x < N * k ->
  OwlPy._setup_lane_coordinates (N * k) Hh N = Ok self ->
  OwlPy.relay_loop self (OwlPy.lane_coords self) x delay t dur w
  = (push_jobs [mkJob (x / k) delay t dur] w, Ok tt)
  /\ 0 <= x / k < N.
Proof.
  intros Hk HN Hx E.
  assert (Hr : 0 <= x / k < N).
  { split; [apply Z.div_pos; lia|apply Z.div_lt_upper_bound; lia]. }
  split; [|exact Hr].
  rewrite (owl_relay_loop (N * k) Hh N) by (assumption || nia).
  rewrite (filter_only _ (x / k)); [reflexivity|apply NoDup_range| |].
  - apply elem_of_range. exact Hr.
  - intros i Hi. apply elem_of_range in Hi.
    apply owl_test_divisible; lia.
Qed.

(** In [owl.py] a centre inside the frame is in at least one lane. *)
Lemma owl_lane_cover (W Hh N : Z) (self : OwlPy.Owl) x delay t dur w :
  0 < N -> 0 <= x < W ->
  OwlPy._setup_lane_coordinates W Hh N = Ok self ->
  exists i js,
    0 <= i < N
    /\ OwlPy.relay_loop self (OwlPy.lane_coords self) x delay t dur w
       = (push_jobs js w, Ok tt)
    /\ mkJob i delay t dur ∈ js.
Proof.
  intros HN Hx E.
  destruct (owl_test_cover W N x HN Hx) as [Hi Ht].
  eexists _, _. split; [exact Hi|]. split.
  - apply (owl_relay_loop W Hh N); (assumption || lia).
  - apply (list_elem_of_fmap_2 (fun i => mkJob i delay t dur)).
    apply list_elem_of_In, filter_In. split; [|exact Ht].
    apply list_elem_of_In, elem_of_range, Hi.
Qed.



(** X5. In [greenonbrown.py], when the nozzle count divides the frame
    width, a centre inside the frame is in exactly one lane: the loop
    over the nozzles submits one job, for nozzle x / (W / N). *)
Lemma legacy_lane_exact_when_divisible (k N : Z) (self : GreenOnBrownPy.Owl)
  d0 x delay t dur w :
  0 < k -> 0 < N -> 0 <= x < N * k ->
  GreenOnBrownPy.nozzleNum self = N ->
  GreenOnBrownPy.laneCoords self
  = GreenOnBrownPy.lane_coords_loop (inject_Z (N * k) / inject_Z N) N d0 ->
  GreenOnBrownPy.nozzle_loop self (inject_Z (N * k) / inject_Z N) x
    delay t dur w
  = (push_jobs [mkJob (x / k) delay t dur] w, Ok tt)
  /\ 0 <= x / k < N.
Proof.
  intros Hk HN Hx En Ed.
  assert (Hr : 0 <= x / k < N).
  { split; [apply Z.div_pos; lia|apply Z.div_lt_upper_bound; lia]. }
  split; [|exact Hr].
  rewrite (legacy_nozzle_loop (N * k) N self d0) by (assumption || nia).
  rewrite (filter_only _ (x / k)); [reflexivity|apply NoDup_range| |].
  - apply elem_of_range. exact Hr.
  - intros i Hi. apply elem_of_range in Hi.
    apply legacy_test_divisible; lia.
Qed.

(** X5 at x = 250 on a frame 416 wide with four nozzles. *)
Lemma legacy_lane_exact_when_divisible_witness :
  GreenOnBrownPy.nozzle_loop (Bench.legacy_owl 4)
    (inject_Z (4 * 104) / inject_Z 4) 250 0 0 (15 # 100)
    (Bench.world_with Bench.block_frame)
  = (push_jobs [mkJob (250 / 104) 0 0 (15 # 100)]
       (Bench.world_with Bench.block_frame), Ok tt)
  /\ 0 <= 250 / 104 < 4.
Proof.
  apply (legacy_lane_exact_when_divisible 104 4 (Bench.legacy_owl 4) ∅ 250);
    [lia|lia|lia|reflexivity|reflexivity].
Defined.

(** C1, on the code. With a frame 416 wide and three lanes the lane
    width is not a whole number. In [owl.py] the centre at x = 138
    passes the test of lane 0 and of lane 1 and gets two jobs; in
    [greenonbrown.py] the centre at x = 276 passes no test and gets
    none. *)
Theorem lane_test_overlaps_and_gaps :
  (exists self,
      OwlPy._setup_lane_coordinates 416 320 3 = Ok self
      /\ relay <$>
           received (OwlPy.spray_loop self 0 (15 # 100) [mkCentre 138 200]
                       (Bench.world_with Bench.block_frame)).1
         = [0; 1])
  /\ relay <$>
       received (GreenOnBrownPy.spray_loop (Bench.legacy_owl 3)
                   (inject_Z 416 / inject_Z 3) 0 (15 # 100)
                   [mkCentre 276 200]
                   (Bench.world_with Bench.block_frame)).1
     = [].
Proof.
  split.
  - eexists. split; [reflexivity|]. vm_compute. reflexivity.
  - vm_compute. reflexivity.
Qed.

(** ** Leaving [hoot] *)


(** C5, on the code. In [greenonbrown.py], when a cycle raises an
    [Exception], [hoot] beeps, logs the error and returns; it does not
    call [stop], so the relays and the controller are left as they
    were when the exception was raised. *)
Theorem legacy_hoot_error_leaves_relays `{OpenCV} `{Algorithms}
  (cycles : list GreenOnBrownPy.Cycle)
  (self : GreenOnBrownPy.Owl) sprayDur delay algorithm minArea w w1 e :
  GreenOnBrownPy.hoot_loop cycles self sprayDur delay algorithm minArea w
  = (w1, Raise e) ->
  is_Exception e = true ->
  GreenOnBrownPy.hoot cycles self sprayDur delay algorithm minArea w
  = (set_stdout (fun out => out ++ ["[CRITICAL ERROR] STOPPED"])
       (set_beeps S w1), Ok tt)
  /\ relays (GreenOnBrownPy.hoot cycles self sprayDur delay algorithm
               minArea w).1 = relays w1
  /\ controller_running
       (GreenOnBrownPy.hoot cycles self sprayDur delay algorithm minArea w).1
     = controller_running w1.
Proof.
  intros E He.
  assert (Eh : GreenOnBrownPy.hoot cycles self sprayDur delay algorithm
                 minArea w
               = (set_stdout (fun out => out ++ ["[CRITICAL ERROR] STOPPED"])
                    (set_beeps S w1), Ok tt)).
  { unfold GreenOnBrownPy.hoot, try_except. rewrite E.
    destruct e; try discriminate He; reflexivity. }
  rewrite Eh. auto.
Qed.

(** C5 at a camera fault on the first pass, and at a rig with no
    nozzle, where the lane width divides by zero on the first frame;
    relay 0 is energised before and after. *)
Lemma legacy_hoot_error_witness :
  relays (@GreenOnBrownPy.hoot Bench.cv Bench.alg
            [GreenOnBrownPy.mkCycle (ReadRaises (LibraryError "camera")) 255]
            (Bench.legacy_owl 4) (15 # 100) 0 "exg" 10
            (Bench.world_with Bench.block_frame)).1
  = [true; false; false; false]
  /\ (@GreenOnBrownPy.hoot_loop Bench.cv Bench.alg
        [GreenOnBrownPy.mkCycle (FrameArrives Bench.block_frame) 255]
        (Bench.legacy_owl 0) (15 # 100) 0 "exg" 10
        (Bench.world_with Bench.block_frame)).2
     = Raise ZeroDivisionError
  /\ (@GreenOnBrownPy.hoot Bench.cv Bench.alg
        [GreenOnBrownPy.mkCycle (FrameArrives Bench.block_frame) 255]
        (Bench.legacy_owl 0) (15 # 100) 0 "exg" 10
        (Bench.world_with Bench.block_frame)).2
     = Ok tt
  /\ relays (@GreenOnBrownPy.hoot Bench.cv Bench.alg
               [GreenOnBrownPy.mkCycle (FrameArrives Bench.block_frame) 255]
               (Bench.legacy_owl 0) (15 # 100) 0 "exg" 10
               (Bench.world_with Bench.block_frame)).1
     = [true; false; false; false].
Proof.
  destruct (@legacy_hoot_error_leaves_relays Bench.cv Bench.alg
    [GreenOnBrownPy.mkCycle (ReadRaises (LibraryError "camera")) 255]
    (Bench.legacy_owl 4) (15 # 100)%Q 0%Q "exg" 10
    (Bench.world_with Bench.block_frame)
    (Bench.world_with Bench.block_frame) (LibraryError "camera")
    eq_refl eq_refl) as (_ & Er & _).
  split; [rewrite Er; reflexivity|].
  assert (El : exists w1,
    @GreenOnBrownPy.hoot_loop Bench.cv Bench.alg
      [GreenOnBrownPy.mkCycle (FrameArrives Bench.block_frame) 255]
      (Bench.legacy_owl 0) (15 # 100) 0 "exg" 10
      (Bench.world_with Bench.block_frame)
    = (w1, Raise ZeroDivisionError)
    /\ relays w1 = [true; false; false; false]).
  { eexists. split; vm_compute; reflexivity. }
  destruct El as (w1 & El & Hr).
  destruct (@legacy_hoot_error_leaves_relays Bench.cv Bench.alg
              _ _ _ _ _ _ _ _ _ El eq_refl) as (E0 & Er0 & _).
  split; [rewrite El; reflexivity|].
  split; [rewrite E0; reflexivity|].
  rewrite Er0. exact Hr.
Defined.

(** ** The frame and the detector *)

(** The spray loop leaves the arrays alone. *)
Lemma legacy_spray_loop_store (self : GreenOnBrownPy.Owl) lw delay dur
  centres w :
  store (GreenOnBrownPy.spray_loop self lw delay dur centres w).1 = store w.
Proof.
  unfold GreenOnBrownPy.spray_loop.
  apply (for_each_state (fun s => store s = store w)); [|reflexivity].
  intros c s Hs. destruct (Z.ltb _ _); [|exact Hs].
  unfold bind at 1, time_time. unfold GreenOnBrownPy.nozzle_loop.
  apply (for_each_state (fun s => store s = store w)); [|exact Hs].
  intros i s0 Hs0. unfold bind, GreenOnBrownPy.in_lane, getitem, bind.
  destruct (_ !! i); cbn; [|exact Hs0].
  destruct (_ && _); exact Hs0.
Qed.

(** X13. In [greenonbrown.py] the detector works on [frame.copy()]:
    after a frame is processed the array behind [frame] is as it was,
    and the image returned is another array. *)
Lemma legacy_process_frame_keeps_frame `{OpenCV} `{Algorithms} (self : GreenOnBrownPy.Owl)
  (frame : positive) sprayDur delay algorithm minArea w w' self' out :
  GreenOnBrownPy.process_frame self frame sprayDur delay algorithm minArea w
  = (w', Ok (self', out)) ->
  out <> frame /\ store w' !! frame = store w !! frame.
Proof.
  unfold GreenOnBrownPy.process_frame. unfold bind at 1, np_copy.
  destruct (store w !! frame) as [img|] eqn:Hf; [|discriminate].
  assert (Hl : fresh (dom (store w)) <> frame).
  { intros Hc. apply (is_fresh (dom (store w))). rewrite Hc.
    apply elem_of_dom. eauto. }
  cbv zeta. set (l := fresh (dom (store w))) in *.
  set (w0 := set_store (insert l img) w).
  assert (Hl0 : store w0 !! l = Some img) by apply lookup_insert_eq.
  destruct (green_on_brown_result l (GreenOnBrownPy.exgMin self)
              (GreenOnBrownPy.exgMax self) (GreenOnBrownPy.hsv_range self)
              minArea algorithm w0 img Hl0)
    as (output & flag & w1 & _ & Hs1 & R).
  cbv zeta in R. unfold bind at 1. rewrite R. cbv beta iota.
  set (w2 := set_store _ w1).
  assert (Hs2 : store w2 !! frame = store w !! frame).
  { unfold w2. cbn. rewrite Hs1. unfold w0. cbn.
    rewrite lookup_alter_ne, lookup_insert_ne by congruence. reflexivity. }
  unfold bind at 1, deref. rewrite Hs2, Hf.
  unfold bind at 1.
  destruct (store w2 !! l) as [oimg|]; [|discriminate].
  destruct (truediv _ _) as [lw|]; [|discriminate].
  unfold bind at 1.
  match goal with |- context [GreenOnBrownPy.spray_loop ?a ?b ?c ?d ?e ?f] =>
    pose proof (legacy_spray_loop_store a b c d e f) as Hsp;
    destruct (GreenOnBrownPy.spray_loop a b c d e f) as [w3 [[]|e3]]
  end; [|discriminate].
  cbn [fst] in Hsp. cbn [ret]. intros E. inversion E; subst.
  split; [exact Hl|]. rewrite Hsp, Hs2, Hf. reflexivity.
Qed.

(** X13 on the frame with the green block. *)
Lemma legacy_process_frame_keeps_frame_witness :
  exists w' self' out,
    @GreenOnBrownPy.process_frame Bench.cv Bench.alg (Bench.legacy_owl 4)
      1%positive (15 # 100) 0 "exg" 1 (Bench.world_with Bench.block_frame)
    = (w', Ok (self', out))
    /\ out <> 1%positive
    /\ store w' !! 1%positive
       = store (Bench.world_with Bench.block_frame) !! 1%positive.
Proof.
  eexists _, _, _. split; [vm_compute; reflexivity|].
  eapply (@legacy_process_frame_keeps_frame Bench.cv Bench.alg
            (Bench.legacy_owl 4) 1%positive (15 # 100)%Q 0%Q "exg" 1
            (Bench.world_with Bench.block_frame)).
  vm_compute. reflexivity.
Defined.

(** ** The scheduler: two overlapping jobs on one lane *)

Import Scheduler.

Lemma submit_lookup (now : Q) (j : Job) (s : gmap Z Lane) :
  submit now j s !! relay j = lane_submit now j <$> s !! relay j.
Proof.
  unfold submit. rewrite lookup_alter_eq, lookup_fmap.
  destruct (s !! relay j); reflexivity.
Qed.

Lemma Qle_bool_false (a b : Q) : Qle_bool a b = false <-> (b < a)%Q.
Proof.
  rewrite <- not_true_iff_false, Qle_bool_iff. split.
  - apply Qnot_le_lt.
  - apply Qlt_not_le.
Qed.

Lemma Qle_bool_true (a b : Q) : (a <= b)%Q -> Qle_bool a b = true.
Proof. apply Qle_bool_iff. Qed.

Lemma Qle_bool_lt (a b : Q) : (b < a)%Q -> Qle_bool a b = false.
Proof. apply Qle_bool_false. Qed.

Lemma advance_idle (l : Z) (t : Q) : advance t (idle_lane l) = idle_lane l.
Proof. reflexivity. Qed.

Lemma advance_pending (l : Z) (a d t : Q) (r : bool) (tr : list (Q * bool)) :
  advance t (mkLane (mkLaneTimer l Pending (Some a) (Some d)) r tr)
  = if Qle_bool a t then
      if Qle_bool d t then
        mkLane (mkLaneTimer l Idle None None) false
               ((tr ++ [(a, true)]) ++ [(d, false)])
      else mkLane (mkLaneTimer l Active (Some a) (Some d)) true
                  (tr ++ [(a, true)])
    else mkLane (mkLaneTimer l Pending (Some a) (Some d)) r tr.
Proof.
  unfold advance, fire_activation. cbn [state timer activate_at].
  destruct (Qle_bool a t); unfold fire_deactivation;
    cbn [state timer deactivate_at lane transitions]; [|reflexivity].
  destruct (Qle_bool d t); reflexivity.
Qed.

Lemma advance_active (l : Z) (a d t : Q) (r : bool) (tr : list (Q * bool)) :
  advance t (mkLane (mkLaneTimer l Active (Some a) (Some d)) r tr)
  = if Qle_bool d t then
      mkLane (mkLaneTimer l Idle None None) false (tr ++ [(d, false)])
    else mkLane (mkLaneTimer l Active (Some a) (Some d)) r tr.
Proof.
  unfold advance, fire_activation. cbn [state timer activate_at].
  unfold fire_deactivation. cbn [state timer deactivate_at lane transitions].
  destruct (Qle_bool d t); reflexivity.
Qed.

Ltac q_test a b :=
  first [ rewrite (Qle_bool_true a b) by lra
        | rewrite (Qle_bool_lt a b) by lra ].

Ltac q_split a b :=
  let H := fresh "Hc" in destruct (Qlt_le_dec a b) as [H|H].

Section TwoJobs.
Variables (s0 : gmap Z Lane) (l : Z).
Variables (t1 t2 delay1 dur1 delay2 dur2 ts1 ts2 : Q).
Hypothesis Hidle : s0 !! l = Some (idle_lane l).
Hypothesis Hd1 : (0 <= delay1)%Q.
Hypothesis Hu1 : (0 < dur1)%Q.
Hypothesis Hd2 : (0 <= delay2)%Q.
Hypothesis Hu2 : (0 < dur2)%Q.
Hypothesis H12 : (t1 <= t2)%Q.
Hypothesis Hov : (t2 < t1 + delay1 + dur1)%Q.

Let j1 := mkJob l delay1 ts1 dur1.
Let j2 := mkJob l delay2 ts2 dur2.
Let arrivals := [(t1, j1); (t2, j2)].
Let on_at := (t1 + delay1)%Q.
Let off_at := Qmax (t1 + delay1 + dur1) (t2 + delay2 + dur2).

Lemma observe_lookup (t : Q) :
  observe arrivals t s0 !! l
  = Some (advance t
            (if Qle_bool t1 t
             then if Qle_bool t2 t
                  then lane_submit t2 j2 (lane_submit t1 j1 (idle_lane l))
                  else lane_submit t1 j1 (idle_lane l)
             else if Qle_bool t2 t
                  then lane_submit t2 j2 (idle_lane l)
                  else idle_lane l)).
Proof.
  unfold observe, arrivals. rewrite lookup_fmap. cbn [List.filter fst].
  destruct (Qle_bool t1 t), (Qle_bool t2 t); cbn [run foldl fst snd].
  - change l with (relay j2) at 1. rewrite submit_lookup.
    change (relay j2) with (relay j1). rewrite submit_lookup.
    cbn [relay j1 j2]. rewrite Hidle. reflexivity.
  - change l with (relay j1) at 1. rewrite submit_lookup.
    cbn [relay j1]. rewrite Hidle. reflexivity.
  - change l with (relay j2) at 1. rewrite submit_lookup.
    cbn [relay j2]. rewrite Hidle. reflexivity.
  - rewrite Hidle. reflexivity.
Qed.

Lemma first_job_lane :
  lane_submit t1 j1 (idle_lane l)
  = mkLane (mkLaneTimer l Pending (Some on_at)
                        (Some (t1 + delay1 + dur1)%Q)) false [].
Proof. reflexivity. Qed.

Lemma second_job_lane :
  lane_submit t2 j2 (lane_submit t1 j1 (idle_lane l))
  = if Qle_bool on_at t2 then
      mkLane (mkLaneTimer l Active (Some on_at) (Some off_at)) true
             [(on_at, true)]
    else mkLane (mkLaneTimer l Pending (Some on_at) (Some off_at)) false [].
Proof.
  rewrite first_job_lane. unfold lane_submit. rewrite advance_pending.
  q_test (t1 + delay1 + dur1)%Q t2.
  destruct (Qle_bool on_at t2); reflexivity.
Qed.

Lemma relay_at_window (t : Q) :
  relay_at arrivals s0 l t = true <-> (on_at <= t /\ t < off_at)%Q.
Proof.
  unfold relay_at. rewrite observe_lookup.
  pose proof (Q.le_max_l (t1 + delay1 + dur1) (t2 + delay2 + dur2)) as Hmax.
  fold off_at in Hmax.
  assert (Ha : (t1 <= on_at)%Q) by (unfold on_at; lra).
  assert (Hb : (on_at < t1 + delay1 + dur1)%Q) by (unfold on_at; lra).
  q_split t t1.
  - q_test t1 t. q_test t2 t. rewrite advance_idle. cbn.
    split; [discriminate|intros [? ?]; exfalso; lra].
  - q_test t1 t. q_split t t2.
    + q_test t2 t. rewrite first_job_lane, advance_pending.
      q_test (t1 + delay1 + dur1)%Q t.
      q_split t on_at.
      * q_test on_at t. cbn.
        split; [discriminate|intros [? ?]; exfalso; lra].
      * q_test on_at t. cbn. split; [intros _; split; lra|reflexivity].
    + q_test t2 t. rewrite second_job_lane.
      q_split t2 on_at.
      * q_test on_at t2. rewrite advance_pending.
        q_split t on_at.
        -- q_test on_at t. cbn.
           split; [discriminate|intros [? ?]; exfalso; lra].
        -- q_test on_at t. q_split t off_at.
           ++ q_test off_at t. cbn. split; [intros _; split; lra|reflexivity].
           ++ q_test off_at t. cbn.
              split; [discriminate|intros [? ?]; exfalso; lra].
      * q_test on_at t2. rewrite advance_active.
        q_split t off_at.
        -- q_test off_at t. cbn. split; [intros _; split; lra|reflexivity].
        -- q_test off_at t. cbn.
           split; [discriminate|intros [? ?]; exfalso; lra].
Qed.

Lemma transitions_after (t : Q) :
  (off_at <= t)%Q ->
  transitions_until arrivals s0 l t = [(on_at, true); (off_at, false)].
Proof.
  intros Ht. unfold transitions_until. rewrite observe_lookup.
  pose proof (Q.le_max_l (t1 + delay1 + dur1) (t2 + delay2 + dur2)) as Hmax.
  fold off_at in Hmax.
  assert (Hb : (on_at < t1 + delay1 + dur1)%Q) by (unfold on_at; lra).
  q_test t1 t. q_test t2 t. rewrite second_job_lane.
  q_split t2 on_at.
  - q_test on_at t2. rewrite advance_pending.
    q_test on_at t. q_test off_at t. reflexivity.
  - q_test on_at t2. rewrite advance_active. q_test off_at t. reflexivity.
Qed.

Lemma timer_after_second_job :
  exists st ln,
    run arrivals s0 !! l = Some ln
    /\ timer ln = mkLaneTimer l st (Some on_at) (Some off_at)
    /\ st <> Idle.
Proof.
  unfold arrivals. cbn [run foldl fst snd].
  change l with (relay j2) at 1. rewrite submit_lookup.
  change (relay j2) with (relay j1). rewrite submit_lookup.
  cbn [relay j1 j2]. rewrite Hidle. cbn [fmap option_fmap option_map].
  rewrite second_job_lane.
  destruct (Qle_bool on_at t2); eexists _, _;
    (split; [reflexivity|]); (split; [reflexivity|]); discriminate.
Qed.
End TwoJobs.

(** C2. When a second job for a lane arrives while the lane is
    pending or active (after the first job and before its
    deactivation deadline), the timer keeps the activation deadline of
    the first job and its deactivation deadline becomes the later of
    the two; the relay is ON exactly from the first activation to that
    later deadline, and the lane goes through one ON and one OFF
    transition and no other. *)
Theorem overlapping_jobs_coalesce (s0 : gmap Z Lane) (l : Z)
  (t1 t2 delay1 dur1 delay2 dur2 ts1 ts2 : Q) :
  s0 !! l = Some (idle_lane l) ->
  (0 <= delay1)%Q -> (0 < dur1)%Q -> (0 <= delay2)%Q -> (0 < dur2)%Q ->
  (t1 <= t2)%Q -> (t2 < t1 + delay1 + dur1)%Q ->
  let arrivals :=
    [(t1, mkJob l delay1 ts1 dur1); (t2, mkJob l delay2 ts2 dur2)] in
  let on_at := (t1 + delay1)%Q in
  let off_at := Qmax (t1 + delay1 + dur1) (t2 + delay2 + dur2) in
  (exists st ln,
      run arrivals s0 !! l = Some ln
      /\ timer ln = mkLaneTimer l st (Some on_at) (Some off_at)
      /\ st <> Idle)
  /\ (forall t, relay_at arrivals s0 l t = true
                <-> (on_at <= t /\ t < off_at)%Q)
  /\ (forall t, (off_at <= t)%Q ->
                transitions_until arrivals s0 l t
                = [(on_at, true); (off_at, false)]).
Proof.
  intros Hidle Hd1 Hu1 Hd2 Hu2 H12 Hov arrivals on_at off_at.
  split; [|split].
  - apply timer_after_second_job; assumption.
  - intros t. apply relay_at_window; assumption.
  - intros t Ht. apply transitions_after; assumption.
Qed.

(** The example of the spec: two jobs for lane 2 at t = 0 and
    t = 0.15, each with delay 0.1 and duration 0.2, on a rig of four
    lanes. *)
Lemma overlapping_jobs_witness :
  let job := mkJob 2 (1 # 10) 0 (2 # 10) in
  let arrivals := [(0%Q, job); ((15 # 100)%Q, job)] in
  init 4 !! 2 = Some (idle_lane 2)
  /\ relay_at arrivals (init 4) 2 (9 # 100) = false
  /\ relay_at arrivals (init 4) 2 (1 # 10) = true
  /\ relay_at arrivals (init 4) 2 (3 # 10) = true
  /\ relay_at arrivals (init 4) 2 (44 # 100) = true
  /\ relay_at arrivals (init 4) 2 (45 # 100) = false
  /\ exists on_at off_at,
       transitions_until arrivals (init 4) 2 1
       = [(on_at, true); (off_at, false)]
       /\ on_at == 1 # 10 /\ off_at == 45 # 100.
Proof.
  cbv zeta.
  assert (Hi : init 4 !! 2 = Some (idle_lane 2)) by reflexivity.
  destruct (overlapping_jobs_coalesce (init 4) 2 0 (15 # 100) (1 # 10)
              (2 # 10) (1 # 10) (2 # 10) 0 0 Hi)
    as (_ & Hw & Htr); try (vm_compute; congruence).
  cbv zeta in Hw, Htr.
  split; [exact Hi|].
  split; [apply not_true_iff_false; rewrite Hw; vm_compute; intuition congruence|].
  split; [apply Hw; vm_compute; intuition congruence|].
  split; [apply Hw; vm_compute; intuition congruence|].
  split; [apply Hw; vm_compute; intuition congruence|].
  split; [apply not_true_iff_false; rewrite Hw; vm_compute; intuition congruence|].
  eexists _, _. split; [apply Htr; vm_compute; congruence|].
  split; vm_compute; reflexivity.
Defined.

(** The same example over all times: the relay of lane 2 is ON from
    t = 0.1 until t = 0.45. *)
Lemma spec_example_window (t : Q) :
  let job := mkJob 2 (1 # 10) 0 (2 # 10) in
  relay_at [(0%Q, job); ((15 # 100)%Q, job)] (init 4) 2 t = true
  <-> (1 # 10 <= t /\ t < 45 # 100)%Q.
Proof.
  cbv zeta.
  rewrite (relay_at_window (init 4) 2 0 (15 # 100) (1 # 10) (2 # 10)
             (1 # 10) (2 # 10) 0 0 eq_refl)
    by (vm_compute; congruence).
  assert (E : Qmax (0 + (1 # 10) + (2 # 10))
                   ((15 # 100) + (1 # 10) + (2 # 10)) == 45 # 100)
    by (vm_compute; reflexivity).
  rewrite E. split; intros [? ?]; split; lra.
Qed.

(** ** The learned detector as [__init__] leaves it *)

(** [GreenOnGreen.__init__] assigns neither [input_vstreams] nor
    [output_vstreams]. On such an object [inference] raises
    [AttributeError] before it reaches a detection, whatever the
    frame, and the frame is untouched. *)
Lemma inference_after_init_raises `{OpenCV}
  (self : GreenOnGreenPy.GreenOnGreen) (image : positive) (img : Image)
  (confidence : Q) (filter_id : Z) (w : World) :
  store w !! image = Some img ->
  GreenOnGreenPy.input_vstreams self = None ->
  GreenOnGreenPy.inference self image confidence filter_id w
  = (w, Raise AttributeError).
Proof.
  intros Hs Hi. unfold GreenOnGreenPy.inference, deref. unfold bind at 1.
  rewrite Hs. destruct (shape img). rewrite Hi. reflexivity.
Qed.

(** ** The frame after detection *)





(** * Further properties of the code *)

(** ** The lanes: how many take a centre *)





(** ** Loops that return *)

(** A loop whose turns all return, and keep an invariant, returns and
    keeps it. *)
Lemma for_each_returns {S A} (P : S -> Prop) (body : A -> Eff S unit)
  (xs : list A) :
  (forall x s, x ∈ xs -> P s -> exists s', body x s = (s', Ok tt) /\ P s') ->
  forall s, P s -> exists s', for_each xs body s = (s', Ok tt) /\ P s'.
Proof.
  induction xs as [|x xs IH]; intros Hb s Hs.
  - exists s. split; [reflexivity|exact Hs].
  - destruct (Hb x s (list_elem_of_here _ _) Hs) as (s1 & E1 & H1).
    destruct (IH (fun y s0 Hy => Hb y s0 (list_elem_of_further _ _ _ Hy)) s1 H1)
      as (s2 & E2 & H2).
    exists s2. split; [|exact H2]. cbn. unfold bind. rewrite E1. exact E2.
Qed.

(** ** [greenonbrown.py]: a frame, and leaving [hoot] *)

Section LegacyFacts.
Context `{OpenCV} `{Algorithms}.
Import GreenOnBrownPy.

(** With the lane starts filled in for [range(nozzleNum)] the spray
    loop of [greenonbrown.py] always returns: every [laneCoords[i]]
    it reads is there. *)
Lemma legacy_spray_loop_returns (self : Owl) lw0 d0 lw delay dur centres w :
  laneCoords self = lane_coords_loop lw0 (nozzleNum self) d0 ->
  exists w', spray_loop self lw delay dur centres w = (w', Ok tt)
             /\ store w' = store w /\ relays w' = relays w
             /\ controller_running w' = controller_running w.
Proof.
  intros Ed. unfold spray_loop.
  set (P := fun s => store s = store w /\ relays s = relays w
                     /\ controller_running s = controller_running w).
  apply (for_each_returns P); [|repeat split].
  intros c s _ Hs. destruct (Z.ltb _ _); [|exists s; split; [reflexivity|exact Hs]].
  unfold bind at 1, time_time. unfold nozzle_loop.
  apply (for_each_returns P); [|exact Hs].
  intros i s0 Hi Hs0. unfold bind, in_lane, getitem, bind.
  rewrite Ed. unfold lane_coords_loop.
  rewrite foldl_insert_lookup, decide_True by exact Hi.
  cbn. destruct (_ && _); eexists; (split; [reflexivity|exact Hs0]).
Qed.

(** Processing a stored frame: the two ways it can end. *)
Lemma legacy_process_frame_cases (self : Owl) (frame : positive)
  (img : Image) sprayDur delay algorithm minArea w :
  store w !! frame = Some img ->
  exists w',
    store w' !! frame = Some img
    /\ relays w' = relays w
    /\ controller_running w' = controller_running w
    /\ ((nozzleNum self = 0
         /\ process_frame self frame sprayDur delay algorithm minArea w
            = (w', Raise ZeroDivisionError))
        \/ (nozzleNum self <> 0
            /\ exists self' out,
                 process_frame self frame sprayDur delay algorithm minArea w
                 = (w', Ok (self', out))
                 /\ nozzleNum self' = nozzleNum self
                 /\ yAct self' = py_int ((2 # 10) * inject_Z (shape img).1))).
Proof.
  intros Hf.
  remember (process_frame self frame sprayDur delay algorithm minArea w)
    as r eqn:Er.
  unfold process_frame in Er. unfold bind at 1, np_copy in Er.
  rewrite Hf in Er.
  assert (Hl : fresh (dom (store w)) <> frame).
  { intros Hc. apply (is_fresh (dom (store w))). rewrite Hc.
    apply elem_of_dom. eauto. }
  cbv zeta in Er. set (l := fresh (dom (store w))) in *.
  set (w0 := set_store (insert l img) w) in *.
  assert (Hl0 : store w0 !! l = Some img) by apply lookup_insert_eq.
  destruct (green_on_brown_result l (exgMin self) (exgMax self)
              (hsv_range self) minArea algorithm w0 img Hl0)
    as (output & flag & w1 & Es & Hs1 & R).
  cbv zeta in R. unfold bind at 1 in Er. rewrite R in Er.
  cbv beta iota in Er.
  set (w2 := set_store _ w1) in *.
  assert (Hw1 : relays w1 = relays w
                /\ controller_running w1 = controller_running w).
  { destruct (select_algorithm_cases img (hsv_range self) algorithm w0)
      as (o & f & [E|E]); rewrite E in Es; inversion Es; subst; split;
      reflexivity. }
  assert (Hs2 : store w2 !! frame = Some img).
  { unfold w2. cbn. rewrite Hs1. unfold w0. cbn.
    rewrite lookup_alter_ne, lookup_insert_ne by congruence. exact Hf. }
  unfold bind at 1, deref in Er. rewrite Hs2 in Er.
  unfold bind at 1 in Er.
  assert (Hs2l : exists oimg, store w2 !! l = Some oimg).
  { unfold w2. cbn. rewrite Hs1. unfold w0. cbn.
    rewrite lookup_alter_eq, lookup_insert_eq. cbn. eauto. }
  destruct Hs2l as (oimg & Ho). rewrite Ho in Er.
  unfold truediv in Er. cbn [nozzleNum set_yAct] in Er.
  destruct (Z.eqb_spec (nozzleNum self) 0) as [E0|E0].
  - exists w2. split; [exact Hs2|]. split; [apply Hw1|]. split; [apply Hw1|].
    left. split; [exact E0|exact Er].
  - unfold bind at 1 in Er.
    match type of Er with context [spray_loop ?a ?b ?c ?d ?e ?f] =>
      destruct (legacy_spray_loop_returns a b (laneCoords self) b c d e f)
        as (w3 & E3 & Hst3 & Hr3 & Hc3); [reflexivity|]
    end.
    rewrite E3 in Er. exists w3. split; [rewrite Hst3; exact Hs2|].
    split; [rewrite Hr3; apply Hw1|]. split; [rewrite Hc3; apply Hw1|].
    right. split; [exact E0|]. eexists _, _. split; [exact Er|].
    split; reflexivity.
Qed.

End LegacyFacts.

(** X12. In [greenonbrown.py], once a frame has been read, processing
    it raises only on a rig with no nozzle, where the lane width
    divides by zero; with any other nozzle count it returns, with the
    activation line at a fifth of the frame height: every
    [laneCoords[i]] the spray loop reads has just been written. The
    relays are as they were either way. *)
Theorem legacy_process_frame_fails_only_without_nozzles
  `{OpenCV} `{Algorithms} (self : GreenOnBrownPy.Owl) (frame : positive)
  (img : Image) sprayDur delay algorithm minArea w :
  store w !! frame = Some img ->
  exists w',
    relays w' = relays w
    /\ (GreenOnBrownPy.nozzleNum self = 0 ->
        GreenOnBrownPy.process_frame self frame sprayDur delay algorithm
          minArea w = (w', Raise ZeroDivisionError))
    /\ (GreenOnBrownPy.nozzleNum self <> 0 ->
        exists self' out,
          GreenOnBrownPy.process_frame self frame sprayDur delay algorithm
            minArea w = (w', Ok (self', out))
          /\ GreenOnBrownPy.yAct self'
             = py_int ((2 # 10) * inject_Z (shape img).1)).
Proof.
  intros Hf.
  destruct (legacy_process_frame_cases self frame img sprayDur delay
              algorithm minArea w Hf)
    as (w' & _ & Hr & _ & [[E0 E]|[E0 (self' & out & E & _ & Hy)]]);
    exists w'; (split; [exact Hr|]); split; intros Hn; try contradiction.
  - exact E.
  - eauto.
Qed.

(** X12 on the frame with the green block and four nozzles. *)
Lemma legacy_process_frame_fails_only_without_nozzles_witness :
  exists w',
    relays w' = relays (Bench.world_with Bench.block_frame)
    /\ (GreenOnBrownPy.nozzleNum (Bench.legacy_owl 4) = 0 ->
        @GreenOnBrownPy.process_frame Bench.cv Bench.alg (Bench.legacy_owl 4)
          1%positive (15 # 100) 0 "exg" 1
          (Bench.world_with Bench.block_frame)
        = (w', Raise ZeroDivisionError))
    /\ (GreenOnBrownPy.nozzleNum (Bench.legacy_owl 4) <> 0 ->
        exists self' out,
          @GreenOnBrownPy.process_frame Bench.cv Bench.alg
            (Bench.legacy_owl 4) 1%positive (15 # 100) 0 "exg" 1
            (Bench.world_with Bench.block_frame)
          = (w', Ok (self', out))
          /\ GreenOnBrownPy.yAct self'
             = py_int ((2 # 10) * inject_Z (shape Bench.block_frame).1)).
Proof.
  apply (@legacy_process_frame_fails_only_without_nozzles Bench.cv Bench.alg).
  reflexivity.
Defined.

Section LegacyExit.
Context `{OpenCV} `{Algorithms}.
Import GreenOnBrownPy.


End LegacyExit.



(** ** [green_on_brown]: the clamp and the frame *)

Lemma py_int_inject (z : Z) : py_int (inject_Z z) = z.
Proof. unfold py_int. cbn. apply Z.quot_1_r. Qed.

Lemma Qabs_pos_eq (v : Q) : (0 < v)%Q -> Qabs v = v.
Proof.
  destruct v as [n d]. unfold Qlt. cbn. intros Hn.
  rewrite Z.abs_eq by lia. reflexivity.
Qed.

Lemma clamp_cell_fused (exgMin exgMax : Z) (v : Q) :
  0 <= exgMin -> exgMax <= 255 ->
  inject_Z
    (py_int
       (Qabs (let v1 := if Qle_bool v (inject_Z exgMin) then 0%Q else v in
              if Qle_bool v1 (inject_Z exgMax) then v1 else 0%Q)) mod 256)
  = clamp_cell exgMin exgMax v.
Proof.
  intros Hlo Hhi. unfold clamp_cell. cbv zeta.
  destruct (Qle_bool v (inject_Z exgMin)) eqn:E1.
  - destruct (Qle_bool 0 (inject_Z exgMax)); reflexivity.
  - destruct (Qle_bool v (inject_Z exgMax)) eqn:E2; [|reflexivity].
    apply Qle_bool_false in E1. apply Qle_bool_iff in E2.
    assert (H0 : (0 < v)%Q).
    { eapply Qle_lt_trans; [|exact E1].
      unfold Qle. cbn. lia. }
    rewrite Qabs_pos_eq by exact H0.
    assert (0 <= py_int v).
    { rewrite <- (py_int_inject 0). apply py_int_mono. apply Qlt_le_weak, H0. }
    assert (py_int v <= 255).
    { rewrite <- (py_int_inject 255). apply py_int_mono.
      eapply Qle_trans; [exact E2|]. rewrite <- Zle_Qle. exact Hhi. }
    rewrite Z.mod_small by lia. reflexivity.
Qed.

Lemma clamp_cell_band (exgMin exgMax : Z) (v : Q) :
  exists z, clamp_cell exgMin exgMax v = inject_Z z
            /\ (z = 0 \/ exgMin <= z <= exgMax).
Proof.
  unfold clamp_cell.
  destruct (Qle_bool v (inject_Z exgMin)) eqn:E1; [exists 0; auto|].
  destruct (Qle_bool v (inject_Z exgMax)) eqn:E2; [|exists 0; auto].
  exists (py_int v). split; [reflexivity|]. right.
  apply Qle_bool_false in E1. apply Qle_bool_iff in E2. split.
  - rewrite <- (py_int_inject exgMin). apply py_int_mono, Qlt_le_weak, E1.
  - rewrite <- (py_int_inject exgMax). apply py_int_mono, E2.
Qed.

(** X15. With 0 <= exgMin and exgMax <= 255, lines 80-82 of
    [green_on_brown] hand the adaptive threshold an array in which a
    response in (exgMin, exgMax] is truncated to an integer and every
    other response is 0: each cell is 0 or an integer in
    [exgMin, exgMax], so the cast to 8 bits never wraps. *)
Theorem clamp_keeps_band `{OpenCV} (output : Array2) (exgMin exgMax : Z) :
  0 <= exgMin -> exgMax <= 255 ->
  GreenOnBrownPy.clamp_and_threshold output exgMin exgMax
  = cv2_morphologyEx_close
      (cv2_adaptiveThreshold
         (GreenOnBrownPy.pointwise (clamp_cell exgMin exgMax) output)) 1
  /\ Forall (Forall (fun c => exists z, c = inject_Z z
                                        /\ (z = 0 \/ exgMin <= z <= exgMax)))
       (GreenOnBrownPy.pointwise (clamp_cell exgMin exgMax) output).
Proof.
  intros Hlo Hhi. split.
  - unfold GreenOnBrownPy.clamp_and_threshold,
      GreenOnBrownPy.np_uint8_abs, GreenOnBrownPy.np_where_gt_zero,
      GreenOnBrownPy.np_where_gt_keep, GreenOnBrownPy.pointwise.
    do 2 f_equal. rewrite !map_map.
    apply map_ext. intros r. rewrite !map_map. apply map_ext. intros v.
    apply (clamp_cell_fused exgMin exgMax v Hlo Hhi).
  - unfold GreenOnBrownPy.pointwise.
    apply Forall_forall. intros r Hr.
    apply list_elem_of_In, in_map_iff in Hr as (r0 & <- & _).
    apply Forall_forall. intros c Hc.
    apply list_elem_of_In, in_map_iff in Hc as (v & <- & _).
    apply clamp_cell_band.
Qed.

(** X15 on two rows of responses around the thresholds 30 and 250. *)
Lemma clamp_keeps_band_witness :
  let output := [[(-3)%Q; (30 # 1)%Q; (61 # 2)%Q]; [250%Q; (501 # 2)%Q; 300%Q]] in
  @GreenOnBrownPy.clamp_and_threshold Bench.cv output 30 250
  = @cv2_morphologyEx_close Bench.cv
      (@cv2_adaptiveThreshold Bench.cv
         (GreenOnBrownPy.pointwise (clamp_cell 30 250) output)) 1
  /\ Forall (Forall (fun c => exists z, c = inject_Z z
                                        /\ (z = 0 \/ 30 <= z <= 250)))
       (GreenOnBrownPy.pointwise (clamp_cell 30 250) output).
Proof.
  cbv zeta. apply (@clamp_keeps_band Bench.cv); lia.
Defined.

(** An in-place update of an array that is there. *)
Lemma alter_known {V} (f : V -> V) (k : positive) (m : gmap positive V) v :
  m !! k = Some v -> alter f k m = <[k := f v]> m.
Proof.
  intros Hk. apply map_eq. intros i. destruct (decide (i = k)) as [->|Hne].
  - rewrite lookup_alter_eq, lookup_insert_eq, Hk. reflexivity.
  - rewrite lookup_alter_ne, lookup_insert_ne by congruence. reflexivity.
Qed.

(** X14. On a stored array [green_on_brown] returns the reference it
    was given; that array is the input with the boxes it returns
    outlined in order, no other array, no relay and no job is touched,
    and there are at most as many boxes as contours. *)
Theorem green_on_brown_touches_only_image `{OpenCV} `{Algorithms}
  (image : positive) (img : Image) (exgMin exgMax : Z) (rng : HsvRange)
  (minArea : Z) (algorithm : string) (w : World) :
  store w !! image = Some img ->
  exists w' cnts boxes centres,
    GreenOnBrownPy.green_on_brown image exgMin exgMax rng minArea
      algorithm w = (w', Ok (cnts, boxes, centres, image))
    /\ store w' = <[image := draw_boxes boxes img]> (store w)
    /\ received w' = received w
    /\ relays w' = relays w
    /\ (length boxes <= length cnts)%nat.
Proof.
  intros Hs.
  destruct (green_on_brown_result image exgMin exgMax rng minArea
              algorithm w img Hs) as (output & flag & w1 & Es & Hs1 & R).
  cbv zeta in R. eexists _, _, _, _. split; [exact R|].
  assert (Hw1 : received w1 = received w /\ relays w1 = relays w).
  { destruct (select_algorithm_cases img rng algorithm w)
      as (o & f & [E|E]); rewrite E in Es; inversion Es; subst; split;
      reflexivity. }
  split; [|split; [apply Hw1|split; [apply Hw1|]]].
  - cbn. rewrite Hs1. apply alter_known, Hs.
  - rewrite length_fmap. apply length_filter.
Qed.

(** X14 on the frame with the green block, with the frame with one
    green pixel beside it in the store. *)
Lemma green_on_brown_touches_only_image_witness :
  let w :=
    (cam_read (FrameArrives Bench.block_frame)
       (Bench.world_with Bench.speck_frame)).1 in
  store w !! 2%positive = Some Bench.block_frame
  /\ exists w' cnts boxes centres,
       @GreenOnBrownPy.green_on_brown Bench.cv Bench.alg 2%positive 30 250
         Bench.hsv_default 1 "exg" w
       = (w', Ok (cnts, boxes, centres, 2%positive))
       /\ store w'
          = <[2%positive := @draw_boxes Bench.cv boxes Bench.block_frame]>
              (store w)
       /\ received w' = received w
       /\ relays w' = relays w
       /\ (length boxes <= length cnts)%nat.
Proof.
  cbv zeta. split; [reflexivity|].
  apply (@green_on_brown_touches_only_image Bench.cv Bench.alg 2%positive
           Bench.block_frame 30 250 Bench.hsv_default 1 "exg").
  reflexivity.
Defined.

(** ** [GreenOnGreen.inference]: what is kept *)

Section GreenOnGreenKeeps.
Context `{OpenCV}.
Import GreenOnGreenPy.

(** The loop over the detections from index [k] on. *)
Lemma detection_loop (self : GreenOnGreen) (image : positive)
  (width height : Z) rows cls scs (confidence : Q) (filter_id : Z) :
  let ds := zip (zip rows cls) scs in
  (length rows <= length cls)%nat -> (length rows <= length scs)%nat ->
  forall m k bs cs w,
    (k + m = length rows)%nat ->
    let kept := List.filter (detection_kept confidence filter_id)
                            (drop k ds) in
    for_fold (Z.of_nat <$> seq k m) (bs, cs)
      (detection_step self image width height (Rows rows) (Vec cls)
         (Vec scs) confidence filter_id) w
    = (set_store (alter (draw_detections self width height kept) image) w,
       Ok (bs ++ ((fun d => detection_box width height d.1.1) <$> kept),
           cs ++ (box_centre
                    <$> ((fun d => detection_box width height d.1.1)
                           <$> kept)))).
Proof.
  intros ds Hc Hs.
  assert (Hlen : length ds = length rows).
  { unfold ds. rewrite !length_zip. lia. }
  induction m as [|m IH]; intros k bs cs w Hk kept.
  - assert (Hd : drop k ds = []) by (apply drop_ge; lia).
    unfold kept. rewrite Hd. cbn. rewrite !app_nil_r.
    rewrite set_store_fix; [reflexivity|]. apply alter_id. reflexivity.
  - destruct (lookup_lt_is_Some_2 rows k ltac:(lia)) as [r Er].
    destruct (lookup_lt_is_Some_2 cls k ltac:(lia)) as [c Ec].
    destruct (lookup_lt_is_Some_2 scs k ltac:(lia)) as [s Es].
    assert (Ed : ds !! k = Some (r, c, s)).
    { unfold ds. rewrite !lookup_zip_with, Er, Ec, Es. reflexivity. }
    unfold kept. rewrite (drop_S _ _ _ Ed).
    cbn [seq fmap list_fmap for_fold List.filter].
    change (list_fmap nat Z Z.of_nat (seq (S k) m))
      with (Z.of_nat <$> seq (S k) m).
    unfold bind at 1. unfold detection_step at 1.
    unfold item at 1. rewrite Nat2Z.id, Es. unfold bind at 1. cbn [ret].
    replace (detection_kept confidence filter_id (r, c, s))
      with (Qle_bool confidence s && Qeq_bool c (inject_Z filter_id))
      by reflexivity.
    destruct (Qle_bool confidence s); cbn [andb].
    + unfold item at 1. rewrite Nat2Z.id, Ec. unfold bind at 1. cbn [ret].
      destruct (Qeq_bool c (inject_Z filter_id)).
      * unfold row at 1. rewrite Nat2Z.id, Er.
        destruct r as [[[ymin xmin] ymax] xmax].
        unfold bind at 1. cbn [ret]. cbv beta iota zeta.
        unfold bind at 1 2, draw, modify. cbn [ret].
        rewrite (IH (S k)) by lia. cbv zeta.
        rewrite !fmap_cons. f_equal.
        -- unfold set_store; cbn. f_equal. rewrite !alter_alter_eq.
           reflexivity.
        -- rewrite <- !app_assoc. reflexivity.
      * cbn [ret]. cbv beta iota. rewrite (IH (S k)) by lia. reflexivity.
    + cbn [ret]. cbv beta iota. rewrite (IH (S k)) by lia. reflexivity.
Qed.

End GreenOnGreenKeeps.

Section GreenOnGreenShort.
Context `{OpenCV}.
Import GreenOnGreenPy.

(** The loop over the detections runs out of scores. *)
Lemma detection_loop_short (self : GreenOnGreen) (image : positive)
  (width height : Z) rows cls scs (confidence : Q) (filter_id : Z) :
  forall m k acc w,
    (k <= length scs)%nat -> (length scs < k + m)%nat ->
    (k + m <= length rows)%nat ->
    exists w',
      for_fold (Z.of_nat <$> seq k m) acc
        (detection_step self image width height (Rows rows) (Vec cls)
           (Vec scs) confidence filter_id) w
      = (w', Raise IndexError).
Proof.
  induction m as [|m IH]; intros k [bs cs] w Hk Hs Hr; [lia|].
  cbn [seq fmap list_fmap for_fold].
  change (list_fmap nat Z Z.of_nat (seq (S k) m))
    with (Z.of_nat <$> seq (S k) m).
  unfold bind at 1. unfold detection_step at 1.
  unfold item at 1. rewrite Nat2Z.id.
  destruct (scs !! k) as [s|] eqn:Es; [|cbn; eauto].
  assert (Hlt : (k < length scs)%nat) by (eapply lookup_lt_Some, Es).
  unfold bind at 1. cbn [ret].
  destruct (Qle_bool confidence s).
  - unfold item at 1. rewrite Nat2Z.id.
    destruct (cls !! k) as [c|]; [|cbn; eauto].
    unfold bind at 1. cbn [ret].
    destruct (Qeq_bool c (inject_Z filter_id)).
    + unfold row at 1. rewrite Nat2Z.id.
      destruct (lookup_lt_is_Some_2 rows k ltac:(lia))
        as [[[[ymin xmin] ymax] xmax] Er].
      rewrite Er. unfold bind at 1. cbn [ret]. cbv beta iota zeta.
      unfold bind at 1 2, draw, modify. cbn [ret]. cbv beta iota.
      apply (IH (S k)); lia.
    + cbn [ret]. cbv beta iota. apply (IH (S k)); lia.
  - cbn [ret]. cbv beta iota. apply (IH (S k)); lia.
Qed.

End GreenOnGreenShort.

(** X16. With its streams attached and well-shaped tensors,
    [GreenOnGreen.inference] keeps exactly the detections whose score
    is at least [confidence] and whose class equals [filter_id], in
    order: the boxes are those rows scaled to the frame, the centres
    are the centres of the boxes, and the frame it was given carries
    the rectangle and label of each kept detection and nothing else. *)
Theorem inference_keeps_passing_detections `{OpenCV}
  (self : GreenOnGreenPy.GreenOnGreen) (image : positive)
  (confidence : Q) (filter_id : Z) w img u read rows cls scs :
  store w !! image = Some img ->
  GreenOnGreenPy.input_vstreams self = Some u ->
  GreenOnGreenPy.output_vstreams self = Some read ->
  let outputs :=
    GreenOnGreenPy.dict_zip (GreenOnGreenPy.output_names self)
      (read (GreenOnGreenPy.preprocess self img)) in
  outputs !! "detection_boxes" = Some (GreenOnGreenPy.Rows rows) ->
  outputs !! "detection_classes" = Some (GreenOnGreenPy.Vec cls) ->
  outputs !! "detection_scores" = Some (GreenOnGreenPy.Vec scs) ->
  (length rows <= length cls)%nat -> (length rows <= length scs)%nat ->
  let kept := List.filter (detection_kept confidence filter_id)
                          (zip (zip rows cls) scs) in
  let boxes :=
    (fun d => detection_box (shape img).2 (shape img).1 d.1.1) <$> kept in
  GreenOnGreenPy.inference self image confidence filter_id w
  = (set_store
       (alter (draw_detections self (shape img).2 (shape img).1 kept) image)
       w,
     Ok (None, boxes, box_centre <$> boxes, image)).
Proof.
  intros Hs Hi Ho outputs Eb Ec Es Hlc Hls kept boxes.
  unfold GreenOnGreenPy.inference, deref. unfold bind at 1. rewrite Hs.
  destruct (shape img) as [height width]. rewrite Hi, Ho.
  fold outputs. rewrite Eb, Ec, Es. unfold bind at 1.
  unfold range, GreenOnGreenPy.shape0. rewrite Nat2Z.id.
  rewrite (detection_loop self image width height rows cls scs confidence
             filter_id Hlc Hls (length rows) 0%nat [] [] w eq_refl).
  reflexivity.
Qed.

(** X16 on two detections of class 63 with scores 0.9 and 0.3: the
    first is kept. *)
Lemma inference_keeps_passing_detections_witness :
  let w := Bench.world_with Bench.block_frame in
  let self := Bench.detector_reporting Bench.two_boxes in
  let kept := List.filter (detection_kept (1 # 2) 63)
                (zip (zip Bench.two_rows [63%Q; 63%Q])
                     [(9 # 10)%Q; (3 # 10)%Q]) in
  let boxes :=
    (fun d => @detection_box (shape Bench.block_frame).2
                (shape Bench.block_frame).1 d.1.1) <$> kept in
  @GreenOnGreenPy.inference Bench.cv self 1%positive (1 # 2) 63 w
  = (set_store
       (alter (@draw_detections Bench.cv self (shape Bench.block_frame).2
                 (shape Bench.block_frame).1 kept) 1%positive) w,
     Ok (None, boxes, box_centre <$> boxes, 1%positive))
  /\ boxes = [mkBox 1 1 3 3].
Proof.
  cbv zeta. split; [|reflexivity].
  apply (@inference_keeps_passing_detections Bench.cv
           (Bench.detector_reporting Bench.two_boxes) 1%positive (1 # 2) 63
           (Bench.world_with Bench.block_frame) Bench.block_frame tt
           (fun _ => Bench.two_boxes) Bench.two_rows
           [63%Q; 63%Q] [(9 # 10)%Q; (3 # 10)%Q]);
    (reflexivity || (cbn; lia)).
Defined.

(** X17. When the scores tensor is shorter than the boxes tensor,
    [GreenOnGreen.inference] does not return: the loop runs to the
    number of boxes and raises [IndexError]. *)
Theorem inference_short_scores_raises `{OpenCV}
  (self : GreenOnGreenPy.GreenOnGreen) (image : positive)
  (confidence : Q) (filter_id : Z) w img u read rows cls scs :
  store w !! image = Some img ->
  GreenOnGreenPy.input_vstreams self = Some u ->
  GreenOnGreenPy.output_vstreams self = Some read ->
  let outputs :=
    GreenOnGreenPy.dict_zip (GreenOnGreenPy.output_names self)
      (read (GreenOnGreenPy.preprocess self img)) in
  outputs !! "detection_boxes" = Some (GreenOnGreenPy.Rows rows) ->
  outputs !! "detection_classes" = Some (GreenOnGreenPy.Vec cls) ->
  outputs !! "detection_scores" = Some (GreenOnGreenPy.Vec scs) ->
  (length scs < length rows)%nat ->
  exists w',
    GreenOnGreenPy.inference self image confidence filter_id w
    = (w', Raise IndexError).
Proof.
  intros Hs Hi Ho outputs Eb Ec Es Hlt.
  unfold GreenOnGreenPy.inference, deref. unfold bind at 1. rewrite Hs.
  destruct (shape img) as [height width]. rewrite Hi, Ho.
  fold outputs. rewrite Eb, Ec, Es. unfold bind at 1.
  unfold range, GreenOnGreenPy.shape0. rewrite Nat2Z.id.
  destruct (detection_loop_short self image width height rows cls scs
              confidence filter_id (length rows) 0%nat (@nil Box, @nil Centre)
              w ltac:(lia) ltac:(lia) ltac:(lia)) as (w' & E).
  rewrite E. eauto.
Qed.

(** X17 on two boxes with one score. *)
Lemma inference_short_scores_raises_witness :
  exists w',
    @GreenOnGreenPy.inference Bench.cv
      (Bench.detector_reporting Bench.short_scores) 1%positive (1 # 2) 63
      (Bench.world_with Bench.block_frame)
    = (w', Raise IndexError).
Proof.
  apply (@inference_short_scores_raises Bench.cv
           (Bench.detector_reporting Bench.short_scores) 1%positive (1 # 2)
           63 (Bench.world_with Bench.block_frame) Bench.block_frame tt
           (fun _ => Bench.short_scores) Bench.two_rows
           [63%Q; 63%Q] [(3 # 10)%Q]);
    (reflexivity || (cbn; lia)).
Defined.

(** ** [GreenOnGreen]: the label file and the constructor *)

Section LabelFile.
Context `{Builtins}.
Import GreenOnGreenPy.

Lemma line_labels_fun (line : string) n v n' v' :
  line_labels line n v -> line_labels line n' v' -> n = n' /\ v = v'.
Proof.
  intros (k & E1 & E2) (k' & E1' & E2'). rewrite E1 in E1'.
  inversion E1'; subst. rewrite E2 in E2'. inversion E2'. auto.
Qed.

Lemma label_step_cases (d : gmap Z string) (line : string) (w : World) :
  (exists n v, line_labels line n v
               /\ label_step d line w = (w, Ok (<[n := v]> d)))
  \/ ((forall n v, ~ line_labels line n v)
      /\ (label_step d line w = (w, Ok d)
          \/ label_step d line w = (w, Raise (LibraryError "ValueError")))).
Proof.
  unfold label_step, line_labels.
  destruct (split_space_1 (str_strip line)) as [|k [|v [|x l]]] eqn:Es;
    try (right; split; [intros n v' (k' & E & _); discriminate E|left; reflexivity]).
  destruct (int_of_str k) as [n|] eqn:Ei.
  - left. exists n, v. split; [exists k; auto|reflexivity].
  - right. split; [|right; reflexivity].
    intros n v' (k' & E & Ei'). inversion E; subst. congruence.
Qed.

Lemma label_loop (lines : list string) :
  forall d w w' labels,
    for_fold lines d label_step w = (w', Ok labels) ->
    w' = w
    /\ forall n v,
         labels !! n = Some v
         <-> (exists pre line post,
                lines = pre ++ line :: post
                /\ line_labels line n v
                /\ Forall (fun l => forall v', ~ line_labels l n v') post)
             \/ (d !! n = Some v
                 /\ Forall (fun l => forall v', ~ line_labels l n v') lines).
Proof.
  induction lines as [|line lines IH]; intros d w w' labels E.
  - cbn in E. inversion E; subst. split; [reflexivity|]. intros n v. split.
    + intros Hd. right. split; [exact Hd|constructor].
    + intros [(pre & l & post & Hl & _)|[Hd _]]; [|exact Hd].
      destruct pre; discriminate Hl.
  - cbn [for_fold] in E. unfold bind in E.
    destruct (label_step_cases d line w)
      as [(n0 & v0 & Hl0 & Es)|[Hno [Es|Es]]]; rewrite Es in E;
      [| |discriminate E];
      apply IH in E as [-> Hlook]; (split; [reflexivity|]); intros n v;
      rewrite Hlook; clear Hlook; split.
    + intros [(pre & l & post & -> & Hl & Hpost)|[Hd Hrest]].
      * left. exists (line :: pre), l, post. auto.
      * destruct (decide (n = n0)) as [->|Hne].
        -- rewrite lookup_insert_eq in Hd. inversion Hd; subst v0.
           left. exists [], line, lines. auto.
        -- rewrite lookup_insert_ne in Hd by congruence.
           right. split; [exact Hd|]. constructor; [|exact Hrest].
           intros v' Hl'. destruct (line_labels_fun _ _ _ _ _ Hl0 Hl').
           congruence.
    + intros [(pre & l & post & Hl & Hlab & Hpost)|[Hd Hall]].
      * destruct pre as [|a pre]; cbn in Hl; inversion Hl; subst.
        -- right. destruct (line_labels_fun _ _ _ _ _ Hl0 Hlab) as [-> ->].
           split; [apply lookup_insert_eq|exact Hpost].
        -- left. exists pre, l, post. auto.
      * apply Forall_cons in Hall as [Hline Hrest]. right.
        split; [|exact Hrest].
        rewrite lookup_insert_ne; [exact Hd|].
        intros <-. apply (Hline v0), Hl0.
    + intros [(pre & l & post & -> & Hl & Hpost)|[Hd Hrest]].
      * left. exists (line :: pre), l, post. auto.
      * right. split; [exact Hd|]. constructor; [|exact Hrest].
        intros v'. apply Hno.
    + intros [(pre & l & post & Hl & Hlab & Hpost)|[Hd Hall]].
      * destruct pre as [|a pre]; cbn in Hl; inversion Hl; subst.
        -- exfalso. eapply Hno, Hlab.
        -- left. exists pre, l, post. auto.
      * apply Forall_cons in Hall as [_ Hrest]. right. auto.
Qed.

Lemma label_loop_bad (lines : list string) (bad : string) :
  bad ∈ lines ->
  (exists k v, split_space_1 (str_strip bad) = [k; v]
               /\ int_of_str k = None) ->
  forall d w,
    for_fold lines d label_step w = (w, Raise (LibraryError "ValueError")).
Proof.
  intros Hin (k & v & Es & Ei).
  induction lines as [|line lines IH]; intros d w.
  - apply elem_of_nil in Hin as [].
  - cbn [for_fold]. unfold bind.
    apply elem_of_cons in Hin as [<-|Hin].
    + unfold label_step. rewrite Es, Ei. reflexivity.
    + destruct (label_step_cases d line w)
        as [(n0 & v0 & _ & E)|[_ [E|E]]]; rewrite E; auto.
Qed.

End LabelFile.

(** X19. When every line of the label file that has a space starts
    with a number, [read_label_file] returns and prints nothing; the
    label of a class is the text after the first space of the last
    line that names the class, and lines without a space are passed
    over. *)
Theorem read_label_file_last_line_wins `{Builtins} (lines : list string)
  (w : World) :
  Forall (fun line => forall k v,
            split_space_1 (str_strip line) = [k; v] ->
            int_of_str k <> None) lines ->
  exists labels,
    GreenOnGreenPy.read_label_file (Some lines) w = (w, Ok labels)
    /\ forall n v,
         labels !! n = Some v
         <-> exists pre line post,
               lines = pre ++ line :: post
               /\ line_labels line n v
               /\ Forall (fun l => forall v', ~ line_labels l n v') post.
Proof.
  intros Hgood.
  assert (Hret : forall d, exists labels,
            for_fold lines d GreenOnGreenPy.label_step w = (w, Ok labels)).
  { induction Hgood as [|line lines Hline _ IH]; intros d.
    - exists d. reflexivity.
    - cbn [for_fold]. unfold bind.
      destruct (label_step_cases d line w)
        as [(n0 & v0 & _ & E)|[_ [E|E]]]; rewrite E; [apply IH|apply IH|].
      exfalso. unfold GreenOnGreenPy.label_step in E.
      destruct (split_space_1 (str_strip line)) as [|k [|v [|x l]]] eqn:Es;
        try discriminate E.
      destruct (int_of_str k) eqn:Ei; [discriminate E|].
      apply (Hline k v eq_refl Ei). }
  destruct (Hret ∅) as (labels & E). exists labels. split; [exact E|].
  destruct (label_loop lines ∅ w w labels E) as [_ Hlook].
  intros n v. rewrite Hlook. split; [|auto].
  intros [Hl|[Hd _]]; [exact Hl|]. rewrite lookup_empty in Hd. discriminate.
Qed.

(** X19 on a file that names class 63 twice. *)
Lemma read_label_file_last_line_wins_witness :
  exists labels,
    @GreenOnGreenPy.read_label_file Bench.text
      (Some ["0 person"; ""; "63 broad leaf"; "header"; " 63 weed "])
      (Bench.world_with Bench.block_frame)
    = (Bench.world_with Bench.block_frame, Ok labels)
    /\ forall n v,
         labels !! n = Some v
         <-> exists pre line post,
               ["0 person"; ""; "63 broad leaf"; "header"; " 63 weed "]
               = pre ++ line :: post
               /\ @line_labels Bench.text line n v
               /\ Forall (fun l => forall v', ~ @line_labels Bench.text l n v')
                    post.
Proof.
  apply (@read_label_file_last_line_wins Bench.text).
  repeat constructor; intros k v E; vm_compute in E; inversion E;
    vm_compute; discriminate.
Defined.

(** X20. One line whose first field is not a number makes
    [read_label_file] raise [ValueError]: no label is returned, also
    not those of the lines before it. *)
Theorem read_label_file_bad_id_aborts `{Builtins} (lines : list string)
  (bad k v : string) (w : World) :
  bad ∈ lines ->
  split_space_1 (str_strip bad) = [k; v] ->
  int_of_str k = None ->
  GreenOnGreenPy.read_label_file (Some lines) w
  = (w, Raise (LibraryError "ValueError")).
Proof.
  intros Hin Es Ei. unfold GreenOnGreenPy.read_label_file.
  apply (label_loop_bad lines bad Hin). eauto.
Qed.

(** X20 on a file whose second line has its fields swapped. *)
Lemma read_label_file_bad_id_aborts_witness :
  @GreenOnGreenPy.read_label_file Bench.text
    (Some ["0 person"; "weed 63"; "1 bicycle"])
    (Bench.world_with Bench.block_frame)
  = (Bench.world_with Bench.block_frame, Raise (LibraryError "ValueError")).
Proof.
  apply (@read_label_file_bad_id_aborts Bench.text
           ["0 person"; "weed 63"; "1 bicycle"] "weed 63" "weed" "63");
    [apply list_elem_of_further, list_elem_of_here|reflexivity|reflexivity].
Defined.

(** X18. A [GreenOnGreen] object as [__init__] returns it cannot run
    [inference]: no line of [__init__] assigns [input_vstreams], so on
    any stored frame [inference] raises [AttributeError] and leaves
    the frame as it was. *)
Theorem greenongreen_init_cannot_infer `{OpenCV} `{Builtins}
  (label_file : option (list string))
  (input_vstream_infos : list (Z * Z * Z))
  (output_vstream_infos : list (string * string))
  (w w' : World) (self : GreenOnGreenPy.GreenOnGreen)
  (image : positive) (img : Image) (confidence : Q) (filter_id : Z)
  (s : World) :
  GreenOnGreenPy.__init__ label_file input_vstream_infos
    output_vstream_infos w = (w', Ok self) ->
  store s !! image = Some img ->
  GreenOnGreenPy.inference self image confidence filter_id s
  = (s, Raise AttributeError).
Proof.
  intros Ei Hs. apply (inference_after_init_raises self image img); [exact Hs|].
  unfold GreenOnGreenPy.__init__ in Ei. unfold bind at 1 in Ei.
  destruct (GreenOnGreenPy.read_label_file label_file w) as [w1 [labels|e]];
    [|discriminate Ei].
  destruct input_vstream_infos as [|input_shape rest]; [discriminate Ei|].
  unfold bind at 1 in Ei. unfold print at 1, modify in Ei.
  unfold bind at 1 in Ei.
  destruct (for_each output_vstream_infos _ _) as [w2 [[]|e]];
    [|discriminate Ei].
  cbn in Ei. inversion Ei. reflexivity.
Qed.

(** X18 on a label file with one line and a device with the three
    output streams. *)
Lemma greenongreen_init_cannot_infer_witness :
  exists w' self,
    @GreenOnGreenPy.__init__ Bench.text (Some ["63 weed"]) [(4, 4, 3)]
      [("detection_boxes", "(10, 4)"); ("detection_classes", "(10,)");
       ("detection_scores", "(10,)")]
      (Bench.world_with Bench.block_frame) = (w', Ok self)
    /\ GreenOnGreenPy.labels self !! 63 = Some "weed"
    /\ @GreenOnGreenPy.inference Bench.cv self 1%positive (1 # 2) 63
         (Bench.world_with Bench.block_frame)
       = (Bench.world_with Bench.block_frame, Raise AttributeError).
Proof.
  eexists _, _. split; [vm_compute; reflexivity|].
  split; [vm_compute; reflexivity|].
  eapply (@greenongreen_init_cannot_infer Bench.cv Bench.text
            (Some ["63 weed"]) [(4, 4, 3)]
            [("detection_boxes", "(10, 4)"); ("detection_classes", "(10,)");
             ("detection_scores", "(10,)")]
            (Bench.world_with Bench.block_frame));
    vm_compute; reflexivity.
Defined.

(** ** [Owlcanbus.py] and [Owlcambus.py] *)

Lemma energised_idem rs : energised (energised rs) = energised rs.
Proof. unfold energised. rewrite <- list_fmap_compose. reflexivity. Qed.

Section CanBusFacts.
Context `{Builtins}.
Variables (config_dir config_name : string).
Import OwlCanBusPy.

Lemma canbus_listen_pass (command : string) (b : Bus) :
  command <> "stop" ->
  exists b',
    listen_pass config_dir config_name (Received command) b = (b', Ok true)
    /\ link_kept b b'
    /\ outbox b' = outbox b
    /\ relays (world b')
       = if String.eqb command "boom_flush" then energised (relays (world b))
         else relays (world b).
Proof.
  intros Hs. unfold listen_pass, try_except, receive_next.
  unfold bind at 1. cbn [ret]. unfold bind at 1.
  destruct (String.eqb_spec command "") as [->|_]; cbn [negb].
  { eexists. split; [reflexivity|]. repeat split. }
  unfold bind at 1. unfold in_world at 1, print, modify.
  unfold execute_can_command.
  destruct (String.eqb_spec command "pause") as [->|_].
  { eexists. split; [reflexivity|]. repeat split. }
  destruct (String.eqb_spec command "play") as [->|_].
  { eexists. split; [reflexivity|]. repeat split. }
  destruct (String.eqb_spec command "boom_flush") as [->|_].
  { eexists. split; [reflexivity|]. repeat split. }
  destruct (String.eqb_spec command "stop") as [->|_]; [contradiction|].
  destruct (String.eqb_spec command "save_config") as [->|_].
  { eexists. split; [reflexivity|]. repeat split. }
  eexists. split; [reflexivity|]. repeat split.
Qed.

Lemma canbus_listen (commands : list string) :
  "stop" ∉ commands ->
  forall b, exists b',
    listen_for_commands config_dir config_name (Received <$> commands) b
    = (b', Ok tt)
    /\ link_kept b b'
    /\ outbox b' = outbox b
    /\ relays (world b')
       = if decide ("boom_flush" ∈ commands)
         then energised (relays (world b))
         else relays (world b).
Proof.
  induction commands as [|c cs IH]; intros Hs b.
  - exists b. split; [reflexivity|]. repeat split.
  - apply not_elem_of_cons in Hs as [Hc Hcs].
    destruct (canbus_listen_pass c b ltac:(congruence))
      as (b1 & E1 & K1 & O1 & R1).
    destruct (IH Hcs b1) as (b2 & E2 & K2 & O2 & R2).
    exists b2. cbn [fmap list_fmap listen_for_commands].
    unfold bind. rewrite E1. split; [exact E2|].
    split; [|split; [congruence|]].
    + destruct K1 as (?&?&?&?&?&?), K2 as (?&?&?&?&?&?).
      repeat split; congruence.
    + rewrite R2, R1.
      destruct (String.eqb_spec c "boom_flush") as [->|Hne].
      * rewrite (decide_True (P := "boom_flush" ∈ "boom_flush" :: cs))
          by apply list_elem_of_here.
        destruct (decide ("boom_flush" ∈ cs));
          [apply energised_idem|reflexivity].
      * destruct (decide ("boom_flush" ∈ cs)) as [Hin|Hin].
        -- rewrite decide_True by (apply list_elem_of_further, Hin).
           reflexivity.
        -- rewrite decide_False; [reflexivity|].
           intros Hc'. apply elem_of_cons in Hc' as [?|?]; congruence.
Qed.

End CanBusFacts.


Section CanBusExit.
Context `{Builtins}.
Variables (config_dir config_name : string).









Lemma cambus_report_processing_error (msg : string) (b : Bus) :
  exists b', OwlCamBusPy.report_error 0x403 msg b = (b', Ok tt)
             /\ received (world b') = received (world b)
             /\ relays (world b') = relays (world b)
             /\ controller_running (world b') = controller_running (world b)
             /\ listener_alive b' = listener_alive b
             /\ outbox b'
                = outbox b ++ ["403 Processing Error: " +:+ msg].
Proof.
  assert (Eg : getitem OwlCamBusPy.ERROR_CODES 0x403 b
               = (b, Ok "Processing Error")) by reflexivity.
  unfold OwlCamBusPy.report_error. unfold bind at 1. rewrite Eg.
  eexists. split; [reflexivity|]. repeat split.
Qed.

End CanBusExit.

Lemma partition_space_app (a b : string) :
  no_space a -> partition_space (a +:+ " " +:+ b) = Some (a, b).
Proof.
  unfold no_space. induction a as [|c a IH]; intros Ha; [reflexivity|].
  cbn [partition_space] in Ha.
  change (String c a +:+ " " +:+ b) with (String c (a +:+ " " +:+ b)).
  cbn [partition_space].
  destruct (Ascii.eqb c " "); [discriminate|].
  destruct (partition_space a) as [[? ?]|]; [discriminate|].
  rewrite IH by reflexivity. reflexivity.
Qed.

Lemma CAN_COMMANDS_cases (n : Z) (name : string) :
  OwlCamBusPy.CAN_COMMANDS !! n = Some name ->
  (n = 0x301 /\ name = "pause") \/ (n = 0x302 /\ name = "play")
  \/ (n = 0x303 /\ name = "boom_flush") \/ (n = 0x304 /\ name = "stop")
  \/ (n = 0x305 /\ name = "save_config").
Proof.
  unfold OwlCamBusPy.CAN_COMMANDS.
  rewrite !lookup_insert_Some, lookup_singleton_Some. intuition auto.
Qed.

Section CamBusFacts.
Context `{Builtins}.
Variables (config_dir config_name : string).
Import OwlCamBusPy.

Lemma listener_kept_refl b : listener_kept b b.
Proof.
  repeat split; auto. exists []. split; [rewrite app_nil_r; reflexivity|].
  constructor.
Qed.

Lemma listener_kept_trans b1 b2 b3 :
  listener_kept b1 b2 -> listener_kept b2 b3 -> listener_kept b1 b3.
Proof.
  intros (R1 & C1 & L1 & Y1 & r1 & O1 & F1) (R2 & C2 & L2 & Y2 & r2 & O2 & F2).
  split; [congruence|]. split; [congruence|]. split; [congruence|]. split.
  - destruct Y1 as [Y1|Y1], Y2 as [Y2|Y2]; rewrite Y2, Y1;
      rewrite ?energised_idem; auto.
  - exists (r1 ++ r2). split; [rewrite O2, O1, app_assoc; reflexivity|].
    apply Forall_app; auto.
Qed.

Lemma cambus_report_kept (msg : string) (b : Bus) :
  exists b', report_error 0x403 msg b = (b', Ok tt) /\ listener_kept b b'.
Proof.
  destruct (cambus_report_processing_error msg b)
    as (b' & E & R & Y & C & L & O).
  exists b'. split; [exact E|]. repeat split; auto.
  exists ["403 Processing Error: " +:+ msg]. split; [exact O|].
  repeat constructor. eauto.
Qed.

Lemma listener_kept_world (b : Bus) (w' : World) :
  received w' = received (world b) ->
  controller_running w' = controller_running (world b) ->
  (relays w' = relays (world b)
   \/ relays w' = energised (relays (world b))) ->
  listener_kept b (set_world w' b).
Proof.
  intros R C Y. repeat split; auto.
  exists []. split; [cbn; rewrite app_nil_r; reflexivity|constructor].
Qed.

Lemma cambus_execute_kept (name : string) (b : Bus) :
  name <> "stop" ->
  exists b', execute_can_command config_dir config_name name b = (b', Ok tt)
             /\ listener_kept b b'.
Proof.
  intros Hs. unfold execute_can_command.
  destruct (String.eqb_spec name "pause") as [->|_].
  { eexists. split; [reflexivity|].
    apply listener_kept_world; auto. }
  destruct (String.eqb_spec name "play") as [->|_].
  { eexists. split; [reflexivity|].
    apply listener_kept_world; auto. }
  destruct (String.eqb_spec name "boom_flush") as [->|_].
  { eexists. split; [reflexivity|].
    split; [reflexivity|]. split; [reflexivity|]. split; [reflexivity|].
    split; [right; reflexivity|].
    exists []. split; [cbn; rewrite app_nil_r; reflexivity|constructor]. }
  destruct (String.eqb_spec name "stop") as [->|_]; [contradiction|].
  destruct (String.eqb_spec name "save_config") as [->|_].
  { eexists. split; [reflexivity|].
    split; [reflexivity|]. split; [reflexivity|]. split; [reflexivity|].
    split; [left; reflexivity|].
    exists []. split; [cbn; rewrite app_nil_r; reflexivity|constructor]. }
  exists b. split; [reflexivity|apply listener_kept_refl].
Qed.

Lemma cambus_listen_pass (a : Arrival) (b : Bus) :
  match a with
  | Received message =>
      forall can_id command,
        split_space_1 message = [can_id; command] ->
        int_of_hex can_id <> Some 0x304
  | ReceiveRaises e => is_Exception e = true
  end ->
  exists b', listen_pass config_dir config_name a b = (b', Ok tt)
             /\ listener_kept b b'.
Proof.
  intros Ha. unfold listen_pass, try_except, receive_next.
  destruct a as [message|e].
  - unfold bind at 1. cbn [ret]. unfold handle_message.
    destruct (split_space_1 message) as [|can_id [|command [|x l]]] eqn:Es;
      try (cbn [raise except_Exception is_Exception];
           apply cambus_report_kept).
    specialize (Ha can_id command eq_refl).
    destruct (int_of_hex can_id) as [n|];
      [|cbn [raise except_Exception is_Exception]; apply cambus_report_kept].
    destruct (CAN_COMMANDS !! n) as [name|] eqn:En.
    + assert (Hn : name <> "stop").
      { intros ->. apply CAN_COMMANDS_cases in En.
        destruct En as [[? ?]|[[? ?]|[[? ?]|[[? ?]|[? ?]]]]];
          try discriminate. subst n. apply Ha. reflexivity. }
      unfold bind at 1. unfold in_world at 1, print, modify.
      match goal with |- context [execute_can_command _ _ _ ?x] =>
        destruct (cambus_execute_kept name x Hn) as (b' & E & K) end.
      rewrite E. exists b'. split; [reflexivity|exact K].
    + eexists. split; [reflexivity|]. apply listener_kept_world; auto.
  - unfold bind at 1. unfold raise. unfold except_Exception. rewrite Ha.
    apply cambus_report_kept.
Qed.

End CamBusFacts.

(** X23. The command listener of [Owlcanbus.py], fed any commands but
    [stop], keeps listening and never touches the jobs, the controller
    or the camera: [pause] and [play] only log, a text that is not one
    of the five commands is ignored, and at the end every relay is
    energised when [boom_flush] was among the commands and the relays
    are as they were otherwise. *)
Theorem canbus_listener_relays_follow_boom_flush `{Builtins}
  (config_dir config_name : string) (commands : list string) (b : Bus) :
  "stop" ∉ commands ->
  exists b',
    OwlCanBusPy.listen_for_commands config_dir config_name
      (Received <$> commands) b = (b', Ok tt)
    /\ received (world b') = received (world b)
    /\ controller_running (world b') = controller_running (world b)
    /\ cam_running (world b') = cam_running (world b)
    /\ relays (world b')
       = if decide ("boom_flush" ∈ commands) then energised (relays (world b))
         else relays (world b).
Proof.
  intros Hs.
  destruct (canbus_listen config_dir config_name commands Hs b)
    as (b' & E & (R & C & M & _) & _ & Y).
  exists b'. auto.
Qed.

(** X23 on five commands, one of them [boom_flush] and one with the
    wrong case. *)
Lemma canbus_listener_witness :
  exists b',
    @OwlCanBusPy.listen_for_commands Bench.text "config" "owl.ini"
      (Received <$> ["pause"; "Boom_Flush"; "boom_flush"; "play"; ""])
      Bench.bus = (b', Ok tt)
    /\ received (world b') = received (world Bench.bus)
    /\ controller_running (world b') = controller_running (world Bench.bus)
    /\ cam_running (world b') = cam_running (world Bench.bus)
    /\ relays (world b')
       = if decide ("boom_flush"
                    ∈ ["pause"; "Boom_Flush"; "boom_flush"; "play"; ""])
         then energised (relays (world Bench.bus))
         else relays (world Bench.bus).
Proof.
  apply (@canbus_listener_relays_follow_boom_flush Bench.text).
  intros Hc. repeat (apply elem_of_cons in Hc as [Hc|Hc]; [discriminate Hc|]).
  apply elem_of_nil in Hc. exact Hc.
Defined.



(** X24. The listener of [Owlcambus.py] survives everything but the
    [stop] id and an interrupt: a message without a space, an id that
    is not hexadecimal, an unknown id and an [Exception] out of the
    receive call leave it listening. It never touches the jobs or
    the controller, the relays are as they were or all energised, and
    what it publishes are [403 Processing Error] reports only. *)
Theorem cambus_listener_survives `{Builtins}
  (config_dir config_name : string) (arrivals : list Arrival) (b : Bus) :
  Forall arrival_passes arrivals ->
  exists b',
    OwlCamBusPy.listen_for_can_commands config_dir config_name arrivals b
    = (b', Ok tt)
    /\ received (world b') = received (world b)
    /\ controller_running (world b') = controller_running (world b)
    /\ listener_alive b' = listener_alive b
    /\ (relays (world b') = relays (world b)
        \/ relays (world b') = energised (relays (world b)))
    /\ exists reports,
         outbox b' = outbox b ++ reports
         /\ Forall (fun m => exists text,
                      m = "403 Processing Error: " +:+ text) reports.
Proof.
  intros Hall. unfold OwlCamBusPy.listen_for_can_commands.
  apply (for_each_returns (listener_kept b)); [|apply listener_kept_refl].
  intros a s Ha Hs.
  destruct (cambus_listen_pass config_dir config_name a s) as (s' & E & K).
  - rewrite Forall_forall in Hall. apply (Hall a Ha).
  - exists s'. split; [exact E|]. eapply listener_kept_trans; eassumption.
Qed.

(** X24 on six arrivals, three of them malformed. *)
Lemma cambus_listener_survives_witness :
  exists b',
    @OwlCamBusPy.listen_for_can_commands Bench.text "config" "owl.ini"
      [Received "301 pause"; Received "garbage"; Received "zz stop";
       Received "303 stop"; Received "999 x";
       ReceiveRaises (LibraryError "zmq")] Bench.bus
    = (b', Ok tt)
    /\ received (world b') = received (world Bench.bus)
    /\ controller_running (world b') = controller_running (world Bench.bus)
    /\ listener_alive b' = listener_alive Bench.bus
    /\ (relays (world b') = relays (world Bench.bus)
        \/ relays (world b') = energised (relays (world Bench.bus)))
    /\ exists reports,
         outbox b' = outbox Bench.bus ++ reports
         /\ Forall (fun m => exists text,
                      m = "403 Processing Error: " +:+ text) reports.
Proof.
  apply (@cambus_listener_survives Bench.text).
  repeat constructor; intros can_id command E; vm_compute in E; inversion E;
    vm_compute; discriminate.
Defined.

(** X25. In [Owlcambus.py] the action run for a message is the one
    [CAN_COMMANDS] gives for its id; the text after the first space
    only goes to the log line. *)
Theorem cambus_action_chosen_by_id `{Builtins}
  (config_dir config_name : string) (can_id command name : string) (n : Z)
  (b : Bus) :
  no_space can_id ->
  int_of_hex can_id = Some n ->
  OwlCamBusPy.CAN_COMMANDS !! n = Some name ->
  OwlCamBusPy.handle_message config_dir config_name
    (can_id +:+ " " +:+ command) b
  = OwlCamBusPy.execute_can_command config_dir config_name name
      (set_world
         (set_stdout
            (fun out => out ++ ["[CAN COMMAND] Received: CAN ID: "
                                +:+ pretty n +:+ ", Command: " +:+ command])
            (world b)) b).
Proof.
  intros Hid Hn Hname. unfold OwlCamBusPy.handle_message, split_space_1.
  rewrite (partition_space_app can_id command Hid), Hn, Hname.
  reflexivity.
Qed.

(** X25 on the message [303 stop], which energises every relay. *)
Lemma cambus_action_chosen_by_id_witness :
  @OwlCamBusPy.handle_message Bench.text "config" "owl.ini"
    ("303" +:+ " " +:+ "stop") Bench.bus
  = @OwlCamBusPy.execute_can_command Bench.text "config" "owl.ini"
      "boom_flush"
      (set_world
         (set_stdout
            (fun out => out ++ ["[CAN COMMAND] Received: CAN ID: "
                                +:+ pretty 771 +:+ ", Command: " +:+ "stop"])
            (world Bench.bus)) Bench.bus)
  /\ relays (world (@OwlCamBusPy.handle_message Bench.text "config" "owl.ini"
                      "303 stop" Bench.bus).1)
     = [true; true; true; true].
Proof.
  split.
  - apply (@cambus_action_chosen_by_id Bench.text "config" "owl.ini"
             "303" "stop" "boom_flush" 771); reflexivity.
  - vm_compute. reflexivity.
Defined.

(** X27. In [Owlcanbus.py], [report_error] on a closed socket sends
    nothing and still returns: the send error is caught and logged,
    and the line that follows says the report was sent. *)
Theorem canbus_report_logs_sent_on_closed_socket `{Builtins}
  (error_code : Z) (name error_message : string) (b : Bus) :
  OwlCanBusPy.ERROR_CODES !! error_code = Some name ->
  socket_open b = false ->
  let full_message :=
    format_x error_code +:+ " " +:+ name +:+ ": " +:+ error_message in
  exists b',
    OwlCanBusPy.report_error error_code error_message b = (b', Ok tt)
    /\ outbox b' = outbox b
    /\ stdout (world b')
       = stdout (world b)
         ++ ["Error sending status to server: "
             +:+ str_of_exn (LibraryError "OSError");
             "[ERROR REPORT] Sent to server: " +:+ full_message].
Proof.
  intros Hc Hs full_message. unfold OwlCanBusPy.report_error.
  unfold bind at 1, getitem. rewrite Hc. cbn [ret].
  unfold OwlCanBusPy.send_status_to_server, OwlCanBusPy.socket_send,
    try_except. unfold bind at 1 2. rewrite Hs.
  eexists. split; [reflexivity|]. split; [reflexivity|].
  cbn. rewrite <- app_assoc. reflexivity.
Qed.

(** X27 at a camera error after the socket was closed. *)
Lemma canbus_report_logs_sent_witness :
  let b := set_socket_open false Bench.bus in
  exists b',
    @OwlCanBusPy.report_error Bench.text 0x401 "no camera" b = (b', Ok tt)
    /\ outbox b' = outbox b
    /\ stdout (world b')
       = stdout (world b)
         ++ ["Error sending status to server: "
             +:+ @str_of_exn Bench.text (LibraryError "OSError");
             "[ERROR REPORT] Sent to server: "
             +:+ (format_x 0x401 +:+ " " +:+ "Camera Error" +:+ ": "
                  +:+ "no camera")].
Proof.
  cbv zeta.
  apply (@canbus_report_logs_sent_on_closed_socket Bench.text 0x401
           "Camera Error" "no camera" (set_socket_open false Bench.bus));
    reflexivity.
Defined.
